(** * Phoenix company scanner: the risk scorer and the collector

    A shallow embedding of [calculate_risk], [build_address_string],
    [api_request] and [deep_scan_company] of [hitntry.py], and the
    properties of the scoring rules and of the collection sequence.

    Python values are modelled as follows.
    - [int] is [Z]; a [float] is taken at its exact rational value ([Q]).
    - A registry record is a Python [dict] read with [d.get(k, default)],
      [k in d] and [d[k]]: it is a record whose fields are [option]s, [None]
      standing for a missing key.  Reading [d[k]] on a missing key raises
      [KeyError], which is kept ([Raised]).
    - Payloads that are only passed through (filing history, PSC entries,
      the insolvency record) are [json] values.
    - The standard-library and network functions the code calls
      ([str.lower], [difflib.SequenceMatcher], float formatting,
      [datetime.strptime], [datetime.now], [requests.get]) are the
      variables of the sections below. *)

From Stdlib Require Import ZArith QArith List String Ascii Bool Lia.
From Stdlib Require Import DecimalString.
Import ListNotations.

Open Scope string_scope.
Open Scope Z_scope.

(** ** Python helpers *)

(** [d.get(k, default)] on an optional field. *)
Definition get {A : Type} (field : option A) (default : A) : A :=
  match field with
  | Some v => v
  | None => default
  end.

(** [s in [s1, s2, ...]] on strings. *)
Definition in_list (s : string) (l : list string) : bool :=
  existsb (String.eqb s) l.

(** Truth value of a string and of a list. *)
Definition truthy_str (s : string) : bool := negb (String.eqb s "").

Definition truthy_list {A : Type} (l : list A) : bool :=
  match l with
  | [] => false
  | _ :: _ => true
  end.

(** [str(n)] and [f"{n}"] for an [int]. *)
Definition str (n : Z) : string := NilZero.string_of_int (Z.to_int n).

(** [len(l)]. *)
Definition len {A : Type} (l : list A) : Z := Z.of_nat (List.length l).

(** [sep.join(parts)]. *)
Fixpoint join (sep : string) (parts : list string) : string :=
  match parts with
  | [] => ""
  | [p] => p
  | p :: rest => p ++ sep ++ join sep rest
  end.

(** Comparisons of a float with an integer literal. *)
Definition Qgeb (x y : Q) : bool := Qle_bool y x.
Definition Qgtb (x y : Q) : bool := negb (Qle_bool x y).

(** Opaque JSON payloads. *)
#[warnings="-register-all"]
Inductive json : Type :=
| JNull
| JBool (b : bool)
| JNum (n : Z)
| JStr (s : string)
| JList (l : list json)
| JDict (kv : list (string * json)).

Definition dict : Type := list (string * json).

(** ** Exceptions *)

Inductive exn : Type :=
| KeyError (key : string).

Inductive outcome (A : Type) : Type :=
| Returned (a : A)
| Raised (e : exn).

Arguments Returned {A} a.
Arguments Raised {A} e.

Definition bind {A B : Type} (m : outcome A) (k : A -> outcome B) : outcome B :=
  match m with
  | Returned a => k a
  | Raised e => Raised e
  end.

Declare Scope outcome_scope.
Delimit Scope outcome_scope with outcome.
Notation "x <- m ;; k" := (bind m (fun x => k))
  (at level 100, m at next level, right associativity) : outcome_scope.

(** [d[k]]. *)
Definition getitem {A : Type} (field : option A) (key : string) : outcome A :=
  match field with
  | Some v => Returned v
  | None => Raised (KeyError key)
  end.

(** ** Data model *)

Module Address.
Record t : Type := mk {
  address_line_1 : option string;
  address_line_2 : option string;
  locality : option string;
  postal_code : option string
}.
End Address.

Module Company.
(** The company profile, [report['company']]. *)
Record t : Type := mk {
  company_name : option string;
  company_number : option string;
  company_status : option string;
  type : option string;
  date_of_creation : option string;
  date_of_cessation : option string;
  registered_office_address : option Address.t
}.

(** The empty dict [{}]. *)
Definition empty : t := mk None None None None None None None.
End Company.

Module Hit.
(** An item of a company search, and a similar-company candidate. *)
Record t : Type := mk {
  title : option string;
  company_number : option string;
  company_status : option string;
  date_of_creation : option string;
  date_of_cessation : option string;
  address_snippet : option string;
  found_by : option string
}.

(** [hit['found_by'] = tag]. *)
Definition set_found_by (tag : string) (h : t) : t :=
  mk (title h) (company_number h) (company_status h) (date_of_creation h)
     (date_of_cessation h) (address_snippet h) (Some tag).
End Hit.

Module Linked.
(** An entry of [officer_entry['linked_companies']]. *)
Record t : Type := mk {
  company_number : string;
  title : string;
  status : string;
  date_of_creation : string
}.
End Linked.

Module Officer.
(** An officer summary, [officer_entry] of the collector. *)
Record t : Type := mk {
  name : string;
  role : string;
  appointed_on : string;
  resigned_on : string;
  linked_companies : list Linked.t;
  dissolved_links : Z;
  liquidation_links : Z;
  recent_formations : Z
}.

(** [officer_entry['linked_companies'].append(l)]. *)
Definition append_linked (l : Linked.t) (o : t) : t :=
  mk (name o) (role o) (appointed_on o) (resigned_on o)
     (linked_companies o ++ [l])
     (dissolved_links o) (liquidation_links o) (recent_formations o).

(** [officer_entry['dissolved_links'] += 1]. *)
Definition incr_dissolved (o : t) : t :=
  mk (name o) (role o) (appointed_on o) (resigned_on o) (linked_companies o)
     (dissolved_links o + 1) (liquidation_links o) (recent_formations o).

(** [officer_entry['liquidation_links'] += 1]. *)
Definition incr_liquidation (o : t) : t :=
  mk (name o) (role o) (appointed_on o) (resigned_on o) (linked_companies o)
     (dissolved_links o) (liquidation_links o + 1) (recent_formations o).

(** [officer_entry['recent_formations'] += 1]. *)
Definition incr_recent (o : t) : t :=
  mk (name o) (role o) (appointed_on o) (resigned_on o) (linked_companies o)
     (dissolved_links o) (liquidation_links o) (recent_formations o + 1).
End Officer.

Module RawOfficer.
(** An item of the officers listing. *)
Record t : Type := mk {
  name : option string;
  officer_role : option string;
  appointed_on : option string;
  resigned_on : option string
}.
End RawOfficer.

Module Charge.
Record t : Type := mk {
  status : option string;
  created_on : option string;
  classification : option dict
}.
End Charge.

Record indicator : Type := mk_indicator {
  type : string;
  severity : string;
  description : string
}.

Module Report.
(** The investigation bundle; the last four keys exist once scored. *)
Record t : Type := mk {
  company : Company.t;
  officers : list Officer.t;
  filing_history : list json;
  psc : list json;
  charges : list Charge.t;
  insolvency : dict;
  similar_companies : list Hit.t;
  flags : list string;
  risk_score : Z;
  phoenix_indicators : list indicator;
  is_phoenix : option string;
  phoenix_confidence : option Z;
  phoenix_reasons : option (list string);
  risk_level : option string
}.

(** The report of line 456, before anything is fetched. *)
Definition initial : t :=
  mk Company.empty [] [] [] [] [] [] [] 0 [] None None None None.

(** [report['company'] = c] *)
Definition set_company (c : Company.t) (r : t) : t :=
  mk c (officers r) (filing_history r) (psc r)
     (charges r) (insolvency r) (similar_companies r) (flags r)
     (risk_score r) (phoenix_indicators r) (is_phoenix r)
     (phoenix_confidence r) (phoenix_reasons r) (risk_level r).

(** [report['officers'].append(o)] *)
Definition append_officer (o : Officer.t) (r : t) : t :=
  mk (company r) (officers r ++ [o]) (filing_history r) (psc r)
     (charges r) (insolvency r) (similar_companies r) (flags r)
     (risk_score r) (phoenix_indicators r) (is_phoenix r)
     (phoenix_confidence r) (phoenix_reasons r) (risk_level r).

(** [report['filing_history'] = l] *)
Definition set_filing_history (l : list json) (r : t) : t :=
  mk (company r) (officers r) l (psc r)
     (charges r) (insolvency r) (similar_companies r) (flags r)
     (risk_score r) (phoenix_indicators r) (is_phoenix r)
     (phoenix_confidence r) (phoenix_reasons r) (risk_level r).

(** [report['psc'] = l] *)
Definition set_psc (l : list json) (r : t) : t :=
  mk (company r) (officers r) (filing_history r) l
     (charges r) (insolvency r) (similar_companies r) (flags r)
     (risk_score r) (phoenix_indicators r) (is_phoenix r)
     (phoenix_confidence r) (phoenix_reasons r) (risk_level r).

(** [report['charges'] = l] *)
Definition set_charges (l : list Charge.t) (r : t) : t :=
  mk (company r) (officers r) (filing_history r) (psc r)
     l (insolvency r) (similar_companies r) (flags r)
     (risk_score r) (phoenix_indicators r) (is_phoenix r)
     (phoenix_confidence r) (phoenix_reasons r) (risk_level r).

(** [report['insolvency'] = d] *)
Definition set_insolvency (d : dict) (r : t) : t :=
  mk (company r) (officers r) (filing_history r) (psc r)
     (charges r) d (similar_companies r) (flags r)
     (risk_score r) (phoenix_indicators r) (is_phoenix r)
     (phoenix_confidence r) (phoenix_reasons r) (risk_level r).

(** [report['similar_companies'].append(h)] *)
Definition append_similar (h : Hit.t) (r : t) : t :=
  mk (company r) (officers r) (filing_history r) (psc r)
     (charges r) (insolvency r) (similar_companies r ++ [h]) (flags r)
     (risk_score r) (phoenix_indicators r) (is_phoenix r)
     (phoenix_confidence r) (phoenix_reasons r) (risk_level r).

(** [report['similar_companies'] = l] *)
Definition set_similar_companies (l : list Hit.t) (r : t) : t :=
  mk (company r) (officers r) (filing_history r) (psc r)
     (charges r) (insolvency r) l (flags r)
     (risk_score r) (phoenix_indicators r) (is_phoenix r)
     (phoenix_confidence r) (phoenix_reasons r) (risk_level r).

(** [report['flags'].append(f)] *)
Definition append_flag (f : string) (r : t) : t :=
  mk (company r) (officers r) (filing_history r) (psc r)
     (charges r) (insolvency r) (similar_companies r) (flags r ++ [f])
     (risk_score r) (phoenix_indicators r) (is_phoenix r)
     (phoenix_confidence r) (phoenix_reasons r) (risk_level r).
End Report.


(** ** [build_address_string] *)

Definition build_address_string (company : Company.t) : string :=
  match Company.registered_office_address company with
  | None => ""
  | Some addr =>
      let parts :=
        flat_map
          (fun field =>
             match field with
             | Some v => if truthy_str v then [v] else []
             | None => []
             end)
          [Address.address_line_1 addr; Address.address_line_2 addr;
           Address.locality addr; Address.postal_code addr] in
      join " " parts
  end.

(** ** The scorer, [calculate_risk] *)

Definition suspicious_statuses : list string :=
  ["dissolved"; "liquidation"; "insolvency-proceedings"; "receivership";
   "administration"].

(** The local variables of the rule pass (lines 223-377). *)
Record locals : Type := mk_locals {
  risk_score : Z;
  indicators : list indicator;
  name_recycling_dissolved : list Hit.t;
  phoenix_directors : list Officer.t;
  serial_directors : list Officer.t;
  address_matches : list Hit.t
}.

(** The local variables of the verdict pass (lines 390-437). *)
Record verdict : Type := mk_verdict {
  is_phoenix : bool;
  phoenix_confidence : Z;
  phoenix_reasons : list string
}.

(** [risk_score += delta]. *)
Definition add_risk (delta : Z) (st : locals) : locals :=
  mk_locals (risk_score st + delta) (indicators st)
    (name_recycling_dissolved st) (phoenix_directors st)
    (serial_directors st) (address_matches st).

(** [indicators.append(ind)]. *)
Definition indicate (ind : indicator) (st : locals) : locals :=
  mk_locals (risk_score st) (indicators st ++ [ind])
    (name_recycling_dissolved st) (phoenix_directors st)
    (serial_directors st) (address_matches st).

Definition append_name_recycling (similar : Hit.t) (st : locals) : locals :=
  mk_locals (risk_score st) (indicators st)
    (name_recycling_dissolved st ++ [similar]) (phoenix_directors st)
    (serial_directors st) (address_matches st).

Definition append_phoenix_director (officer : Officer.t) (st : locals) : locals :=
  mk_locals (risk_score st) (indicators st)
    (name_recycling_dissolved st) (phoenix_directors st ++ [officer])
    (serial_directors st) (address_matches st).

Definition append_serial_director (officer : Officer.t) (st : locals) : locals :=
  mk_locals (risk_score st) (indicators st)
    (name_recycling_dissolved st) (phoenix_directors st)
    (serial_directors st ++ [officer]) (address_matches st).

Definition set_address_matches (l : list Hit.t) (st : locals) : locals :=
  mk_locals (risk_score st) (indicators st)
    (name_recycling_dissolved st) (phoenix_directors st)
    (serial_directors st) l.

(** [phoenix_confidence += delta; phoenix_reasons.append(reason)]. *)
Definition raise_confidence (delta : Z) (reason : string) (v : verdict) : verdict :=
  mk_verdict (is_phoenix v) (phoenix_confidence v + delta)
    (phoenix_reasons v ++ [reason]).

(** [if phoenix_confidence >= 60: is_phoenix = True]. *)
Definition check_verdict (v : verdict) : verdict :=
  if 60 <=? phoenix_confidence v
  then mk_verdict true (phoenix_confidence v) (phoenix_reasons v)
  else v.

Definition risk_level_of (risk_score : Z) : string :=
  if 70 <=? risk_score then "CRITICAL"
  else if 50 <=? risk_score then "HIGH"
  else if 30 <=? risk_score then "MEDIUM"
  else "LOW".

Definition no_pattern_reason : string :=
  "No clear phoenix patterns detected based on name, director, or address analysis".

Section Scorer.

(** [str.lower]. *)
Variable lower : string -> string.

(** [SequenceMatcher(None, a, b).ratio() * 100], the resulting float at its
    exact value. *)
Variable ratio_x100 : string -> string -> Q.

(** [f"{x:.0f}"] for a float. *)
Variable format_0f : Q -> string.

(** Line 231: the status rule. *)
Definition score_company_status (company_status : string) (st : locals) : locals :=
  if in_list company_status suspicious_statuses
  then indicate
         (mk_indicator "company_status" "high"
            ("Company status is: " ++ company_status))
         (add_risk 30 st)
  else st.

(** Lines 242-265: the body of the loop over the similar companies. *)
Definition score_similar (company_name : string) (st : locals) (similar : Hit.t)
  : outcome locals :=
  let similar_name := lower (get (Hit.title similar) "") in
  let similar_status := get (Hit.company_status similar) "" in
  let similar_number := get (Hit.company_number similar) "" in
  let similarity := ratio_x100 company_name similar_name in
  if in_list similar_status ["dissolved"; "liquidation"; "insolvency-proceedings"]
  then
    if Qgeb similarity 70
    then
      let st := append_name_recycling similar st in
      if Qgeb similarity 85
      then
        let st := add_risk 25 st in
        (title <- getitem (Hit.title similar) "title" ;;
         Returned
           (indicate
              (mk_indicator "high_name_similarity" "high"
                 ("Very similar name to dissolved company: " ++ title ++ " ("
                    ++ similar_number ++ ") - " ++ format_0f similarity
                    ++ "% match"))
              st))%outcome
      else if Qgeb similarity 70
      then
        let st := add_risk 15 st in
        (title <- getitem (Hit.title similar) "title" ;;
         Returned
           (indicate
              (mk_indicator "name_similarity" "medium"
                 ("Similar name to dissolved company: " ++ title ++ " ("
                    ++ similar_number ++ ") - " ++ format_0f similarity
                    ++ "% match"))
              st))%outcome
      else Returned st
    else Returned st
  else Returned st.

(** Line 241: [for similar in report['similar_companies']]. *)
Fixpoint score_similars (company_name : string) (similars : list Hit.t) (st : locals)
  : outcome locals :=
  match similars with
  | [] => Returned st
  | similar :: rest =>
      (st' <- score_similar company_name st similar ;;
       score_similars company_name rest st')%outcome
  end.

(** Lines 267-280: the name recycling rule. *)
Definition score_name_recycling (st : locals) : locals :=
  let n := len (name_recycling_dissolved st) in
  if 3 <=? n
  then indicate
         (mk_indicator "name_recycling" "critical"
            (str n ++ " dissolved companies with similar names found - strong name recycling pattern"))
         (add_risk 30 st)
  else if 2 <=? n
  then indicate
         (mk_indicator "name_recycling" "high"
            (str n ++ " dissolved companies with similar names found - possible name recycling"))
         (add_risk 20 st)
  else st.

(** Lines 286-332: the body of the loop over the officers.  The list
    [officer_flags] is written and never read; it is left out. *)
Definition score_officer (st : locals) (officer : Officer.t) : locals :=
  let name := Officer.name officer in
  let dissolved_links := Officer.dissolved_links officer in
  let liquidation_links := Officer.liquidation_links officer in
  let recent_formations := Officer.recent_formations officer in
  let officer_risk := 0 in
  let '(officer_risk, st) :=
    if 3 <=? dissolved_links
    then (officer_risk + 30,
          indicate
            (mk_indicator "serial_dissolutions" "critical"
               (name ++ " has " ++ str dissolved_links ++ " dissolved companies"))
            (append_serial_director officer st))
    else if 2 <=? dissolved_links
    then (officer_risk + 20,
          indicate
            (mk_indicator "multiple_dissolutions" "high"
               (name ++ " has " ++ str dissolved_links ++ " dissolved companies"))
            st)
    else (officer_risk, st) in
  let '(officer_risk, st) :=
    if 2 <=? liquidation_links
    then (officer_risk + 40,
          indicate
            (mk_indicator "liquidation_pattern" "critical"
               (name ++ " linked to " ++ str liquidation_links
                  ++ " companies in liquidation/insolvency"))
            st)
    else if 1 <=? liquidation_links
    then (officer_risk + 20,
          indicate
            (mk_indicator "liquidation_history" "high"
               (name ++ " linked to " ++ str liquidation_links
                  ++ " company in liquidation/insolvency"))
            st)
    else (officer_risk, st) in
  let '(officer_risk, st) :=
    if (1 <=? dissolved_links) && (1 <=? recent_formations)
    then (officer_risk + 25,
          indicate
            (mk_indicator "phoenix_director_pattern" "high"
               (name ++ ": " ++ str dissolved_links ++ " dissolved companies + "
                  ++ str recent_formations
                  ++ " recent formations (potential phoenix activity)"))
            (append_phoenix_director officer st))
    else (officer_risk, st) in
  add_risk officer_risk st.

(** Line 285: [for officer in report['officers']]. *)
Definition score_officers (officers : list Officer.t) (st : locals) : locals :=
  fold_left score_officer officers st.

(** Lines 338-343: the candidates whose address snippet matches. *)
Definition matching_addresses (target_address : string) (similars : list Hit.t)
  : list Hit.t :=
  filter
    (fun similar =>
       match Hit.address_snippet similar with
       | Some snippet => Qgtb (ratio_x100 (lower target_address) (lower snippet)) 85
       | None => false
       end)
    similars.

(** Lines 334-358: the address recycling rule. *)
Definition score_address (company : Company.t) (similars : list Hit.t) (st : locals)
  : locals :=
  let st := set_address_matches [] st in
  let target_address := build_address_string company in
  if truthy_str target_address
  then
    let st := set_address_matches (matching_addresses target_address similars) st in
    let n := len (address_matches st) in
    if 5 <=? n
    then indicate
           (mk_indicator "address_recycling" "critical"
              (str n ++ " companies with same/similar addresses - strong address recycling pattern"))
           (add_risk 35 st)
    else if 3 <=? n
    then indicate
           (mk_indicator "address_recycling" "high"
              (str n ++ " companies with same/similar addresses - possible address recycling"))
           (add_risk 25 st)
    else st
  else st.

(** Lines 360-369: the outstanding charges rule. *)
Definition score_charges (charges : list Charge.t) (st : locals) : locals :=
  if truthy_list charges
  then
    let outstanding :=
      len (filter
             (fun charge =>
                match Charge.status charge with
                | Some s => String.eqb s "outstanding"
                | None => false
                end)
             charges) in
    if 0 <? outstanding
    then indicate
           (mk_indicator "outstanding_charges" "medium"
              (str outstanding ++ " outstanding charges/mortgages on company"))
           (add_risk 10 st)
    else st
  else st.

(** Lines 371-377: the insolvency rule. *)
Definition score_insolvency (insolvency : dict) (st : locals) : locals :=
  if truthy_list insolvency
  then indicate
         (mk_indicator "insolvency_history" "critical"
            "Company has insolvency proceedings on record")
         (add_risk 40 st)
  else st.

(** Lines 223-377: all the rules, before the clamp of line 379. *)
Definition score_rules (report : Report.t) : outcome locals :=
  let st := mk_locals 0 [] [] [] [] [] in
  let company_name := lower (get (Company.company_name (Report.company report)) "") in
  let company_status := get (Company.company_status (Report.company report)) "" in
  let st := score_company_status company_status st in
  (st <- score_similars company_name (Report.similar_companies report) st ;;
   let st := score_name_recycling st in
   let st := score_officers (Report.officers report) st in
   let st := score_address (Report.company report) (Report.similar_companies report) st in
   let st := score_charges (Report.charges report) st in
   let st := score_insolvency (Report.insolvency report) st in
   Returned st)%outcome.

(** Lines 394-401: directors showing the phoenix pattern. *)
Definition verdict_directors (directors : Z) (v : verdict) : verdict :=
  if 2 <=? directors
  then check_verdict
         (raise_confidence 40
            (str directors
               ++ " directors show phoenix patterns (dissolved companies + recent formations)")
            v)
  else if 1 <=? directors
  then raise_confidence 25
         (str directors
            ++ " director shows phoenix pattern (dissolved companies + recent formations)")
         v
  else v.

(** Lines 403-408: directors linked to several liquidations. *)
Definition verdict_liquidation (officers : list Officer.t) (v : verdict) : verdict :=
  let high_liquidation_directors :=
    filter (fun d => 2 <=? Officer.liquidation_links d) officers in
  if truthy_list high_liquidation_directors
  then check_verdict
         (raise_confidence 35
            (str (len high_liquidation_directors)
               ++ " director(s) linked to multiple liquidations/insolvencies")
            v)
  else v.

(** Lines 410-417: name recycling. *)
Definition verdict_name_recycling (recycled : Z) (v : verdict) : verdict :=
  if 3 <=? recycled
  then check_verdict
         (raise_confidence 30
            ("Name recycling detected: " ++ str recycled ++ " similar dissolved companies")
            v)
  else if 2 <=? recycled
  then raise_confidence 20
         ("Possible name recycling: " ++ str recycled ++ " similar dissolved companies")
         v
  else v.

(** Lines 419-425: insolvency together with phoenix directors. *)
Definition verdict_insolvency (indicators : list indicator) (directors : Z)
  (v : verdict) : verdict :=
  let has_insolvency :=
    existsb (fun ind => String.eqb (type ind) "insolvency_history") indicators in
  let has_phoenix_directors := 0 <? directors in
  if has_insolvency && has_phoenix_directors
  then check_verdict
         (raise_confidence 30
            "Insolvency history combined with directors forming new companies" v)
  else v.

(** Lines 427-431: shared addresses together with name recycling. *)
Definition verdict_address (matches recycled : Z) (v : verdict) : verdict :=
  if (3 <=? matches) && (2 <=? recycled)
  then check_verdict
         (raise_confidence 25
            "Multiple companies with same address and similar names" v)
  else v.

(** Lines 433-437: serial directors together with name recycling. *)
Definition verdict_serial (serial recycled : Z) (v : verdict) : verdict :=
  if (1 <=? serial) && (2 <=? recycled)
  then check_verdict
         (raise_confidence 20
            (str serial ++ " serial director(s) with name recycling pattern") v)
  else v.

(** Lines 390-437: the phoenix verdict. *)
Definition phoenix_verdict (officers : list Officer.t) (st : locals) : verdict :=
  let directors := len (phoenix_directors st) in
  let recycled := len (name_recycling_dissolved st) in
  let v := mk_verdict false 0 [] in
  let v := verdict_directors directors v in
  let v := verdict_liquidation officers v in
  let v := verdict_name_recycling recycled v in
  let v := verdict_insolvency (indicators st) directors v in
  let v := verdict_address (len (address_matches st)) recycled v in
  let v := verdict_serial (len (serial_directors st)) recycled v in
  v.

(** [calculate_risk(report)]: the rules, the clamps, the verdict and the six
    keys written into the report (lines 444-449). *)
Definition calculate_risk (report : Report.t) : outcome Report.t :=
  (st <- score_rules report ;;
   let risk_score := Z.min (risk_score st) 100 in
   let risk_level := risk_level_of risk_score in
   let v := phoenix_verdict (Report.officers report) st in
   let phoenix_confidence := Z.min (phoenix_confidence v) 100 in
   let phoenix_reasons :=
     if truthy_list (phoenix_reasons v) then phoenix_reasons v
     else [no_pattern_reason] in
   Returned
     (Report.mk
        (Report.company report) (Report.officers report)
        (Report.filing_history report) (Report.psc report)
        (Report.charges report) (Report.insolvency report)
        (Report.similar_companies report) (Report.flags report)
        risk_score
        (indicators st)
        (Some (if is_phoenix v then "YES" else "NO"))
        (Some phoenix_confidence)
        (Some phoenix_reasons)
        (Some risk_level)))%outcome.

End Scorer.

(** ** The registry client, [api_request] and its wrappers *)

Definition PHOENIX_BASE_URL : string :=
  "https://api.company-information.service.gov.uk".

(** What [requests.get] does: it raises a [RequestException], or returns a
    response with its status code, its text and its decoded JSON body.  A body
    that cannot be decoded raises inside the [try] block as well. *)
Inductive http_outcome (A : Type) : Type :=
| RequestException (message : string)
| Response (status_code : Z) (text : string) (body : A).

Arguments RequestException {A} message.
Arguments Response {A} status_code text body.

(** What [api_request] returns: a dict with the key ['error'], or the JSON
    body. *)
Inductive api_result (A : Type) : Type :=
| ApiError (error : string) (status_code : option Z)
| ApiOk (body : A).

Arguments ApiError {A} error status_code.
Arguments ApiOk {A} body.

(** ['error' in result]. *)
Definition is_error {A : Type} (result : api_result A) : bool :=
  match result with
  | ApiError _ _ => true
  | ApiOk _ => false
  end.

(** A JSON body of which the code reads the key ['items']. *)
Record listing (A : Type) : Type := mk_listing {
  items : option (list A)
}.

Arguments mk_listing {A} items.
Arguments items {A} l.

(** [data.get('items', [])] on the result of [api_request]. *)
Definition items_or_empty {A : Type} (data : api_result (listing A)) : list A :=
  match data with
  | ApiError _ _ => []
  | ApiOk body => get (items body) []
  end.

(** The registry resources, and the JSON body of each. *)
Inductive resource : Type :=
| Profile
| Officers
| FilingHistory
| PSC
| Charges
| Insolvency
| Search.

Definition body_of (k : resource) : Type :=
  match k with
  | Profile => Company.t
  | Officers => listing RawOfficer.t
  | FilingHistory => listing json
  | PSC => listing json
  | Charges => listing Charge.t
  | Insolvency => dict
  | Search => listing Hit.t
  end.

(** [timedelta(days=n)], in microseconds. *)
Definition timedelta_days (n : Z) : Z := n * 86400000000.

(** What [deep_scan_company] returns: [{'error': ...}] or the scored report. *)
Inductive scan_result : Type :=
| ScanError (error : string)
| Scanned (report : Report.t).

Section Collector.

Variable lower : string -> string.
Variable ratio_x100 : string -> string -> Q.
Variable format_0f : Q -> string.

(** The state of the world outside the program: the registry and the clock. *)
Variable World : Type.

(** [requests.get(url, headers=get_api_headers(), timeout=30)]. *)
Variable requests_get :
  forall k : resource, string -> World -> http_outcome (body_of k) * World.

(** [datetime.now()], in microseconds. *)
Variable now : World -> Z * World.

(** [datetime.strptime(s, fmt)], in microseconds; [None] is [ValueError]. *)
Variable strptime : string -> string -> option Z.

(** Lines 152-168. *)
Definition api_request (k : resource) (endpoint : string) (w : World)
  : api_result (body_of k) * World :=
  let url := PHOENIX_BASE_URL ++ endpoint in
  let '(response, w) := requests_get k url w in
  match response with
  | RequestException e => (ApiError e None, w)
  | Response status_code text body =>
      if status_code =? 404
      then (ApiError "Not found" (Some 404), w)
      else if negb (status_code =? 200)
      then (ApiError ("HTTP " ++ str status_code ++ ": " ++ substring 0 500 text) None, w)
      else (ApiOk body, w)
  end.

Definition get_company (company_number : string) :=
  api_request Profile ("/company/" ++ company_number).

Definition get_officers (company_number : string) :=
  api_request Officers ("/company/" ++ company_number ++ "/officers").

Definition get_filing_history (company_number : string) :=
  api_request FilingHistory
    ("/company/" ++ company_number ++ "/filing-history?items_per_page=100").

Definition get_psc (company_number : string) :=
  api_request PSC
    ("/company/" ++ company_number ++ "/persons-with-significant-control").

Definition get_charges (company_number : string) :=
  api_request Charges ("/company/" ++ company_number ++ "/charges").

Definition get_insolvency (company_number : string) :=
  api_request Insolvency ("/company/" ++ company_number ++ "/insolvency").

Definition search_companies (query : string) :=
  api_request Search ("/search/companies?q=" ++ query ++ "&items_per_page=100").

(** ** The collector, [deep_scan_company] *)

(** Lines 528-535: the recency test of one linked company. *)
Definition count_recent_formation (date_of_creation : string)
  (officer_entry : Officer.t) (w : World) : Officer.t * World :=
  if truthy_str date_of_creation
  then
    match strptime date_of_creation "%Y-%m-%d" with
    | Some creation_date =>
        let '(today, w) := now w in
        let two_years_ago := today - timedelta_days 730 in
        if two_years_ago <? creation_date
        then (Officer.incr_recent officer_entry, w)
        else (officer_entry, w)
    | None => (officer_entry, w)
    end
  else (officer_entry, w).

(** Lines 508-535: the body of the loop over the hits of an officer search. *)
Definition scan_linked_company (officer_name : string)
  (acc : Officer.t * Report.t * World) (linked_company : Hit.t)
  : Officer.t * Report.t * World :=
  let '(officer_entry, report, w) := acc in
  let company_status := get (Hit.company_status linked_company) "" in
  let company_title := get (Hit.title linked_company) "" in
  let company_num := get (Hit.company_number linked_company) "" in
  let date_of_creation := get (Hit.date_of_creation linked_company) "" in
  let officer_entry :=
    Officer.append_linked
      (Linked.mk company_num company_title company_status date_of_creation)
      officer_entry in
  let '(officer_entry, report) :=
    if in_list company_status suspicious_statuses
    then
      let officer_entry :=
        if String.eqb company_status "dissolved"
        then Officer.incr_dissolved officer_entry
        else officer_entry in
      let officer_entry :=
        if in_list company_status ["liquidation"; "insolvency-proceedings"]
        then Officer.incr_liquidation officer_entry
        else officer_entry in
      (officer_entry,
       Report.append_flag
         ("Director " ++ officer_name ++ " linked to " ++ company_title
            ++ " (" ++ company_status ++ ")")
         report)
    else (officer_entry, report) in
  let '(officer_entry, w) := count_recent_formation date_of_creation officer_entry w in
  (officer_entry, report, w).

(** Lines 493-537: the body of the loop over the officers. *)
Definition scan_officer (acc : Report.t * World) (officer : RawOfficer.t)
  : Report.t * World :=
  let '(report, w) := acc in
  let officer_name := get (RawOfficer.name officer) "(unknown)" in
  let officer_entry :=
    Officer.mk officer_name
      (get (RawOfficer.officer_role officer) "")
      (get (RawOfficer.appointed_on officer) "")
      (get (RawOfficer.resigned_on officer) "")
      [] 0 0 0 in
  let '(search, w) := search_companies officer_name w in
  let '(officer_entry, report, w) :=
    match search with
    | ApiOk (mk_listing (Some hits)) =>
        fold_left (scan_linked_company officer_name) hits (officer_entry, report, w)
    | _ => (officer_entry, report, w)
    end in
  (Report.append_officer officer_entry report, w).

(** Lines 539-546: the candidates found by name. *)
Definition collect_by_name (company_number : string) (company : Company.t)
  (report : Report.t) (w : World) : Report.t * World :=
  let company_name := get (Company.company_name company) "" in
  if truthy_str company_name
  then
    let '(similar, w) := search_companies company_name w in
    match similar with
    | ApiOk (mk_listing (Some hits)) =>
        (fold_left
           (fun report sim_company =>
              let sim_num := get (Hit.company_number sim_company) "" in
              if negb (String.eqb sim_num company_number)
              then Report.append_similar sim_company report
              else report)
           hits report,
         w)
    | _ => (report, w)
    end
  else (report, w).

(** Lines 553-558: one hit of the address search. *)
Definition add_by_address (company_number : string) (report : Report.t)
  (addr_company : Hit.t) : Report.t :=
  let addr_num := get (Hit.company_number addr_company) "" in
  if negb (String.eqb addr_num company_number)
  then
    let exists_ :=
      existsb
        (fun sc =>
           match Hit.company_number sc with
           | Some n => String.eqb n addr_num
           | None => false
           end)
        (Report.similar_companies report) in
    if negb exists_
    then Report.append_similar (Hit.set_found_by "address" addr_company) report
    else report
  else report.

(** Lines 548-558: the candidates found by address. *)
Definition collect_by_address (company_number : string) (company : Company.t)
  (report : Report.t) (w : World) : Report.t * World :=
  let address := build_address_string company in
  if truthy_str address
  then
    let '(address_search, w) := search_companies address w in
    match address_search with
    | ApiOk (mk_listing (Some hits)) =>
        (fold_left (add_by_address company_number) hits report, w)
    | _ => (report, w)
    end
  else (report, w).

(** Lines 474-537: the records of the company and its officers. *)
Definition collect_records (company_number : string) (company : Company.t) (w : World)
  : Report.t * World :=
  let report := Report.set_company company Report.initial in
  let '(officers_data, w) := get_officers company_number w in
  let officers := items_or_empty officers_data in
  let '(filing_data, w) := get_filing_history company_number w in
  let report := Report.set_filing_history (items_or_empty filing_data) report in
  let '(psc_data, w) := get_psc company_number w in
  let report := Report.set_psc (items_or_empty psc_data) report in
  let '(charges_data, w) := get_charges company_number w in
  let report := Report.set_charges (items_or_empty charges_data) report in
  let '(insolvency_data, w) := get_insolvency company_number w in
  let report :=
    match insolvency_data with
    | ApiOk data => Report.set_insolvency data report
    | ApiError _ _ => report
    end in
  fold_left scan_officer officers (report, w).

(** Lines 474-558: the collection once the profile is fetched. *)
Definition collect (company_number : string) (company : Company.t) (w : World)
  : Report.t * World :=
  let '(report, w) := collect_records company_number company w in
  let '(report, w) := collect_by_name company_number company report w in
  collect_by_address company_number company report w.

(** [deep_scan_company(company_number)]. *)
Definition deep_scan_company (company_number : string) (w : World)
  : outcome scan_result * World :=
  let '(company, w) := get_company company_number w in
  match company with
  | ApiError error _ => (Returned (ScanError error), w)
  | ApiOk company =>
      let '(report, w) := collect company_number company w in
      ((report <- calculate_risk lower ratio_x100 format_0f report ;;
        Returned (Scanned report))%outcome,
       w)
  end.

End Collector.

(** ** The library functions on ASCII text

    Executable versions of the four library functions, on ASCII strings; the
    examples below are evaluated with them. *)

(** [str.lower] on ASCII letters. *)
Definition ascii_lower_char (c : ascii) : ascii :=
  let n := nat_of_ascii c in
  if ((65 <=? n) && (n <=? 90))%nat then ascii_of_nat (n + 32) else c.

Fixpoint ascii_lower (s : string) : string :=
  match s with
  | EmptyString => EmptyString
  | String c rest => String (ascii_lower_char c) (ascii_lower rest)
  end.

(** Length of the common prefix of two sequences. *)
Fixpoint common_prefix (a b : list ascii) : nat :=
  match a, b with
  | x :: a', y :: b' => if Ascii.eqb x y then S (common_prefix a' b') else 0
  | _, _ => 0
  end.

(** The longest block of [a] (given from its start) found in [b], scanning
    the starts [j], [j + 1], ... of [b]: a later start wins only when its block
    is strictly longer. *)
Fixpoint longest_from (a b : list ascii) (j : nat) (best : nat * nat) : nat * nat :=
  match b with
  | [] => best
  | _ :: b' =>
      let k := common_prefix a b in
      longest_from a b' (S j) (if (snd best <? k)%nat then (j, k) else best)
  end.

(** [find_longest_match] without junk: the block [(i, j, k)] with [k] largest,
    then [i] least, then [j] least. *)
Fixpoint find_longest_match (a b : list ascii) (i : nat) (best : nat * nat * nat)
  : nat * nat * nat :=
  match a with
  | [] => best
  | _ :: a' =>
      let '(j, k) := longest_from a b 0%nat (0%nat, 0%nat) in
      find_longest_match a' b (S i)
        (if (snd best <? k)%nat then (i, j, k) else best)
  end.

(** The total size of the blocks of [get_matching_blocks]: the longest block,
    then the same on what is left of it and on what is right of it. *)
Fixpoint matching_size (fuel : nat) (a b : list ascii) : nat :=
  match fuel with
  | O => 0
  | S fuel =>
      let '(i, j, k) := find_longest_match a b 0%nat (0%nat, 0%nat, 0%nat) in
      if (k =? 0)%nat then 0%nat
      else (k + matching_size fuel (firstn i a) (firstn j b)
              + matching_size fuel (skipn (i + k) a) (skipn (j + k) b))%nat
  end.

(** [SequenceMatcher(None, a, b).ratio() * 100] for sequences of fewer than 200
    elements (the popularity heuristic starts at 200), the quotient taken
    exactly. *)
Definition sequence_ratio_x100 (a b : string) : Q :=
  let la := list_ascii_of_string a in
  let lb := list_ascii_of_string b in
  let total := (List.length la + List.length lb)%nat in
  match total with
  | O => 100
  | S _ =>
      Qred (Z.of_nat (200 * matching_size (List.length la) la lb)
              # Pos.of_nat total)
  end.

(** [f"{x:.0f}"]: the nearest integer, ties to even. *)
Definition round_half_even (x : Q) : Z :=
  let n := Qnum x in
  let d := Zpos (Qden x) in
  let q := n / d in
  let r := n mod d in
  match 2 * r ?= d with
  | Lt => q
  | Gt => q + 1
  | Eq => if Z.even q then q else q + 1
  end.

Definition format_0f_exact (x : Q) : string := str (round_half_even x).

(** Reading a decimal numeral. *)
Definition digit_of (c : ascii) : option Z :=
  let n := nat_of_ascii c in
  if ((48 <=? n) && (n <=? 57))%nat then Some (Z.of_nat (n - 48)) else None.

Fixpoint digits_value (l : list ascii) (acc : Z) : option Z :=
  match l with
  | [] => Some acc
  | c :: rest =>
      match digit_of c with
      | Some d => digits_value rest (10 * acc + d)
      | None => None
      end
  end.

(** Splitting at the first ['-']. *)
Fixpoint split_dash (l : list ascii) : list ascii * option (list ascii) :=
  match l with
  | [] => ([], None)
  | c :: rest =>
      if Ascii.eqb c "-"%char then ([], Some rest)
      else let '(before, after) := split_dash rest in (c :: before, after)
  end.

Definition is_leap (y : Z) : bool :=
  ((y mod 4 =? 0) && negb (y mod 100 =? 0)) || (y mod 400 =? 0).

Definition days_in_month (y m : Z) : Z :=
  if m =? 2 then (if is_leap y then 29 else 28)
  else if (m =? 4) || (m =? 6) || (m =? 9) || (m =? 11) then 30
  else 31.

Definition days_before_month (y m : Z) : Z :=
  fold_left (fun acc k => acc + days_in_month y (Z.of_nat k))
    (seq 1 (Z.to_nat (m - 1))) 0.

(** [date(y, m, d).toordinal()]. *)
Definition ordinal (y m d : Z) : Z :=
  let y1 := y - 1 in
  365 * y1 + y1 / 4 - y1 / 100 + y1 / 400 + days_before_month y m + d.

(** The field [%m]: [1[0-2]|0[1-9]|[1-9]]. *)
Definition month_field (l : list ascii) : option Z :=
  match l with
  | [_] | [_; _] =>
      match digits_value l 0 with
      | Some m => if (1 <=? m) && (m <=? 12) then Some m else None
      | None => None
      end
  | _ => None
  end.

(** The field [%d]: [3[0-1]|[1-2]\d|0[1-9]|[1-9]| [1-9]]. *)
Definition day_field (l : list ascii) : option Z :=
  let digits :=
    match l with
    | [c; d] => if Ascii.eqb c " "%char then [d] else l
    | _ => l
    end in
  match digits with
  | [_] | [_; _] =>
      match digits_value digits 0 with
      | Some d => if (1 <=? d) && (d <=? 31) then Some d else None
      | None => None
      end
  | _ => None
  end.

(** [datetime.strptime(s, '%Y-%m-%d')] as microseconds since the day before
    0001-01-01; any other format is refused. *)
Definition strptime_ymd (s fmt : string) : option Z :=
  if negb (String.eqb fmt "%Y-%m-%d") then None
  else
    match split_dash (list_ascii_of_string s) with
    | (year, Some rest) =>
        match split_dash rest with
        | (month, Some day) =>
            match year with
            | [_; _; _; _] =>
                match digits_value year 0, month_field month, day_field day with
                | Some y, Some m, Some d =>
                    if (1 <=? y) && (d <=? days_in_month y m)
                    then Some (ordinal y m d * 86400000000)
                    else None
                | _, _, _ => None
                end
            | _ => None
            end
        | _ => None
        end
    | _ => None
    end.

(** ** A scripted registry

    The world is the clock, in microseconds; a registry answers each URL with
    a fixed outcome; a request takes a quarter of a second and reading the
    clock one microsecond. *)

Definition registry : Type := forall k : resource, string -> http_outcome (body_of k).

Definition scripted_get (reg : registry) (k : resource) (url : string) (w : Z)
  : http_outcome (body_of k) * Z :=
  (reg k url, w + 250000).

Definition clock_now (w : Z) : Z * Z := (w, w + 1).

(** The successive readings of a clock. *)
Fixpoint readings {World : Type} (now : World -> Z * World) (n : nat) (w : World)
  : list Z :=
  match n with
  | O => []
  | S n' => let '(today, w') := now w in today :: readings now n' w'
  end.

(** 2025-11-04 00:00:00. *)
Definition scan_start : Z := 739559 * 86400000000.

Definition acme : Company.t :=
  Company.mk (Some "ACME TRADING LTD") (Some "01234567") (Some "active")
    (Some "ltd") (Some "2024-03-01") None
    (Some (Address.mk (Some "1 High Street") None (Some "Leeds") (Some "LS1 1AA"))).

Definition acme_old : Hit.t :=
  Hit.mk (Some "ACME TRADING LIMITED") (Some "00000001") (Some "dissolved")
    (Some "2019-05-01") (Some "2023-01-31") (Some "1 High Street, Leeds, LS1 1AA")
    None.

Definition acme_itself : Hit.t :=
  Hit.mk (Some "ACME TRADING LTD") (Some "01234567") (Some "active")
    (Some "2024-03-01") None (Some "1 High Street, Leeds, LS1 1AA") None.

Definition acme_new : Hit.t :=
  Hit.mk (Some "ACME TRADERS LTD") (Some "00000003") (Some "active")
    (Some "2025-06-01") None None None.

Definition neighbour : Hit.t :=
  Hit.mk (Some "LEEDS BAKERY LTD") (Some "00000002") (Some "active")
    (Some "2010-10-10") None (Some "1 High Street, Leeds, LS1 1AA") None.

Definition undated : Hit.t :=
  Hit.mk (Some "SMITH HOLDINGS LTD") (Some "00000004") (Some "liquidation")
    None None None None.

Definition misdated : Hit.t :=
  Hit.mk (Some "SMITH AND SONS LTD") (Some "00000005") (Some "active")
    (Some "01/06/2025") None None None.

Definition smith : RawOfficer.t :=
  RawOfficer.mk (Some "SMITH, John") (Some "director") (Some "2024-03-01") None.

Definition base : string := PHOENIX_BASE_URL.

(** A registry that answers every call for company 01234567. *)
Definition healthy : registry :=
  fun k =>
    match k return string -> http_outcome (body_of k) with
    | Profile => fun url =>
        if String.eqb url (base ++ "/company/01234567")
        then Response 200 "" acme
        else Response 404 "" Company.empty
    | Officers => fun _ => Response 200 "" (mk_listing (Some [smith]))
    | FilingHistory => fun _ => Response 200 "" (mk_listing (Some [JDict [("category", JStr "accounts")]]))
    | PSC => fun _ => Response 200 "" (mk_listing (Some [JDict [("name", JStr "Mr John Smith")]]))
    | Charges => fun _ =>
        Response 200 "" (mk_listing (Some [Charge.mk (Some "outstanding") (Some "2024-09-09") None]))
    | Insolvency => fun _ => Response 404 "" []
    | Search => fun url =>
        if String.eqb url (base ++ "/search/companies?q=SMITH, John&items_per_page=100")
        then Response 200 "" (mk_listing (Some [acme_old; acme_new; undated; misdated]))
        else if String.eqb url (base ++ "/search/companies?q=ACME TRADING LTD&items_per_page=100")
        then Response 200 "" (mk_listing (Some [acme_itself; acme_old; acme_new]))
        else if String.eqb url (base ++ "/search/companies?q=1 High Street Leeds LS1 1AA&items_per_page=100")
        then Response 200 "" (mk_listing (Some [acme_itself; acme_old; neighbour]))
        else Response 200 "" (mk_listing (Some []))
    end.

(** A registry of which only the profile call succeeds. *)
Definition degraded : registry :=
  fun k =>
    match k return string -> http_outcome (body_of k) with
    | Profile => fun _ => Response 200 "" acme
    | Officers => fun _ => Response 500 "Internal Server Error" (mk_listing None)
    | FilingHistory => fun _ => RequestException "Read timed out."
    | PSC => fun _ => Response 404 "" (mk_listing None)
    | Charges => fun _ => Response 502 "Bad Gateway" (mk_listing None)
    | Insolvency => fun _ => Response 429 "Too Many Requests" []
    | Search => fun _ => RequestException "Connection refused"
    end.

(** A registry that does not know the company. *)
Definition unknown_company : registry :=
  fun k =>
    match k return string -> http_outcome (body_of k) with
    | Profile => fun _ => Response 404 "" Company.empty
    | _ => fun _ => RequestException "Connection refused"
    end.

(** The scan of a scripted registry with the library functions on ASCII. *)
Definition scripted_scan (reg : registry) (company_number : string)
  : outcome scan_result * Z :=
  deep_scan_company ascii_lower sequence_ratio_x100 format_0f_exact Z
    (scripted_get reg) clock_now strptime_ymd company_number scan_start.

(** ** Example bundles *)

Definition builder (name : string) : Officer.t :=
  Officer.mk name "director" "2024-01-15" ""
    [Linked.mk "07000001" "PHOENIX BUILDERS LIMITED" "dissolved" "2018-04-02";
     Linked.mk "15000001" "PHOENIX BUILDING SERVICES LTD" "active" "2025-02-03"]
    1 0 1.

Definition dissolved_hit (title number : string) : Hit.t :=
  Hit.mk (Some title) (Some number) (Some "dissolved") (Some "2018-04-02")
    (Some "2023-06-30") None None.

(** A company without a registered address, two directors who each have one
    dissolved company and one recent formation, two dissolved namesakes. *)
Definition two_directors_two_namesakes : Report.t :=
  Report.mk
    (Company.mk (Some "PHOENIX BUILDERS LTD") (Some "14000001") (Some "active")
       (Some "ltd") (Some "2024-01-15") None None)
    [builder "DOE, Jane"; builder "ROE, Richard"]
    [] [] [] []
    [dissolved_hit "PHOENIX BUILDERS LIMITED" "07000001";
     dissolved_hit "PHOENIX BUILDERS (UK) LTD" "09000001"]
    ["Director DOE, Jane linked to PHOENIX BUILDERS LIMITED (dissolved)";
     "Director ROE, Richard linked to PHOENIX BUILDERS LIMITED (dissolved)"]
    0 [] None None None None.

(** An active company with nothing on record. *)
Definition quiet : Report.t :=
  Report.mk acme [] [JDict [("category", JStr "accounts")]] [] [] [] [] []
    0 [] None None None None.

(** An active company and three dissolved namesakes. *)
Definition three_namesakes : Report.t :=
  Report.mk acme [] [] [] [] []
    [dissolved_hit "ACME TRADING LIMITED" "00000001";
     dissolved_hit "ACME TRADING LTD." "00000006";
     dissolved_hit "ACME TRADING (UK) LTD" "00000007"]
    [] 0 [] None None None None.

(** The bundle of the healthy registry, before scoring. *)
Definition acme_bundle : Report.t :=
  fst (collect Z (scripted_get healthy) clock_now strptime_ymd "01234567" acme
         (scan_start + 250000)).

(** The bundle of the degraded registry, before scoring. *)
Definition degraded_bundle : Report.t :=
  fst (collect Z (scripted_get degraded) clock_now strptime_ymd "01234567" acme
         (scan_start + 250000)).

(** What the scorer returns, or the report itself when it raises. *)
Definition scored (report : Report.t) : Report.t :=
  match calculate_risk ascii_lower sequence_ratio_x100 format_0f_exact report with
  | Returned report' => report'
  | Raised _ => report
  end.

Definition acme_scored : Report.t := Eval vm_compute in scored acme_bundle.

(** Candidates at the two boundaries: 7 of 10 characters of the name
    ["abcdefgxyz"], and 17 of 20 of the name ["abcdefghijklmnopqrst"]. *)
Definition at_70 : Hit.t := dissolved_hit "ABCDEFGQRS" "00000008".
Definition at_85 : Hit.t := dissolved_hit "ABCDEFGHIJKLMNOPQXYZ" "00000009".

Definition no_locals : locals := mk_locals 0 [] [] [] [] [].

(** ** Vocabulary of the statements *)

(** What the collector writes into a bundle. *)
Definition collected (r : Report.t) :=
  (Report.company r, Report.officers r, Report.filing_history r, Report.psc r,
   Report.charges r, Report.insolvency r, Report.similar_companies r,
   Report.flags r).

(** What the scorer writes into a bundle. *)
Definition assessment (r : Report.t) :=
  (Report.risk_score r, Report.risk_level r, Report.is_phoenix r,
   Report.phoenix_confidence r, Report.phoenix_reasons r,
   Report.phoenix_indicators r).

(** A rule fired between [st] and [st']: it added [delta] to the score and
    appended one indicator of the given type and severity. *)
Definition fired (delta : Z) (ty sev : string) (st st' : locals) : Prop :=
  risk_score st' = risk_score st + delta /\
  exists text, indicators st' = (indicators st ++ [mk_indicator ty sev text])%list.

(** The statuses of the name similarity rules (line 248). *)
Definition closed_statuses : list string :=
  ["dissolved"; "liquidation"; "insolvency-proceedings"].

(** The type and the severity of each indicator. *)
Definition kinds (l : list indicator) : list (string * string) :=
  map (fun ind => (type ind, severity ind)) l.

(** The creation date of a search hit when the key is there, not empty, and
    parses as [%Y-%m-%d]. *)
Definition parsed_creation (strptime : string -> string -> option Z) (hit : Hit.t)
  : option Z :=
  let date_of_creation := get (Hit.date_of_creation hit) "" in
  if truthy_str date_of_creation
  then strptime date_of_creation "%Y-%m-%d"
  else None.

Definition parsed_creations (strptime : string -> string -> option Z)
  (hits : list Hit.t) : list Z :=
  flat_map
    (fun hit =>
       match parsed_creation strptime hit with
       | Some creation_date => [creation_date]
       | None => []
       end)
    hits.

(** Strictly later than 730 days before [today]. *)
Definition is_recent (creation_date today : Z) : bool :=
  today - timedelta_days 730 <? creation_date.

(** Each date against the clock reading taken for it. *)
Definition count_recent (dates clock : list Z) : Z :=
  len (filter (fun '(creation_date, today) => is_recent creation_date today)
         (combine dates clock)).

(** The hits of a search other than the scanned company (line 545). *)
Definition not_the_target (company_number : string) (hit : Hit.t) : bool :=
  negb (String.eqb (get (Hit.company_number hit) "") company_number).

Definition titled (hit : Hit.t) : Prop := Hit.title hit <> None.

(** What the scan fetches after the profile, apart from the officers. *)
Definition fetched (r : Report.t) :=
  (Report.company r, Report.filing_history r, Report.psc r, Report.charges r,
   Report.insolvency r).

(** A candidate written by the address search from the hit [raw]. *)
Definition tagged_address (hits : list Hit.t) (candidate : Hit.t) : Prop :=
  Hit.found_by candidate = Some "address" /\
  exists raw, In raw hits /\ candidate = Hit.set_found_by "address" raw.

(** The officer entry of line 494, before the officer's search. *)
Definition blank_entry (officer : RawOfficer.t) : Officer.t :=
  Officer.mk (get (RawOfficer.name officer) "(unknown)")
    (get (RawOfficer.officer_role officer) "")
    (get (RawOfficer.appointed_on officer) "")
    (get (RawOfficer.resigned_on officer) "")
    [] 0 0 0.

(** A verdict agrees with its confidence up to [bound]: YES only from 60 on,
    NO only up to [bound]. *)
Definition settled (bound : Z) (v : verdict) : Prop :=
  (is_phoenix v = true -> 60 <= phoenix_confidence v) /\
  (is_phoenix v = false -> phoenix_confidence v <= bound).

(** ** The CSV viewer, [CSVStreamReader] and [get_embedded_csv_data] *)

Module Reader.
(** The attributes of a [CSVStreamReader]. *)
Record t : Type := mk {
  filepath : string;
  file_size : Z;
  _headers : option (list string);
  _total_rows : option Z
}.

Definition set_headers (headers : list string) (self : t) : t :=
  mk (filepath self) (file_size self) (Some headers) (_total_rows self).

Definition set_total_rows (count : Z) (self : t) : t :=
  mk (filepath self) (file_size self) (_headers self) (Some count).
End Reader.

(** [next(reader, None)] on an iterator, given by what it has left. *)
Definition next {A : Type} (reader : list A) : option A * list A :=
  match reader with
  | [] => (None, [])
  | row :: rest => (Some row, rest)
  end.

(** Lines 90-91: [for _ in range(n): next(reader, None)]. *)
Fixpoint skip_rows {A : Type} (n : nat) (reader : list A) : list A :=
  match n with
  | O => reader
  | S n' => skip_rows n' (snd (next reader))
  end.

(** Lines 94-101: at most [n] rows are appended; the loop breaks when the
    reader is exhausted. *)
Fixpoint read_rows {A : Type} (n : nat) (reader : list A) (rows : list A) : list A :=
  match n with
  | O => rows
  | S n' =>
      match next reader with
      | (None, _) => rows
      | (Some row, reader') => read_rows n' reader' (rows ++ [row])
      end
  end.

(** Lines 1576-1577: [while len(row) < max_cols: row.append('')], the number
    of missing columns being [missing]. *)
Fixpoint pad_row (missing : nat) (row : list string) : list string :=
  match missing with
  | O => row
  | S missing' => pad_row missing' (row ++ [""])
  end.

(** Lines 1575-1578: a row brought to [max_cols] columns. *)
Definition normalize_row (max_cols : nat) (row : list string) : list string :=
  firstn max_cols (pad_row (max_cols - List.length row) row).

(** What [get_embedded_csv_data] returns: an error with its status, or the
    JSON of a page. *)
Inductive page_response : Type :=
| PageError (status : Z) (error : string)
| Page (headers : list string) (rows : list (list string))
    (current_page total_pages total_rows start_row end_row : Z).

Section CsvViewer.

(** The lines of the file at a path; [None] when it cannot be opened. *)
Variable read_lines : string -> option (list string).

(** [csv.reader(f)]: the rows that the lines of a file hold. *)
Variable csv_rows : list string -> list (list string).

(** [int(s)]; [inl] is the message of the [ValueError]. *)
Variable int : string -> string + Z.

(** [str(e)] for the [ZeroDivisionError] of [//]. *)
Variable division_by_zero : string.

(** Lines 44-56. *)
Definition get_headers (self : Reader.t) : list string * Reader.t :=
  match Reader._headers self with
  | Some headers => (headers, self)
  | None =>
      match read_lines (Reader.filepath self) with
      | Some lines =>
          let headers := get (fst (next (csv_rows lines))) [] in
          (headers, Reader.set_headers headers self)
      | None => ([], self)
      end
  end.

(** Lines 58-77: the lines after the first one; [next(f)] on an empty file
    raises and the method returns 0. *)
Definition count_rows (self : Reader.t) : Z * Reader.t :=
  match Reader._total_rows self with
  | Some count => (count, self)
  | None =>
      match read_lines (Reader.filepath self) with
      | Some (_ :: rest) =>
          let count := len rest in
          (count, Reader.set_total_rows count self)
      | Some [] => (0, self)
      | None => (0, self)
      end
  end.

(** Lines 79-109. *)
Definition get_rows (self : Reader.t) (start_row end_row : Z) : list (list string) :=
  match read_lines (Reader.filepath self) with
  | Some lines =>
      let reader := csv_rows lines in
      let reader := snd (next reader) in
      let reader := skip_rows (Z.to_nat start_row) reader in
      read_rows (Z.to_nat (end_row - start_row)) reader []
  | None => []
  end.

(** Lines 1549-1590; the arguments are [request.args.get('page')] and
    [request.args.get('rows_per_page')]. *)
Definition get_embedded_csv_data (csv_reader : option Reader.t)
  (page_arg rows_per_page_arg : option string)
  : page_response * option Reader.t :=
  match csv_reader with
  | None => (PageError 404 "CSV file not available", None)
  | Some self =>
      match (match page_arg with Some s => int s | None => inr 1 end) with
      | inl message => (PageError 500 message, Some self)
      | inr page =>
          match (match rows_per_page_arg with
                 | Some s => int s
                 | None => inr 1000
                 end) with
          | inl message => (PageError 500 message, Some self)
          | inr rows_per_page =>
              let '(total_rows, self) := count_rows self in
              if rows_per_page =? 0
              then (PageError 500 division_by_zero, Some self)
              else
                let total_pages := (total_rows + rows_per_page - 1) / rows_per_page in
                if (page <? 1) || (total_pages <? page)
                then (PageError 400 "Invalid page number", Some self)
                else
                  let start_idx := (page - 1) * rows_per_page in
                  let end_idx := Z.min (start_idx + rows_per_page) total_rows in
                  let '(headers, self) := get_headers self in
                  let rows := get_rows self start_idx end_idx in
                  let max_cols := List.length headers in
                  let normalized_rows := map (normalize_row max_cols) rows in
                  (Page headers normalized_rows page total_pages total_rows
                     (start_idx + 1) end_idx,
                   Some self)
          end
      end
  end.

End CsvViewer.

(** ** The colours of the scan page, [scan] *)

(** Lines 1635-1642: the colour of the risk score. *)
Definition risk_color (risk_score : Z) : string :=
  if 70 <=? risk_score then "#d63638"
  else if 50 <=? risk_score then "#dba617"
  else if 30 <=? risk_score then "#f0c33c"
  else "#00a32a".

(** Line 1650: the colour of the phoenix verdict. *)
Definition phoenix_bg (phoenix_status : string) : string :=
  if String.eqb phoenix_status "YES" then "#dc3545" else "#28a745".

(** ** Further vocabulary of the statements *)

Definition indicator_types : list string :=
  ["company_status"; "high_name_similarity"; "name_similarity"; "name_recycling";
   "serial_dissolutions"; "multiple_dissolutions"; "liquidation_pattern";
   "liquidation_history"; "phoenix_director_pattern"; "address_recycling";
   "outstanding_charges"; "insolvency_history"].

Definition indicator_severities : list string := ["medium"; "high"; "critical"].

Definition known (ind : indicator) : Prop :=
  In (type ind) indicator_types /\ In (severity ind) indicator_severities.

(** From [st] to [st'] indicators were appended, each of a known type and
    severity and each with between 10 and 40 points. *)
Definition adds (st st' : locals) : Prop :=
  exists added,
    indicators st' = (indicators st ++ added)%list /\
    Forall known added /\
    10 * len added <= risk_score st' - risk_score st <= 40 * len added.

(** Inside the officer loop: indicators appended to [st], their points still
    held in [officer_risk]. *)
Definition pending (st : locals) (officer_risk : Z) (st' : locals) : Prop :=
  exists added,
    indicators st' = (indicators st ++ added)%list /\
    Forall known added /\
    10 * len added <= officer_risk <= 40 * len added /\
    risk_score st' = risk_score st.

(** The four lists that the rule pass builds. *)
Definition lists (st : locals) :=
  (name_recycling_dissolved st, phoenix_directors st, serial_directors st,
   address_matches st).

(** At most [n] reasons, each worth 20 to 40 points of confidence. *)
Definition reasoned (n : Z) (v : verdict) : Prop :=
  len (phoenix_reasons v) <= n /\
  20 * len (phoenix_reasons v) <= phoenix_confidence v
    <= 40 * len (phoenix_reasons v).

(** The three officer patterns of lines 289, 306 and 322. *)
Definition serial_pattern (officer : Officer.t) : bool :=
  3 <=? Officer.dissolved_links officer.

Definition liquidation_pattern (officer : Officer.t) : bool :=
  2 <=? Officer.liquidation_links officer.

Definition phoenix_pattern (officer : Officer.t) : bool :=
  (1 <=? Officer.dissolved_links officer) && (1 <=? Officer.recent_formations officer).

(** A candidate counted as a recycled name (lines 248-250). *)
Definition recycled_name (lower : string -> string)
  (ratio_x100 : string -> string -> Q) (company_name : string) (similar : Hit.t)
  : bool :=
  in_list (get (Hit.company_status similar) "") closed_statuses
  && Qgeb (ratio_x100 company_name (lower (get (Hit.title similar) ""))) 70.

(** A recycled name without the key ['title']. *)
Definition untitled_match (lower : string -> string)
  (ratio_x100 : string -> string -> Q) (company_name : string) (similar : Hit.t)
  : bool :=
  recycled_name lower ratio_x100 company_name similar
  && match Hit.title similar with Some _ => false | None => true end.

(** The components of an address that are there and not empty, in the order
    of line 214. *)
Definition address_parts (addr : Address.t) : list string :=
  filter truthy_str
    (map (fun field => get field "")
       [Address.address_line_1 addr; Address.address_line_2 addr;
        Address.locality addr; Address.postal_code addr]).

(** The total length of a list of strings. *)
Definition total_length (parts : list string) : nat :=
  fold_right (fun part n => (String.length part + n)%nat) 0%nat parts.

(** The company numbers that the hits carry. *)
Definition present_numbers (hits : list Hit.t) : list string :=
  flat_map
    (fun hit =>
       match Hit.company_number hit with
       | Some n => [n]
       | None => []
       end)
    hits.

(** The linked company recorded for a hit (lines 513-518). *)
Definition linked_of (hit : Hit.t) : Linked.t :=
  Linked.mk (get (Hit.company_number hit) "") (get (Hit.title hit) "")
    (get (Hit.company_status hit) "") (get (Hit.date_of_creation hit) "").

(** The flag recorded for a hit of a suspicious status (line 526). *)
Definition flag_of (officer_name : string) (hit : Hit.t) : string :=
  "Director " ++ officer_name ++ " linked to " ++ get (Hit.title hit) ""
    ++ " (" ++ get (Hit.company_status hit) "" ++ ")".

Definition has_status (statuses : list string) (hit : Hit.t) : bool :=
  in_list (get (Hit.company_status hit) "") statuses.

(** The name, role and dates of an officer entry, and of a listed officer
    with the defaults of lines 493-498. *)
Definition profile_of (entry : Officer.t) : string * string * string * string :=
  (Officer.name entry, Officer.role entry, Officer.appointed_on entry,
   Officer.resigned_on entry).

Definition listed_profile (officer : RawOfficer.t)
  : string * string * string * string :=
  (get (RawOfficer.name officer) "(unknown)",
   get (RawOfficer.officer_role officer) "",
   get (RawOfficer.appointed_on officer) "",
   get (RawOfficer.resigned_on officer) "").

(** ** Further examples *)

(** The two directors of [two_directors_two_namesakes] with a third dissolved
    namesake. *)
Definition two_directors_three_namesakes : Report.t :=
  Report.set_similar_companies
    (Report.similar_companies two_directors_two_namesakes
       ++ [dissolved_hit "PHOENIX BUILDERS LTD." "11000001"])
    two_directors_two_namesakes.

(** A company in liquidation with an insolvency record and nothing else. *)
Definition insolvent : Report.t :=
  Report.mk
    (Company.mk (Some "ACME TRADING LTD") (Some "01234567") (Some "liquidation")
       (Some "ltd") (Some "2024-03-01") None None)
    [] [] [] []
    [("status", JList [JStr "live-proposed-to-strike-off"]);
     ("cases", JList [JDict [("type", JStr "creditors-voluntary-liquidation")]])]
    [] [] 0 [] None None None None.

(** A profile without a name, and a dissolved candidate without a title. *)
Definition unnamed : Report.t :=
  Report.mk
    (Company.mk None (Some "01234567") (Some "active") None None None
       (Some (Address.mk (Some "1 High Street") None (Some "Leeds") None)))
    [] [] [] [] []
    [Hit.mk None (Some "00000010") (Some "dissolved") None None
       (Some "1 High Street, Leeds") (Some "address")]
    [] 0 [] None None None None.

Definition three_namesakes_scored : Report.t := Eval vm_compute in scored three_namesakes.

Definition insolvent_scored : Report.t := Eval vm_compute in scored insolvent.

Definition two_directors_two_namesakes_scored : Report.t :=
  Eval vm_compute in scored two_directors_two_namesakes.

Definition two_directors_three_namesakes_scored : Report.t :=
  Eval vm_compute in scored two_directors_three_namesakes.

Definition acme_rules : locals :=
  Eval vm_compute in
    match score_rules ascii_lower sequence_ratio_x100 format_0f_exact acme_bundle with
    | Returned st => st
    | Raised _ => no_locals
    end.



(** [int] on plain decimal numerals. *)
Definition int_digits (s : string) : string + Z :=
  match list_ascii_of_string s with
  | [] => inl ("invalid literal for int() with base 10: '" ++ s ++ "'")
  | digits =>
      match digits_value digits 0 with
      | Some n => inr n
      | None => inl ("invalid literal for int() with base 10: '" ++ s ++ "'")
      end
  end.



(** [csv.reader] on lines whose quotes enclose whole fields and hold no
    doubled quote: a comma inside quotes belongs to the field, and a line that
    ends inside quotes continues its field, with the line break, on the next
    line.  [csv_fields] reads one line from the state that the lines before
    left: whether a quote is open, the field and the fields read so far. *)
Fixpoint csv_fields (line : list ascii) (quoted : bool) (field : string)
  (fields : list string) : bool * string * list string :=
  match line with
  | [] => (quoted, field, fields)
  | c :: rest =>
      if Ascii.eqb c "034"%char
      then csv_fields rest (negb quoted) field fields
      else if Ascii.eqb c ","%char && negb quoted
      then csv_fields rest false "" (fields ++ [field])%list
      else csv_fields rest quoted (field ++ String c "") fields
  end.

Fixpoint csv_records (lines : list string) (quoted : bool) (field : string)
  (fields : list string) : list (list string) :=
  match lines with
  | [] => if quoted then [(fields ++ [field])%list] else []
  | line :: rest =>
      if negb quoted && String.eqb line ""
      then [] :: csv_records rest false "" []
      else
        let '(quoted', field', fields') :=
          csv_fields (list_ascii_of_string line) quoted field fields in
        if quoted'
        then csv_records rest true (field' ++ String "010"%char "") fields'
        else (fields' ++ [field'])%list :: csv_records rest false "" []
  end.

Definition quoted_csv_rows (lines : list string) : list (list string) :=
  csv_records lines false "" [].

(** A file of three lines that hold a header and one record, whose quoted
    note runs over two lines; and a reader on it. *)
Definition notes_csv (path : string) : option (list string) :=
  if String.eqb path "notes.csv"
  then Some ["name,note";
             "ACME," ++ String "034"%char "first";
             "second" ++ String "034"%char ""]
  else None.

Definition notes_reader : Reader.t :=
  Reader.mk "notes.csv" 30 None None.

(** * Properties of the scorer *)

Ltac break_if :=
  match goal with
  | |- context [if ?b then _ else _] => destruct b eqn:?
  | H : context [if ?b then _ else _] |- _ => destruct b eqn:?
  end.

Ltac inv_returned :=
  repeat match goal with
  | H : Returned _ = Returned _ |- _ => injection H as H; try subst
  | H : Raised _ = Returned _ |- _ => discriminate H
  | H : bind ?m _ = Returned _ |- _ => destruct m eqn:?; simpl in H
  end.


Lemma risk_score_add_risk delta st :
  risk_score (add_risk delta st) = risk_score st + delta.
Proof. reflexivity. Qed.

Lemma risk_score_indicate ind st :
  risk_score (indicate ind st) = risk_score st.
Proof. reflexivity. Qed.

Lemma bind_returned {A B : Type} (m : outcome A) (k : A -> outcome B) (b : B) :
  bind m k = Returned b -> exists a, m = Returned a /\ k a = Returned b.
Proof.
  destruct m as [a | e]; simpl; intros H.
  - exists a. split; [reflexivity | exact H].
  - discriminate H.
Qed.

Section ScorerProperties.

Local Set Default Proof Using "Type".

Variable lower : string -> string.
Variable ratio_x100 : string -> string -> Q.
Variable format_0f : Q -> string.

Local Abbreviation score_similar := (score_similar lower ratio_x100 format_0f).
Local Abbreviation score_similars := (score_similars lower ratio_x100 format_0f).
Local Abbreviation score_address := (score_address lower ratio_x100).
Local Abbreviation score_rules := (score_rules lower ratio_x100 format_0f).
Local Abbreviation calculate_risk := (calculate_risk lower ratio_x100 format_0f).

(** *** No rule lowers the score *)

Lemma score_company_status_mono status st :
  risk_score st <= risk_score (score_company_status status st).
Proof.
  unfold score_company_status. break_if; simpl; lia.
Qed.

Lemma score_similar_mono name st similar st' :
  score_similar name st similar = Returned st' ->
  risk_score st <= risk_score st'.
Proof.
  unfold score_similar. intros H.
  repeat break_if; destruct (Hit.title similar); simpl in H;
    inv_returned; simpl; lia.
Qed.

Lemma score_similars_mono name similars : forall st st',
  score_similars name similars st = Returned st' ->
  risk_score st <= risk_score st'.
Proof.
  induction similars as [| similar rest IH]; simpl; intros st st' H.
  - injection H as <-. lia.
  - apply bind_returned in H. destruct H as (st1 & H1 & H2).
    apply score_similar_mono in H1. apply IH in H2. lia.
Qed.

Lemma score_name_recycling_mono st :
  risk_score st <= risk_score (score_name_recycling st).
Proof.
  unfold score_name_recycling. repeat break_if; simpl; lia.
Qed.

Lemma score_officer_mono st officer :
  risk_score st <= risk_score (score_officer st officer).
Proof.
  unfold score_officer. repeat break_if; simpl; lia.
Qed.

Lemma score_officers_mono officers : forall st,
  risk_score st <= risk_score (score_officers officers st).
Proof.
  unfold score_officers.
  induction officers as [| officer rest IH]; simpl; intros st.
  - lia.
  - specialize (IH (score_officer st officer)).
    pose proof (score_officer_mono st officer). lia.
Qed.

Lemma score_address_mono company similars st :
  risk_score st <= risk_score (score_address company similars st).
Proof.
  unfold score_address. repeat break_if; simpl; lia.
Qed.

Lemma score_charges_mono charges st :
  risk_score st <= risk_score (score_charges charges st).
Proof.
  unfold score_charges. repeat break_if; simpl; lia.
Qed.

Lemma score_insolvency_mono insolvency st :
  risk_score st <= risk_score (score_insolvency insolvency st).
Proof.
  unfold score_insolvency. break_if; simpl; lia.
Qed.

Lemma score_rules_nonneg report st :
  score_rules report = Returned st -> 0 <= risk_score st.
Proof.
  unfold score_rules. intros H.
  apply bind_returned in H. destruct H as (st1 & H1 & H2).
  injection H2 as <-.
  apply score_similars_mono in H1.
  pose proof (score_company_status_mono
                (get (Company.company_status (Report.company report)) "")
                (mk_locals 0 [] [] [] [] [])) as H0.
  simpl in H0.
  pose proof (score_name_recycling_mono st1).
  pose proof (score_officers_mono (Report.officers report) (score_name_recycling st1)).
  pose proof (score_address_mono (Report.company report)
                (Report.similar_companies report)
                (score_officers (Report.officers report) (score_name_recycling st1))).
  pose proof (score_charges_mono (Report.charges report)
                (score_address (Report.company report)
                   (Report.similar_companies report)
                   (score_officers (Report.officers report) (score_name_recycling st1)))).
  pose proof (score_insolvency_mono (Report.insolvency report)
                (score_charges (Report.charges report)
                   (score_address (Report.company report)
                      (Report.similar_companies report)
                      (score_officers (Report.officers report)
                         (score_name_recycling st1))))).
  lia.
Qed.

(** *** No rule lowers the confidence *)

Lemma check_verdict_confidence v :
  phoenix_confidence (check_verdict v) = phoenix_confidence v.
Proof. unfold check_verdict. break_if; reflexivity. Qed.

Lemma verdict_directors_mono directors v :
  phoenix_confidence v <= phoenix_confidence (verdict_directors directors v).
Proof.
  unfold verdict_directors.
  repeat break_if; rewrite ?check_verdict_confidence; simpl; lia.
Qed.

Lemma verdict_liquidation_mono officers v :
  phoenix_confidence v <= phoenix_confidence (verdict_liquidation officers v).
Proof.
  unfold verdict_liquidation.
  repeat break_if; rewrite ?check_verdict_confidence; simpl; lia.
Qed.

Lemma verdict_name_recycling_mono recycled v :
  phoenix_confidence v <= phoenix_confidence (verdict_name_recycling recycled v).
Proof.
  unfold verdict_name_recycling.
  repeat break_if; rewrite ?check_verdict_confidence; simpl; lia.
Qed.

Lemma verdict_insolvency_mono inds directors v :
  phoenix_confidence v <= phoenix_confidence (verdict_insolvency inds directors v).
Proof.
  unfold verdict_insolvency.
  repeat break_if; rewrite ?check_verdict_confidence; simpl; lia.
Qed.

Lemma verdict_address_mono matches recycled v :
  phoenix_confidence v <= phoenix_confidence (verdict_address matches recycled v).
Proof.
  unfold verdict_address.
  repeat break_if; rewrite ?check_verdict_confidence; simpl; lia.
Qed.

Lemma verdict_serial_mono serial recycled v :
  phoenix_confidence v <= phoenix_confidence (verdict_serial serial recycled v).
Proof.
  unfold verdict_serial.
  repeat break_if; rewrite ?check_verdict_confidence; simpl; lia.
Qed.

Lemma phoenix_verdict_nonneg officers st :
  0 <= phoenix_confidence (phoenix_verdict officers st).
Proof.
  unfold phoenix_verdict.
  set (d := len (phoenix_directors st)).
  set (n := len (name_recycling_dissolved st)).
  set (v0 := mk_verdict false 0 []).
  pose proof (verdict_directors_mono d v0) as H1.
  set (v1 := verdict_directors d v0) in *.
  pose proof (verdict_liquidation_mono officers v1) as H2.
  set (v2 := verdict_liquidation officers v1) in *.
  pose proof (verdict_name_recycling_mono n v2) as H3.
  set (v3 := verdict_name_recycling n v2) in *.
  pose proof (verdict_insolvency_mono (indicators st) d v3) as H4.
  set (v4 := verdict_insolvency (indicators st) d v3) in *.
  pose proof (verdict_address_mono (len (address_matches st)) n v4) as H5.
  set (v5 := verdict_address (len (address_matches st)) n v4) in *.
  pose proof (verdict_serial_mono (len (serial_directors st)) n v5) as H6.
  simpl in H1. lia.
Qed.

(** *** What [calculate_risk] returns *)

Lemma calculate_risk_returned report report' :
  calculate_risk report = Returned report' ->
  exists st,
    score_rules report = Returned st /\
    let v := phoenix_verdict (Report.officers report) st in
    report' =
      Report.mk
        (Report.company report) (Report.officers report)
        (Report.filing_history report) (Report.psc report)
        (Report.charges report) (Report.insolvency report)
        (Report.similar_companies report) (Report.flags report)
        (Z.min (risk_score st) 100)
        (indicators st)
        (Some (if is_phoenix v then "YES" else "NO"))
        (Some (Z.min (phoenix_confidence v) 100))
        (Some (if truthy_list (phoenix_reasons v) then phoenix_reasons v
               else [no_pattern_reason]))
        (Some (risk_level_of (Z.min (risk_score st) 100))).
Proof.
  unfold calculate_risk. intros H.
  apply bind_returned in H. destruct H as (st & H1 & H2).
  exists st. split; [exact H1 |].
  injection H2 as <-. reflexivity.
Qed.

(** C2: whatever bundle is scored, the returned risk_score and
    phoenix_confidence lie in [0, 100]: each is a sum of non-negative
    contributions, clamped at 100. *)
Theorem C2_scores_within_0_100 report report' :
  calculate_risk report = Returned report' ->
  exists st,
    score_rules report = Returned st /\
    0 <= risk_score st /\
    0 <= phoenix_confidence (phoenix_verdict (Report.officers report) st) /\
    Report.risk_score report' = Z.min (risk_score st) 100 /\
    Report.phoenix_confidence report' =
      Some (Z.min (phoenix_confidence (phoenix_verdict (Report.officers report) st)) 100) /\
    0 <= Report.risk_score report' <= 100 /\
    (exists c, Report.phoenix_confidence report' = Some c /\ 0 <= c <= 100).
Proof.
  intros H. apply calculate_risk_returned in H.
  destruct H as (st & Hst & ->). simpl.
  pose proof (score_rules_nonneg _ _ Hst) as Hrisk.
  pose proof (phoenix_verdict_nonneg (Report.officers report) st) as Hconf.
  exists st. repeat split; try assumption; try lia.
  eexists. split; [reflexivity | lia].
Qed.

(** *** The scorer reads and keeps the collected part *)

Lemma calculate_risk_frame report report' :
  calculate_risk report = Returned report' ->
  collected report' = collected report.
Proof.
  intros H. apply calculate_risk_returned in H.
  destruct H as (st & _ & ->). reflexivity.
Qed.

Lemma calculate_risk_reads report1 report2 :
  collected report1 = collected report2 ->
  calculate_risk report1 = calculate_risk report2.
Proof.
  destruct report1, report2. unfold collected. simpl.
  intros H. injection H as -> -> -> -> -> -> -> ->.
  reflexivity.
Qed.

(** C9: scoring leaves every collected field of the bundle as the collector
    produced it (company, officers with their linked companies and counters,
    filing history, PSC, charges, insolvency, similar companies, flags); the
    six assessment keys are all it writes. *)
Theorem C9_scoring_keeps_collected_fields report report' :
  calculate_risk report = Returned report' ->
  Report.company report' = Report.company report /\
  Report.officers report' = Report.officers report /\
  Report.filing_history report' = Report.filing_history report /\
  Report.psc report' = Report.psc report /\
  Report.charges report' = Report.charges report /\
  Report.insolvency report' = Report.insolvency report /\
  Report.similar_companies report' = Report.similar_companies report /\
  Report.flags report' = Report.flags report.
Proof.
  intros H. apply calculate_risk_frame in H.
  unfold collected in H. injection H as H1 H2 H3 H4 H5 H6 H7 H8.
  repeat split; assumption.
Qed.

(** C3: the scorer is a function of the collected fields alone, so two
    bundles with the same collected fields get the same scored report, and
    scoring a scored report again returns it unchanged. *)
Theorem C3_scoring_is_idempotent report report' :
  calculate_risk report = Returned report' ->
  calculate_risk report' = Returned report' /\
  forall other,
    collected other = collected report ->
    calculate_risk other = Returned report' /\
    (forall scored, calculate_risk other = Returned scored ->
                    assessment scored = assessment report').
Proof.
  intros H. split.
  - rewrite <- H. apply calculate_risk_reads.
    apply calculate_risk_frame. exact H.
  - intros other Hsame.
    assert (Hother : calculate_risk other = Returned report').
    { rewrite <- H. apply calculate_risk_reads. exact Hsame. }
    split; [exact Hother |].
    intros scored Hscored. rewrite Hother in Hscored.
    injection Hscored as <-. reflexivity.
Qed.

(** *** The name similarity rules *)

Lemma Qgeb_true x y : (y <= x)%Q -> Qgeb x y = true.
Proof. intros H. apply Qle_bool_iff. exact H. Qed.

Lemma Qgeb_false x y : (x < y)%Q -> Qgeb x y = false.
Proof.
  intros H. unfold Qgeb. destruct (Qle_bool y x) eqn:E; [| reflexivity].
  apply Qle_bool_iff in E. exfalso. exact (Qlt_not_le _ _ H E).
Qed.

Lemma score_similar_high name st similar title :
  in_list (get (Hit.company_status similar) "") closed_statuses = true ->
  Hit.title similar = Some title ->
  (85 <= ratio_x100 name (lower title))%Q ->
  score_similar name st similar =
    Returned
      (indicate
         (mk_indicator "high_name_similarity" "high"
            ("Very similar name to dissolved company: " ++ title ++ " ("
               ++ get (Hit.company_number similar) "" ++ ") - "
               ++ format_0f (ratio_x100 name (lower title)) ++ "% match"))
         (add_risk 25 (append_name_recycling similar st))).
Proof.
  intros Hstatus Htitle Hs. unfold score_similar, closed_statuses in *.
  rewrite Hstatus, Htitle. simpl.
  rewrite (Qgeb_true _ 70) by (eapply Qle_trans; [| exact Hs]; discriminate).
  rewrite (Qgeb_true _ 85) by exact Hs.
  reflexivity.
Qed.

Lemma score_similar_medium name st similar title :
  in_list (get (Hit.company_status similar) "") closed_statuses = true ->
  Hit.title similar = Some title ->
  (70 <= ratio_x100 name (lower title))%Q ->
  (ratio_x100 name (lower title) < 85)%Q ->
  score_similar name st similar =
    Returned
      (indicate
         (mk_indicator "name_similarity" "medium"
            ("Similar name to dissolved company: " ++ title ++ " ("
               ++ get (Hit.company_number similar) "" ++ ") - "
               ++ format_0f (ratio_x100 name (lower title)) ++ "% match"))
         (add_risk 15 (append_name_recycling similar st))).
Proof.
  intros Hstatus Htitle Hlo Hhi. unfold score_similar, closed_statuses in *.
  rewrite Hstatus, Htitle. simpl.
  rewrite (Qgeb_true _ 70) by exact Hlo.
  rewrite (Qgeb_false _ 85) by exact Hhi.
  reflexivity.
Qed.

Lemma score_similar_low name st similar :
  (ratio_x100 name (lower (get (Hit.title similar) "")) < 70)%Q ->
  score_similar name st similar = Returned st.
Proof.
  intros Hs. unfold score_similar.
  rewrite (Qgeb_false _ 70) by exact Hs.
  break_if; reflexivity.
Qed.

Lemma score_similar_other_status name st similar :
  in_list (get (Hit.company_status similar) "") closed_statuses = false ->
  score_similar name st similar = Returned st.
Proof.
  intros Hstatus. unfold score_similar, closed_statuses in *.
  rewrite Hstatus. reflexivity.
Qed.

Lemma score_similars_nil name st :
  score_similars name [] st = Returned st.
Proof. reflexivity. Qed.

Lemma score_similars_cons name similar rest st :
  score_similars name (similar :: rest) st =
    bind (score_similar name st similar)
      (fun st' => score_similars name rest st').
Proof. reflexivity. Qed.

(** A matching candidate without the key ['title'] makes lines 257 and 264
    raise. *)
Lemma score_similar_untitled name st similar :
  in_list (get (Hit.company_status similar) "") closed_statuses = true ->
  Hit.title similar = None ->
  (70 <= ratio_x100 name (lower ""))%Q ->
  score_similar name st similar = Raised (KeyError "title").
Proof.
  intros Hstatus Htitle Hs. unfold score_similar, closed_statuses in *.
  rewrite Hstatus, Htitle. simpl.
  rewrite (Qgeb_true _ 70) by exact Hs.
  break_if; reflexivity.
Qed.

Lemma score_similar_titled name st similar :
  Hit.title similar <> None ->
  exists st', score_similar name st similar = Returned st'.
Proof.
  intros Htitle. unfold score_similar.
  destruct (Hit.title similar) as [title |]; [| contradiction].
  simpl. repeat break_if; eexists; reflexivity.
Qed.

Lemma score_similars_titled name similars : forall st,
  Forall (fun similar => Hit.title similar <> None) similars ->
  exists st', score_similars name similars st = Returned st'.
Proof.
  induction similars as [| similar rest IH]; simpl; intros st Hall.
  - eexists; reflexivity.
  - inversion Hall as [| ? ? Hhead Hrest]; subst.
    destruct (score_similar_titled name st similar Hhead) as (st1 & ->).
    simpl. apply IH. exact Hrest.
Qed.

(** The scorer returns whenever every candidate has a title. *)
Lemma calculate_risk_returns report :
  Forall (fun similar => Hit.title similar <> None) (Report.similar_companies report) ->
  exists report', calculate_risk report = Returned report'.
Proof.
  intros Hall. unfold calculate_risk, score_rules.
  destruct (score_similars_titled
              (lower (get (Company.company_name (Report.company report)) ""))
              (Report.similar_companies report)
              (score_company_status
                 (get (Company.company_status (Report.company report)) "")
                 (mk_locals 0 [] [] [] [] []))
              Hall) as (st & ->).
  simpl. eexists; reflexivity.
Qed.

(** C7: for a candidate whose status is dissolved, liquidation or
    insolvency-proceedings, a name similarity of at least 85 adds 25 with a
    high-severity indicator, one in [70, 85) adds 15 with a medium-severity
    indicator, one below 70 adds nothing; exactly 70 is medium and exactly 85
    is high. *)
Theorem C7_name_similarity_bands name st similar title :
  in_list (get (Hit.company_status similar) "") closed_statuses = true ->
  Hit.title similar = Some title ->
  let similarity := ratio_x100 name (lower title) in
  ((85 <= similarity)%Q ->
   exists st', score_similar name st similar = Returned st' /\
               fired 25 "high_name_similarity" "high" st st') /\
  ((70 <= similarity)%Q -> (similarity < 85)%Q ->
   exists st', score_similar name st similar = Returned st' /\
               fired 15 "name_similarity" "medium" st st') /\
  ((similarity < 70)%Q -> score_similar name st similar = Returned st) /\
  ((similarity == 70)%Q ->
   exists st', score_similar name st similar = Returned st' /\
               fired 15 "name_similarity" "medium" st st') /\
  ((similarity == 85)%Q ->
   exists st', score_similar name st similar = Returned st' /\
               fired 25 "high_name_similarity" "high" st st').
Proof.
  intros Hstatus Htitle similarity.
  assert (Hhigh : (85 <= similarity)%Q ->
                  exists st', score_similar name st similar = Returned st' /\
                              fired 25 "high_name_similarity" "high" st st').
  { intros Hs. eexists. split.
    - apply score_similar_high; eassumption.
    - split; [reflexivity | eexists; reflexivity]. }
  assert (Hmedium : (70 <= similarity)%Q -> (similarity < 85)%Q ->
                    exists st', score_similar name st similar = Returned st' /\
                                fired 15 "name_similarity" "medium" st st').
  { intros Hlo Hhi. eexists. split.
    - apply score_similar_medium; eassumption.
    - split; [reflexivity | eexists; reflexivity]. }
  repeat split.
  - exact Hhigh.
  - exact Hmedium.
  - intros Hs. apply score_similar_low. rewrite Htitle. exact Hs.
  - intros Hs. apply Hmedium.
    + rewrite Hs. discriminate.
    + rewrite Hs. reflexivity.
  - intros Hs. apply Hhigh. rewrite Hs. discriminate.
Qed.

(** C5: a bundle with no officer, no similar company, no charge, no
    insolvency record and a status outside the suspicious ones is scored 0,
    LOW, verdict NO with confidence 0, no indicator, and the single default
    reason. *)
Theorem C5_nothing_on_record report :
  Report.officers report = [] ->
  Report.similar_companies report = [] ->
  Report.charges report = [] ->
  Report.insolvency report = [] ->
  in_list (get (Company.company_status (Report.company report)) "")
    suspicious_statuses = false ->
  exists report',
    calculate_risk report = Returned report' /\
    Report.risk_score report' = 0 /\
    Report.risk_level report' = Some "LOW" /\
    Report.is_phoenix report' = Some "NO" /\
    Report.phoenix_confidence report' = Some 0 /\
    Report.phoenix_indicators report' = [] /\
    Report.phoenix_reasons report' = Some [no_pattern_reason].
Proof.
  intros Hofficers Hsimilar Hcharges Hinsolvency Hstatus.
  unfold calculate_risk, score_rules, score_company_status, score_address.
  rewrite Hofficers, Hsimilar, Hcharges, Hinsolvency, Hstatus.
  simpl. destruct (truthy_str (build_address_string (Report.company report)));
    simpl; eexists; (split; [reflexivity |]); simpl; repeat split; reflexivity.
Qed.

(** Three matching dissolved candidates and nothing else: the rule pass. *)
Lemma three_namesakes_rules report c1 c2 c3 t1 t2 t3 :
  let name := lower (get (Company.company_name (Report.company report)) "") in
  in_list (get (Company.company_status (Report.company report)) "")
    suspicious_statuses = false ->
  Report.officers report = [] ->
  Report.charges report = [] ->
  Report.insolvency report = [] ->
  Report.similar_companies report = [c1; c2; c3] ->
  Hit.company_status c1 = Some "dissolved" -> Hit.title c1 = Some t1 ->
  Hit.company_status c2 = Some "dissolved" -> Hit.title c2 = Some t2 ->
  Hit.company_status c3 = Some "dissolved" -> Hit.title c3 = Some t3 ->
  (85 <= ratio_x100 name (lower t1))%Q ->
  (85 <= ratio_x100 name (lower t2))%Q ->
  (85 <= ratio_x100 name (lower t3))%Q ->
  (List.length
     (matching_addresses lower ratio_x100
        (build_address_string (Report.company report)) [c1; c2; c3]) < 3)%nat ->
  exists st,
    score_rules report = Returned st /\
    risk_score st = 105 /\
    kinds (indicators st) =
      [("high_name_similarity", "high"); ("high_name_similarity", "high");
       ("high_name_similarity", "high"); ("name_recycling", "critical")] /\
    List.length (name_recycling_dissolved st) = 3%nat /\
    phoenix_directors st = [] /\
    serial_directors st = [] /\
    (List.length (address_matches st) < 3)%nat.
Proof.
  intros name Hstatus Hofficers Hcharges Hinsolvency Hsimilar
    Hs1 Ht1 Hs2 Ht2 Hs3 Ht3 Hr1 Hr2 Hr3 Haddr.
  unfold score_rules, score_company_status.
  rewrite Hofficers, Hsimilar, Hcharges, Hinsolvency, Hstatus.
  fold name.
  rewrite score_similars_cons, (score_similar_high name _ c1 t1);
    [| rewrite Hs1; reflexivity | assumption | assumption].
  cbn [bind].
  rewrite score_similars_cons, (score_similar_high name _ c2 t2);
    [| rewrite Hs2; reflexivity | assumption | assumption].
  cbn [bind].
  rewrite score_similars_cons, (score_similar_high name _ c3 t3);
    [| rewrite Hs3; reflexivity | assumption | assumption].
  cbn [bind]. rewrite score_similars_nil. unfold score_address.
  set (matches := matching_addresses lower ratio_x100
                    (build_address_string (Report.company report)) [c1; c2; c3]) in *.
  destruct (truthy_str (build_address_string (Report.company report))).
  - cbn -[matches]. unfold len.
    replace (5 <=? Z.of_nat (List.length matches)) with false
      by (symmetry; apply Z.leb_gt; lia).
    replace (3 <=? Z.of_nat (List.length matches)) with false
      by (symmetry; apply Z.leb_gt; lia).
    eexists. split; [reflexivity |]. cbn -[matches].
    repeat split; try reflexivity. exact Haddr.
  - cbn. eexists. split; [reflexivity |]. cbn.
    repeat split; try reflexivity. lia.
Qed.

(** C6: with exactly three similar candidates, each dissolved and at least 85
    similar in name, and no other signal, the three candidates add 25 each
    with a high high_name_similarity indicator, the strong name recycling
    rule adds 30 with a critical indicator, the sum is 105 and the returned
    risk_score is 100, CRITICAL. *)
Theorem C6_three_namesakes_clamped report c1 c2 c3 t1 t2 t3 :
  let name := lower (get (Company.company_name (Report.company report)) "") in
  in_list (get (Company.company_status (Report.company report)) "")
    suspicious_statuses = false ->
  Report.officers report = [] ->
  Report.charges report = [] ->
  Report.insolvency report = [] ->
  Report.similar_companies report = [c1; c2; c3] ->
  Hit.company_status c1 = Some "dissolved" -> Hit.title c1 = Some t1 ->
  Hit.company_status c2 = Some "dissolved" -> Hit.title c2 = Some t2 ->
  Hit.company_status c3 = Some "dissolved" -> Hit.title c3 = Some t3 ->
  (85 <= ratio_x100 name (lower t1))%Q ->
  (85 <= ratio_x100 name (lower t2))%Q ->
  (85 <= ratio_x100 name (lower t3))%Q ->
  (List.length
     (matching_addresses lower ratio_x100
        (build_address_string (Report.company report)) [c1; c2; c3]) < 3)%nat ->
  exists st report',
    score_rules report = Returned st /\
    risk_score st = 25 + 25 + 25 + 30 /\
    kinds (indicators st) =
      [("high_name_similarity", "high"); ("high_name_similarity", "high");
       ("high_name_similarity", "high"); ("name_recycling", "critical")] /\
    calculate_risk report = Returned report' /\
    Report.risk_score report' = 100 /\
    Report.risk_level report' = Some "CRITICAL" /\
    kinds (Report.phoenix_indicators report') = kinds (indicators st).
Proof.
  intros name Hstatus Hofficers Hcharges Hinsolvency Hsimilar
    Hs1 Ht1 Hs2 Ht2 Hs3 Ht3 Hr1 Hr2 Hr3 Haddr.
  destruct (three_namesakes_rules report c1 c2 c3 t1 t2 t3
              Hstatus Hofficers Hcharges Hinsolvency Hsimilar
              Hs1 Ht1 Hs2 Ht2 Hs3 Ht3 Hr1 Hr2 Hr3 Haddr)
    as (st & Hrules & Hscore & Hkinds & _).
  exists st. eexists. split; [exact Hrules |].
  split; [exact Hscore |]. split; [exact Hkinds |].
  unfold calculate_risk. rewrite Hrules. cbn [bind].
  split; [reflexivity |]. cbn [Report.risk_score Report.risk_level Report.phoenix_indicators].
  rewrite Hscore. repeat split; reflexivity.
Qed.

(** *** The verdict against the threshold of 60 *)

Lemma settled_checked delta reason bound v :
  0 <= delta ->
  settled bound v ->
  settled 60 (check_verdict (raise_confidence delta reason v)).
Proof.
  intros Hdelta [Hyes Hno]. unfold settled, check_verdict.
  destruct (60 <=? phoenix_confidence (raise_confidence delta reason v)) eqn:E;
    simpl in *.
  - apply Z.leb_le in E. split; [lia | discriminate].
  - apply Z.leb_gt in E. split.
    + intros Htrue. specialize (Hyes Htrue). lia.
    + intros _. lia.
Qed.

Lemma settled_weaken bound bound' v :
  bound <= bound' -> settled bound v -> settled bound' v.
Proof.
  intros Hle [Hyes Hno]. split; [exact Hyes |].
  intros Hfalse. specialize (Hno Hfalse). lia.
Qed.

Lemma settled_directors_liquidation officers directors :
  settled 40
    (verdict_liquidation officers
       (verdict_directors directors (mk_verdict false 0 []))).
Proof.
  unfold verdict_liquidation, verdict_directors, settled, check_verdict,
    raise_confidence.
  repeat break_if; cbn in *; split; intros; try discriminate; lia.
Qed.

Lemma settled_name_recycling recycled v :
  settled 40 v -> settled 60 (verdict_name_recycling recycled v).
Proof.
  intros Hv. unfold verdict_name_recycling. repeat break_if.
  - eapply settled_checked; [lia | exact Hv].
  - destruct Hv as [Hyes Hno]. split; simpl; intros Hv.
    + specialize (Hyes Hv). lia.
    + specialize (Hno Hv). lia.
  - eapply settled_weaken; [| exact Hv]. lia.
Qed.

Lemma settled_insolvency inds directors v :
  settled 60 v -> settled 60 (verdict_insolvency inds directors v).
Proof.
  intros Hv. unfold verdict_insolvency. break_if.
  - eapply settled_checked; [lia | exact Hv].
  - exact Hv.
Qed.

Lemma settled_address matches recycled v :
  settled 60 v -> settled 60 (verdict_address matches recycled v).
Proof.
  intros Hv. unfold verdict_address. break_if.
  - eapply settled_checked; [lia | exact Hv].
  - exact Hv.
Qed.

Lemma settled_serial serial recycled v :
  settled 60 v -> settled 60 (verdict_serial serial recycled v).
Proof.
  intros Hv. unfold verdict_serial. break_if.
  - eapply settled_checked; [lia | exact Hv].
  - exact Hv.
Qed.

(** The verdict is YES only from a confidence of 60 on, and it is YES
    whenever the confidence exceeds 60. *)
Lemma phoenix_verdict_settled officers st :
  settled 60 (phoenix_verdict officers st).
Proof.
  unfold phoenix_verdict.
  apply settled_serial, settled_address, settled_insolvency,
    settled_name_recycling, settled_directors_liquidation.
Qed.

Lemma verdict_above_60 report report' confidence :
  calculate_risk report = Returned report' ->
  Report.phoenix_confidence report' = Some confidence ->
  (Report.is_phoenix report' = Some "YES" -> 60 <= confidence) /\
  (60 < confidence -> Report.is_phoenix report' = Some "YES").
Proof.
  intros H Hconf. apply calculate_risk_returned in H.
  destruct H as (st & _ & ->). simpl in *.
  injection Hconf as <-.
  destruct (phoenix_verdict_settled (Report.officers report) st) as [Hyes Hno].
  destruct (is_phoenix (phoenix_verdict (Report.officers report) st)).
  - split; [| reflexivity]. intros _. specialize (Hyes eq_refl). lia.
  - split; [discriminate |]. intros Habove. specialize (Hno eq_refl). lia.
Qed.

(** The one way to a confidence of 60 with the verdict NO: 40 for two or
    more phoenix directors, then 20 for exactly two recycled names, which
    line 416 adds without the test of line 413. *)
Lemma verdict_missed_at_60 officers st :
  2 <= len (phoenix_directors st) ->
  filter (fun d => 2 <=? Officer.liquidation_links d) officers = [] ->
  len (name_recycling_dissolved st) = 2 ->
  existsb (fun ind => String.eqb (type ind) "insolvency_history") (indicators st)
    = false ->
  len (address_matches st) < 3 ->
  serial_directors st = [] ->
  is_phoenix (phoenix_verdict officers st) = false /\
  phoenix_confidence (phoenix_verdict officers st) = 60.
Proof.
  intros Hdirectors Hliquidation Hrecycled Hinsolvency Haddress Hserial.
  unfold phoenix_verdict, verdict_directors, verdict_liquidation,
    verdict_name_recycling, verdict_insolvency, verdict_address, verdict_serial.
  rewrite Hliquidation, Hrecycled, Hinsolvency, Hserial.
  replace (2 <=? len (phoenix_directors st)) with true
    by (symmetry; apply Z.leb_le; lia).
  replace (3 <=? len (address_matches st)) with false
    by (symmetry; apply Z.leb_gt; lia).
  simpl. split; reflexivity.
Qed.

End ScorerProperties.

(** C1: the bundle [two_directors_two_namesakes] is scored with a
    phoenix_confidence of 60 and the verdict NO, whereas a confidence of 60 or
    more is to give the verdict YES. *)
Theorem C1_confidence_60_verdict_no :
  exists report',
    calculate_risk ascii_lower sequence_ratio_x100 format_0f_exact
      two_directors_two_namesakes = Returned report' /\
    Report.phoenix_confidence report' = Some 60 /\
    Report.is_phoenix report' = Some "NO" /\
    Report.phoenix_reasons report' =
      Some ["2 directors show phoenix patterns (dissolved companies + recent formations)";
            "Possible name recycling: 2 similar dissolved companies"].
Proof.
  eexists. split; [vm_compute; reflexivity |].
  repeat split; reflexivity.
Qed.

(** * Properties of the collector *)

Section CollectorProperties.

Variable World : Type.
Variable requests_get :
  forall k : resource, string -> World -> http_outcome (body_of k) * World.
Variable now : World -> Z * World.
Variable strptime : string -> string -> option Z.

Local Abbreviation api_request := (api_request World requests_get).
Local Abbreviation get_company := (get_company World requests_get).
Local Abbreviation get_officers := (get_officers World requests_get).
Local Abbreviation get_filing_history := (get_filing_history World requests_get).
Local Abbreviation get_psc := (get_psc World requests_get).
Local Abbreviation get_charges := (get_charges World requests_get).
Local Abbreviation get_insolvency := (get_insolvency World requests_get).
Local Abbreviation search_companies := (search_companies World requests_get).
Local Abbreviation count_recent_formation := (count_recent_formation World now strptime).
Local Abbreviation scan_linked_company := (scan_linked_company World now strptime).
Local Abbreviation scan_officer := (scan_officer World requests_get now strptime).
Local Abbreviation collect_by_name := (collect_by_name World requests_get).
Local Abbreviation collect_by_address := (collect_by_address World requests_get).
Local Abbreviation collect_records := (collect_records World requests_get now strptime).
Local Abbreviation collect := (collect World requests_get now strptime).
Local Abbreviation parsed_creation := (parsed_creation strptime).
Local Abbreviation parsed_creations := (parsed_creations strptime).

(** *** What [api_request] returns *)

Lemma api_request_error k endpoint w :
  is_error (fst (api_request k endpoint w)) = true <->
  match fst (requests_get k (PHOENIX_BASE_URL ++ endpoint) w) with
  | RequestException _ => True
  | Response status_code _ _ => status_code <> 200
  end.
Proof.
  unfold api_request.
  destruct (requests_get k (PHOENIX_BASE_URL ++ endpoint) w) as [[e | code text body] w'];
    simpl.
  - tauto.
  - destruct (code =? 404) eqn:E404; simpl.
    + apply Z.eqb_eq in E404. split; [lia | reflexivity].
    + destruct (code =? 200) eqn:E200; simpl.
      * apply Z.eqb_eq in E200. split; [discriminate | intros H; contradiction].
      * apply Z.eqb_neq in E200. tauto.
Qed.

Lemma items_or_empty_error {A : Type} (data : api_result (listing A)) :
  is_error data = true -> items_or_empty data = [].
Proof. destruct data; [reflexivity | discriminate]. Qed.

(** *** Recent formations *)

Lemma count_recent_formation_recent date entry w :
  let result := count_recent_formation date entry w in
  match (if truthy_str date then strptime date "%Y-%m-%d" else None) with
  | Some creation_date =>
      Officer.recent_formations (fst result) =
        Officer.recent_formations entry
        + (if is_recent creation_date (fst (now w)) then 1 else 0) /\
      snd result = snd (now w)
  | None => result = (entry, w)
  end.
Proof.
  unfold count_recent_formation, is_recent.
  destruct (truthy_str date); [| reflexivity].
  destruct (strptime date "%Y-%m-%d") as [creation_date |]; [| reflexivity].
  destruct (now w) as [today w']. cbn [fst snd].
  destruct (today - timedelta_days 730 <? creation_date); cbn [fst snd]; split;
    try reflexivity; cbn [Officer.recent_formations Officer.incr_recent]; lia.
Qed.

Lemma scan_linked_company_recent name entry report w hit :
  let result := scan_linked_company name (entry, report, w) hit in
  match parsed_creation hit with
  | Some creation_date =>
      Officer.recent_formations (fst (fst result)) =
        Officer.recent_formations entry
        + (if is_recent creation_date (fst (now w)) then 1 else 0) /\
      snd result = snd (now w)
  | None =>
      Officer.recent_formations (fst (fst result)) = Officer.recent_formations entry /\
      snd result = w
  end.
Proof.
  unfold scan_linked_company, parsed_creation.
  set (date := get (Hit.date_of_creation hit) "").
  set (status := get (Hit.company_status hit) "").
  cbn zeta.
  assert (Hstep : forall entry0 (report0 : Report.t),
             Officer.recent_formations entry0 = Officer.recent_formations entry ->
             let result :=
               (let '(entry1, w1) := count_recent_formation date entry0 w in
                (entry1, report0, w1)) in
             match (if truthy_str date then strptime date "%Y-%m-%d" else None) with
             | Some creation_date =>
                 Officer.recent_formations (fst (fst result)) =
                   Officer.recent_formations entry
                   + (if is_recent creation_date (fst (now w)) then 1 else 0) /\
                 snd result = snd (now w)
             | None =>
                 Officer.recent_formations (fst (fst result)) =
                   Officer.recent_formations entry /\
                 snd result = w
             end).
  { intros entry0 report0 Hsame. cbn zeta.
    pose proof (count_recent_formation_recent date entry0 w) as Hcount.
    cbn zeta in Hcount.
    destruct (count_recent_formation date entry0 w) as [entry1 w1].
    destruct (if truthy_str date then strptime date "%Y-%m-%d" else None).
    - cbn [fst snd] in *. destruct Hcount as [-> ->]. rewrite Hsame. tauto.
    - injection Hcount as -> ->. cbn [fst snd]. tauto. }
  destruct (in_list status suspicious_statuses);
    [destruct (String.eqb status "dissolved");
     destruct (in_list status ["liquidation"; "insolvency-proceedings"]) |];
    apply Hstep; reflexivity.
Qed.

Lemma count_recent_cons creation_date today dates clock :
  count_recent (creation_date :: dates) (today :: clock) =
    (if is_recent creation_date today then 1 else 0) + count_recent dates clock.
Proof.
  unfold count_recent, len. cbn [combine filter].
  destruct (is_recent creation_date today); cbn [List.length]; lia.
Qed.

Lemma parsed_creations_cons hit rest :
  parsed_creations (hit :: rest) =
    (match parsed_creation hit with
     | Some creation_date => [creation_date]
     | None => []
     end ++ parsed_creations rest)%list.
Proof. reflexivity. Qed.

Lemma scan_linked_companies_recent name hits : forall entry report w,
  let result := fold_left (scan_linked_company name) hits (entry, report, w) in
  Officer.recent_formations (fst (fst result)) =
    Officer.recent_formations entry
    + count_recent (parsed_creations hits)
        (readings now (List.length (parsed_creations hits)) w).
Proof.
  induction hits as [| hit rest IH]; intros entry report w; cbn zeta.
  - cbn. unfold count_recent, len. cbn. lia.
  - cbn [fold_left].
    pose proof (scan_linked_company_recent name entry report w hit) as Hhit.
    cbn zeta in Hhit.
    destruct (scan_linked_company name (entry, report, w) hit)
      as [[entry1 report1] w1].
    specialize (IH entry1 report1 w1). cbn zeta in IH. rewrite IH.
    rewrite parsed_creations_cons.
    cbn [fst snd] in Hhit.
    destruct (parsed_creation hit) as [creation_date |].
    + destruct Hhit as [-> ->].
      cbn [app List.length readings].
      destruct (now w) as [today w']. cbn [fst snd].
      rewrite count_recent_cons. lia.
    + destruct Hhit as [-> ->]. cbn [app]. reflexivity.
Qed.

Lemma count_recent_formation_linked date entry w :
  Officer.linked_companies (fst (count_recent_formation date entry w)) =
    Officer.linked_companies entry.
Proof.
  unfold count_recent_formation.
  destruct (truthy_str date); [| reflexivity].
  destruct (strptime date "%Y-%m-%d"); [| reflexivity].
  destruct (now w) as [today w'].
  destruct (today - timedelta_days 730 <? z); reflexivity.
Qed.

(** One hit adds one linked company and leaves the officers of the report. *)
Lemma scan_linked_company_linked name entry report w hit :
  let result := scan_linked_company name (entry, report, w) hit in
  Report.officers (snd (fst result)) = Report.officers report /\
  List.length (Officer.linked_companies (fst (fst result))) =
    S (List.length (Officer.linked_companies entry)).
Proof.
  unfold scan_linked_company. cbn zeta.
  set (date := get (Hit.date_of_creation hit) "").
  set (status := get (Hit.company_status hit) "").
  assert (Hstep : forall entry0 (report0 : Report.t),
             List.length (Officer.linked_companies entry0) =
               S (List.length (Officer.linked_companies entry)) ->
             Report.officers report0 = Report.officers report ->
             let result :=
               (let '(entry1, w1) := count_recent_formation date entry0 w in
                (entry1, report0, w1)) in
             Report.officers (snd (fst result)) = Report.officers report /\
             List.length (Officer.linked_companies (fst (fst result))) =
               S (List.length (Officer.linked_companies entry))).
  { intros entry0 report0 Hlinked Hofficers. cbn zeta.
    pose proof (count_recent_formation_linked date entry0 w) as Hcount.
    destruct (count_recent_formation date entry0 w) as [entry1 w1].
    cbn [fst snd] in *. rewrite Hcount. tauto. }
  destruct (in_list status suspicious_statuses);
    [destruct (String.eqb status "dissolved");
     destruct (in_list status ["liquidation"; "insolvency-proceedings"]) |];
    apply Hstep; cbn; rewrite ?length_app; cbn; try reflexivity; lia.
Qed.

Lemma scan_linked_companies_linked name hits : forall entry report w,
  let result := fold_left (scan_linked_company name) hits (entry, report, w) in
  Report.officers (snd (fst result)) = Report.officers report /\
  List.length (Officer.linked_companies (fst (fst result))) =
    (List.length (Officer.linked_companies entry) + List.length hits)%nat.
Proof.
  induction hits as [| hit rest IH]; intros entry report w; cbn zeta.
  - cbn. split; [reflexivity | lia].
  - cbn [fold_left].
    pose proof (scan_linked_company_linked name entry report w hit) as Hhit.
    cbn zeta in Hhit.
    destruct (scan_linked_company name (entry, report, w) hit)
      as [[entry1 report1] w1].
    cbn [fst snd] in Hhit. destruct Hhit as [Hofficers Hlinked].
    specialize (IH entry1 report1 w1). cbn zeta in IH.
    destruct IH as [IH1 IH2]. rewrite IH1, IH2, Hofficers, Hlinked.
    cbn [List.length]. split; [reflexivity | lia].
Qed.

Lemma count_recent_frozen today dates :
  count_recent dates (repeat today (List.length dates)) =
    len (filter (fun creation_date => is_recent creation_date today) dates).
Proof.
  induction dates as [| creation_date rest IH].
  - reflexivity.
  - cbn [List.length repeat]. rewrite count_recent_cons, IH.
    unfold len. cbn [filter].
    destruct (is_recent creation_date today); cbn [List.length]; lia.
Qed.

(** C10: the recent_formations of an officer is the number of hits of the
    officer's search whose date_of_creation is there, parses as a
    year-month-day date, and is strictly later than 730 days before the clock
    reading taken for it; a hit whose date is missing or does not parse adds
    nothing, reads no clock, and the loop goes on. *)
Theorem C10_recent_formations_counted report w officer :
  let officer_name := get (RawOfficer.name officer) "(unknown)" in
  let search := search_companies officer_name w in
  let hits := items_or_empty (fst search) in
  let dates := parsed_creations hits in
  (exists entry,
     Report.officers (fst (scan_officer (report, w) officer)) =
       (Report.officers report ++ [entry])%list /\
     List.length (Officer.linked_companies entry) = List.length hits /\
     Officer.recent_formations entry =
       count_recent dates (readings now (List.length dates) (snd search))) /\
  (forall name entry0 report0 w0 hit,
     parsed_creation hit = None ->
     let result := scan_linked_company name (entry0, report0, w0) hit in
     Officer.recent_formations (fst (fst result)) = Officer.recent_formations entry0 /\
     snd result = w0).
Proof.
  cbn zeta. split.
  - unfold scan_officer.
    set (officer_name := get (RawOfficer.name officer) "(unknown)").
    set (entry0 := Officer.mk officer_name _ _ _ [] 0 0 0).
    destruct (search_companies officer_name w) as [search w1]. cbn [fst snd].
    assert (Hfold :
              forall hits,
                let result :=
                  fold_left (scan_linked_company officer_name) hits (entry0, report, w1) in
                exists entry,
                  Report.officers
                    (fst (let '(entry1, report1, w2) := result in
                          (Report.append_officer entry1 report1, w2))) =
                    (Report.officers report ++ [entry])%list /\
                  List.length (Officer.linked_companies entry) = List.length hits /\
                  Officer.recent_formations entry =
                    count_recent (parsed_creations hits)
                      (readings now (List.length (parsed_creations hits)) w1)).
    { intros hits. cbn zeta.
      pose proof (scan_linked_companies_recent officer_name hits entry0 report w1)
        as Hrecent.
      cbn zeta in Hrecent.
      pose proof (scan_linked_companies_linked officer_name hits entry0 report w1)
        as Hkeeps.
      cbn zeta in Hkeeps.
      destruct (fold_left (scan_linked_company officer_name) hits (entry0, report, w1))
        as [[entry1 report1] w2].
      cbn [fst snd] in *. destruct Hkeeps as [Hofficers Hlinked].
      exists entry1. cbn. rewrite Hofficers.
      split; [reflexivity |]. split; [exact Hlinked |].
      rewrite Hrecent. reflexivity. }
    destruct search as [error status | [[hits |]]]; cbn [items_or_empty get items].
    + exact (Hfold []).
    + exact (Hfold hits).
    + exact (Hfold []).
  - intros name entry0 report0 w0 hit Hnone.
    pose proof (scan_linked_company_recent name entry0 report0 w0 hit) as Hhit.
    cbn zeta in Hhit. rewrite Hnone in Hhit. exact Hhit.
Qed.

(** *** What each step of the collection touches *)

Lemma set_similar_companies_same report :
  Report.set_similar_companies (Report.similar_companies report) report = report.
Proof. destruct report. reflexivity. Qed.

Lemma scan_linked_company_keeps name entry report w hit :
  let result := scan_linked_company name (entry, report, w) hit in
  fetched (snd (fst result)) = fetched report /\
  Report.similar_companies (snd (fst result)) = Report.similar_companies report.
Proof.
  unfold scan_linked_company. cbn zeta.
  set (date := get (Hit.date_of_creation hit) "").
  set (status := get (Hit.company_status hit) "").
  assert (Hstep : forall entry0 (report0 : Report.t),
             fetched report0 = fetched report ->
             Report.similar_companies report0 = Report.similar_companies report ->
             let result :=
               (let '(entry1, w1) := count_recent_formation date entry0 w in
                (entry1, report0, w1)) in
             fetched (snd (fst result)) = fetched report /\
             Report.similar_companies (snd (fst result)) =
               Report.similar_companies report).
  { intros entry0 report0 Hfetched Hsimilar. cbn zeta.
    destruct (count_recent_formation date entry0 w) as [entry1 w1].
    cbn [fst snd]. tauto. }
  destruct (in_list status suspicious_statuses);
    [destruct (String.eqb status "dissolved");
     destruct (in_list status ["liquidation"; "insolvency-proceedings"]) |];
    apply Hstep; reflexivity.
Qed.

Lemma scan_linked_companies_keeps name hits : forall entry report w,
  let result := fold_left (scan_linked_company name) hits (entry, report, w) in
  fetched (snd (fst result)) = fetched report /\
  Report.similar_companies (snd (fst result)) = Report.similar_companies report.
Proof.
  induction hits as [| hit rest IH]; intros entry report w; cbn zeta.
  - cbn. tauto.
  - cbn [fold_left].
    pose proof (scan_linked_company_keeps name entry report w hit) as Hhit.
    cbn zeta in Hhit.
    destruct (scan_linked_company name (entry, report, w) hit)
      as [[entry1 report1] w1].
    cbn [fst snd] in Hhit. destruct Hhit as [Hfetched Hsimilar].
    specialize (IH entry1 report1 w1). cbn zeta in IH.
    destruct IH as [IH1 IH2]. rewrite IH1, IH2. tauto.
Qed.

(** The officer loop body in terms of the hits of the officer's search. *)
Lemma scan_officer_unfold report w officer :
  scan_officer (report, w) officer =
    let search := search_companies (get (RawOfficer.name officer) "(unknown)") w in
    let '(entry, report', w') :=
      fold_left (scan_linked_company (get (RawOfficer.name officer) "(unknown)"))
        (items_or_empty (fst search)) (blank_entry officer, report, snd search) in
    (Report.append_officer entry report', w').
Proof.
  unfold scan_officer, blank_entry. cbn zeta.
  destruct (search_companies (get (RawOfficer.name officer) "(unknown)") w)
    as [search w1].
  cbn [fst snd].
  destruct search as [error status | [[hits |]]]; reflexivity.
Qed.

Lemma scan_officer_keeps report w officer :
  let result := scan_officer (report, w) officer in
  fetched (fst result) = fetched report /\
  Report.similar_companies (fst result) = Report.similar_companies report.
Proof.
  cbn zeta. rewrite scan_officer_unfold. cbn zeta.
  set (name := get (RawOfficer.name officer) "(unknown)").
  pose proof (scan_linked_companies_keeps name
                (items_or_empty (fst (search_companies name w)))
                (blank_entry officer) report (snd (search_companies name w))) as H.
  cbn zeta in H.
  destruct (fold_left (scan_linked_company name)
              (items_or_empty (fst (search_companies name w)))
              (blank_entry officer, report, snd (search_companies name w)))
    as [[entry report1] w1].
  cbn [fst snd] in *. destruct H as [H1 H2].
  split; [rewrite <- H1 | rewrite <- H2]; reflexivity.
Qed.

Lemma scan_officers_keeps officers : forall report w,
  let result := fold_left scan_officer officers (report, w) in
  fetched (fst result) = fetched report /\
  Report.similar_companies (fst result) = Report.similar_companies report.
Proof.
  induction officers as [| officer rest IH]; intros report w; cbn zeta.
  - cbn. tauto.
  - cbn [fold_left].
    pose proof (scan_officer_keeps report w officer) as H. cbn zeta in H.
    destruct (scan_officer (report, w) officer) as [report1 w1].
    cbn [fst] in H. destruct H as [H1 H2].
    specialize (IH report1 w1). cbn zeta in IH.
    destruct IH as [IH1 IH2]. rewrite IH1, IH2. tauto.
Qed.

(** A failed officer search leaves the officer with no linked company. *)
Lemma scan_officer_search_error report w officer :
  is_error (fst (search_companies (get (RawOfficer.name officer) "(unknown)") w)) = true ->
  fst (scan_officer (report, w) officer) =
    Report.append_officer (blank_entry officer) report.
Proof.
  intros Herror. rewrite scan_officer_unfold. cbn zeta.
  rewrite (items_or_empty_error _ Herror). reflexivity.
Qed.

Lemma scan_officer_officers report w officer :
  exists entry,
    Report.officers (fst (scan_officer (report, w) officer)) =
      (Report.officers report ++ [entry])%list.
Proof.
  rewrite scan_officer_unfold. cbn zeta.
  set (name := get (RawOfficer.name officer) "(unknown)").
  pose proof (scan_linked_companies_linked name
                (items_or_empty (fst (search_companies name w)))
                (blank_entry officer) report (snd (search_companies name w))) as H.
  cbn zeta in H.
  destruct (fold_left (scan_linked_company name)
              (items_or_empty (fst (search_companies name w)))
              (blank_entry officer, report, snd (search_companies name w)))
    as [[entry report1] w1].
  cbn [fst snd] in *. destruct H as [H _].
  exists entry. cbn. rewrite H. reflexivity.
Qed.

Lemma scan_officers_officers officers : forall report w,
  exists entries,
    Report.officers (fst (fold_left scan_officer officers (report, w))) =
      (Report.officers report ++ entries)%list /\
    List.length entries = List.length officers.
Proof.
  induction officers as [| officer rest IH]; intros report w.
  - exists []. cbn. rewrite app_nil_r. split; reflexivity.
  - cbn [fold_left].
    destruct (scan_officer_officers report w officer) as (entry & Hentry).
    destruct (scan_officer (report, w) officer) as [report1 w1].
    cbn [fst] in Hentry.
    destruct (IH report1 w1) as (entries & Hentries & Hlength).
    exists (entry :: entries). rewrite Hentries, Hentry, <- app_assoc.
    cbn. split; [reflexivity | lia].
Qed.

(** The bundle after the records are fetched (lines 474-537). *)
Lemma collect_records_fetched company_number company w :
  let officers_data := get_officers company_number w in
  let filing_data := get_filing_history company_number (snd officers_data) in
  let psc_data := get_psc company_number (snd filing_data) in
  let charges_data := get_charges company_number (snd psc_data) in
  let insolvency_data := get_insolvency company_number (snd charges_data) in
  let report := fst (collect_records company_number company w) in
  fetched report =
    (company, items_or_empty (fst filing_data), items_or_empty (fst psc_data),
     items_or_empty (fst charges_data),
     match fst insolvency_data with
     | ApiOk data => data
     | ApiError _ _ => []
     end) /\
  Report.similar_companies report = [] /\
  List.length (Report.officers report) =
    List.length (items_or_empty (fst officers_data)).
Proof.
  cbn zeta. unfold collect_records.
  destruct (get_officers company_number w) as [officers_data w1]. cbn [fst snd].
  destruct (get_filing_history company_number w1) as [filing_data w2]. cbn [fst snd].
  destruct (get_psc company_number w2) as [psc_data w3]. cbn [fst snd].
  destruct (get_charges company_number w3) as [charges_data w4]. cbn [fst snd].
  destruct (get_insolvency company_number w4) as [insolvency_data w5].
  cbn [fst snd].
  match goal with
  | |- context [fold_left scan_officer ?l (?r, ?w0)] =>
      destruct (scan_officers_keeps l r w0) as [Hfetched Hsimilar];
      destruct (scan_officers_officers l r w0) as (entries & Hentries & Hlength)
  end.
  rewrite Hfetched, Hsimilar, Hentries.
  split; [| split].
  - destruct insolvency_data; reflexivity.
  - destruct insolvency_data; reflexivity.
  - rewrite <- Hlength. destruct insolvency_data; reflexivity.
Qed.

(** *** The two similarity searches *)

Lemma keep_others company_number hits : forall report,
  fold_left
    (fun report sim_company =>
       let sim_num := get (Hit.company_number sim_company) "" in
       if negb (String.eqb sim_num company_number)
       then Report.append_similar sim_company report
       else report)
    hits report =
  Report.set_similar_companies
    (Report.similar_companies report ++ filter (not_the_target company_number) hits)
    report.
Proof.
  induction hits as [| hit rest IH]; intros report.
  - cbn. rewrite app_nil_r. symmetry. apply set_similar_companies_same.
  - cbn [fold_left filter]. rewrite IH. unfold not_the_target.
    destruct (negb (String.eqb (get (Hit.company_number hit) "") company_number)).
    + cbn. rewrite <- app_assoc. reflexivity.
    + reflexivity.
Qed.

(** The name search appends the hits other than the company itself, as the
    registry returned them. *)
Lemma collect_by_name_similar company_number company report w :
  let company_name := get (Company.company_name company) "" in
  let hits :=
    if truthy_str company_name
    then items_or_empty (fst (search_companies company_name w))
    else [] in
  fst (collect_by_name company_number company report w) =
    Report.set_similar_companies
      (Report.similar_companies report ++ filter (not_the_target company_number) hits)
      report.
Proof.
  cbn zeta. unfold collect_by_name.
  destruct (truthy_str (get (Company.company_name company) "")).
  - destruct (search_companies (get (Company.company_name company) "") w)
      as [similar w1].
    cbn [fst].
    destruct similar as [error status | [[hits |]]]; cbn [fst items_or_empty get items filter].
    + rewrite app_nil_r. symmetry. apply set_similar_companies_same.
    + apply keep_others.
    + rewrite app_nil_r. symmetry. apply set_similar_companies_same.
  - cbn. rewrite app_nil_r. symmetry. apply set_similar_companies_same.
Qed.

Lemma add_by_address_similar company_number report hit :
  add_by_address company_number report hit = report \/
  add_by_address company_number report hit =
    Report.set_similar_companies
      (Report.similar_companies report ++ [Hit.set_found_by "address" hit]) report.
Proof.
  unfold add_by_address. repeat break_if; auto.
Qed.

Lemma add_all_by_address company_number hits : forall seen report,
  (forall hit, In hit hits -> In hit seen) ->
  exists added,
    fold_left (add_by_address company_number) hits report =
      Report.set_similar_companies (Report.similar_companies report ++ added) report /\
    Forall (tagged_address seen) added.
Proof.
  induction hits as [| hit rest IH]; intros seen report Hseen.
  - exists []. cbn. rewrite app_nil_r. split; [| constructor].
    symmetry. apply set_similar_companies_same.
  - cbn [fold_left].
    assert (Hrest : forall h, In h rest -> In h seen)
      by (intros h Hh; apply Hseen; right; exact Hh).
    destruct (add_by_address_similar company_number report hit) as [-> | ->].
    + apply IH. exact Hrest.
    + destruct (IH seen
                  (Report.set_similar_companies
                     (Report.similar_companies report ++ [Hit.set_found_by "address" hit])
                     report)
                  Hrest) as (added & Hfold & Htagged).
      exists (Hit.set_found_by "address" hit :: added). split.
      * rewrite Hfold. cbn. rewrite <- app_assoc. reflexivity.
      * constructor; [| exact Htagged].
        split; [reflexivity |]. exists hit. split; [| reflexivity].
        apply Hseen. left. reflexivity.
Qed.

(** The address search appends hits with the tag [found_by = address]. *)
Lemma collect_by_address_similar company_number company report w :
  let address := build_address_string company in
  let hits :=
    if truthy_str address
    then items_or_empty (fst (search_companies address w))
    else [] in
  exists added,
    fst (collect_by_address company_number company report w) =
      Report.set_similar_companies (Report.similar_companies report ++ added) report /\
    Forall (tagged_address hits) added.
Proof.
  cbn zeta. unfold collect_by_address.
  assert (Hnone : forall hits,
             exists added,
               report =
                 Report.set_similar_companies
                   (Report.similar_companies report ++ added) report /\
               Forall (tagged_address hits) added).
  { intros hits. exists []. rewrite app_nil_r. split; [| constructor].
    symmetry. apply set_similar_companies_same. }
  destruct (truthy_str (build_address_string company)).
  - destruct (search_companies (build_address_string company) w)
      as [address_search w1].
    cbn [fst].
    destruct address_search as [error status | [[hits |]]];
      cbn [fst items_or_empty get items].
    + apply Hnone.
    + apply add_all_by_address. auto.
    + apply Hnone.
  - apply Hnone.
Qed.

Lemma collect_by_name_error company_number company report w :
  is_error (fst (search_companies (get (Company.company_name company) "") w)) = true ->
  fst (collect_by_name company_number company report w) = report.
Proof.
  intros Herror. rewrite collect_by_name_similar. cbn zeta.
  rewrite (items_or_empty_error _ Herror).
  destruct (truthy_str (get (Company.company_name company) ""));
    cbn [filter]; rewrite app_nil_r; apply set_similar_companies_same.
Qed.

Lemma collect_by_address_error company_number company report w :
  is_error (fst (search_companies (build_address_string company) w)) = true ->
  fst (collect_by_address company_number company report w) = report.
Proof.
  intros Herror. unfold collect_by_address.
  destruct (truthy_str (build_address_string company)); [| reflexivity].
  destruct (search_companies (build_address_string company) w)
    as [address_search w1].
  cbn [fst] in *. destruct address_search; [reflexivity | discriminate].
Qed.

(** *** The whole collection *)

Lemma collect_bundle company_number company w :
  let records := collect_records company_number company w in
  let company_name := get (Company.company_name company) "" in
  let name_hits :=
    if truthy_str company_name
    then items_or_empty (fst (search_companies company_name (snd records)))
    else [] in
  let by_name := collect_by_name company_number company (fst records) (snd records) in
  let address := build_address_string company in
  let address_hits :=
    if truthy_str address
    then items_or_empty (fst (search_companies address (snd by_name)))
    else [] in
  let bundle := fst (collect company_number company w) in
  fetched bundle = fetched (fst records) /\
  Report.officers bundle = Report.officers (fst records) /\
  Report.flags bundle = Report.flags (fst records) /\
  exists added,
    Report.similar_companies bundle =
      (filter (not_the_target company_number) name_hits ++ added)%list /\
    Forall (tagged_address address_hits) added.
Proof.
  cbn zeta. unfold collect.
  destruct (collect_records_fetched company_number company w) as (_ & Hnone & _).
  destruct (collect_records company_number company w) as [report1 w1].
  cbn [fst snd] in *.
  pose proof (collect_by_name_similar company_number company report1 w1) as Hname.
  cbn zeta in Hname.
  destruct (collect_by_name company_number company report1 w1) as [report2 w2].
  cbn [fst snd] in *.
  destruct (collect_by_address_similar company_number company report2 w2)
    as (added & Haddress & Htagged).
  rewrite Haddress, Hname, Hnone. cbn.
  repeat split; try reflexivity.
  exists added. split; [reflexivity | exact Htagged].
Qed.

Lemma length_zero_nil {A : Type} (l : list A) : List.length l = 0%nat -> l = [].
Proof. destruct l; [reflexivity | discriminate]. Qed.

(** *** The scan *)

Section Scan.

Variable lower : string -> string.
Variable ratio_x100 : string -> string -> Q.
Variable format_0f : Q -> string.

Local Abbreviation deep_scan_company :=
  (deep_scan_company lower ratio_x100 format_0f World requests_get now strptime).
Local Abbreviation calculate_risk := (calculate_risk lower ratio_x100 format_0f).

(** C4: when the profile fetch returns an error or not-found outcome the scan
    returns that error and no bundle; when a secondary call (officers, filing
    history, PSC, charges, insolvency, a search) returns an error outcome, its
    section of the bundle is empty and the scan goes on to score the
    bundle. *)
Theorem C4_profile_error_aborts_other_errors_degrade company_number w :
  (forall error status w1,
     get_company company_number w = (ApiError error status, w1) ->
     deep_scan_company company_number w = (Returned (ScanError error), w1)) /\
  (forall company w1,
     get_company company_number w = (ApiOk company, w1) ->
     let officers_data := get_officers company_number w1 in
     let filing_data := get_filing_history company_number (snd officers_data) in
     let psc_data := get_psc company_number (snd filing_data) in
     let charges_data := get_charges company_number (snd psc_data) in
     let insolvency_data := get_insolvency company_number (snd charges_data) in
     let bundle := fst (collect company_number company w1) in
     fst (deep_scan_company company_number w) =
       bind (calculate_risk bundle) (fun report => Returned (Scanned report)) /\
     (forall error,
        fst (deep_scan_company company_number w) <> Returned (ScanError error)) /\
     Report.company bundle = company /\
     (is_error (fst officers_data) = true -> Report.officers bundle = []) /\
     (is_error (fst filing_data) = true -> Report.filing_history bundle = []) /\
     (is_error (fst psc_data) = true -> Report.psc bundle = []) /\
     (is_error (fst charges_data) = true -> Report.charges bundle = []) /\
     (is_error (fst insolvency_data) = true -> Report.insolvency bundle = []) /\
     (Forall titled (Report.similar_companies bundle) ->
      exists report,
        fst (deep_scan_company company_number w) = Returned (Scanned report) /\
        collected report = collected bundle)) /\
  (forall report w0 officer,
     is_error
       (fst (search_companies (get (RawOfficer.name officer) "(unknown)") w0)) = true ->
     fst (scan_officer (report, w0) officer) =
       Report.append_officer (blank_entry officer) report) /\
  (forall company report w0,
     is_error
       (fst (search_companies (get (Company.company_name company) "") w0)) = true ->
     fst (collect_by_name company_number company report w0) = report) /\
  (forall company report w0,
     is_error (fst (search_companies (build_address_string company) w0)) = true ->
     fst (collect_by_address company_number company report w0) = report).
Proof.
  split; [| split; [| split; [| split]]].
  - intros error status w1 Hprofile.
    unfold deep_scan_company. rewrite Hprofile. reflexivity.
  - intros company w1 Hprofile. cbn zeta.
    assert (Hscan : fst (deep_scan_company company_number w) =
                      bind (calculate_risk (fst (collect company_number company w1)))
                        (fun report => Returned (Scanned report))).
    { unfold deep_scan_company. rewrite Hprofile.
      destruct (collect company_number company w1) as [bundle w']. reflexivity. }
    destruct (collect_bundle company_number company w1)
      as (Hfetched & Hofficers & _ & _).
    destruct (collect_records_fetched company_number company w1)
      as (Hrecords & _ & Hlength).
    rewrite Hrecords in Hfetched. rewrite <- Hofficers in Hlength.
    unfold fetched in Hfetched.
    injection Hfetched as Hcompany Hfiling Hpsc Hcharges Hinsolvency.
    split; [exact Hscan |]. split.
    { intros error. rewrite Hscan.
      destruct (calculate_risk (fst (collect company_number company w1)));
        cbn; discriminate. }
    split; [exact Hcompany |]. split.
    { intros Herror. apply length_zero_nil.
      rewrite Hlength, (items_or_empty_error _ Herror). reflexivity. }
    split.
    { intros Herror. rewrite Hfiling. apply items_or_empty_error, Herror. }
    split.
    { intros Herror. rewrite Hpsc. apply items_or_empty_error, Herror. }
    split.
    { intros Herror. rewrite Hcharges. apply items_or_empty_error, Herror. }
    split.
    { intros Herror. rewrite Hinsolvency.
      match goal with
      | |- match ?data with _ => _ end = [] =>
          change (is_error data = true) in Herror; destruct data
      end; [reflexivity | discriminate]. }
    intros Htitled.
    destruct (calculate_risk_returns lower ratio_x100 format_0f _ Htitled)
      as (report & Hreport).
    exists report. split.
    + rewrite Hscan, Hreport. reflexivity.
    + eapply calculate_risk_frame. exact Hreport.
  - intros report w0 officer. apply scan_officer_search_error.
  - intros company report w0. apply collect_by_name_error.
  - intros company report w0. apply collect_by_address_error.
Qed.

(** C8, amended: the candidates of a scanned bundle are the hits of the name
    search other than the company itself, exactly as the registry returned
    them (no found_by key is written), followed by hits of the address search,
    each of which is given found_by = address. *)
Theorem C8_address_hits_tagged_name_hits_as_returned
  company_number w company w1 report w' :
  get_company company_number w = (ApiOk company, w1) ->
  deep_scan_company company_number w = (Returned (Scanned report), w') ->
  let records := collect_records company_number company w1 in
  let company_name := get (Company.company_name company) "" in
  let name_hits :=
    if truthy_str company_name
    then items_or_empty (fst (search_companies company_name (snd records)))
    else [] in
  let by_name := collect_by_name company_number company (fst records) (snd records) in
  let address := build_address_string company in
  let address_hits :=
    if truthy_str address
    then items_or_empty (fst (search_companies address (snd by_name)))
    else [] in
  exists added,
    Report.similar_companies report =
      (filter (not_the_target company_number) name_hits ++ added)%list /\
    Forall (tagged_address address_hits) added.
Proof.
  intros Hprofile Hscan. cbn zeta.
  destruct (collect_bundle company_number company w1)
    as (_ & _ & _ & added & Hsimilar & Htagged).
  exists added. split; [| exact Htagged].
  rewrite <- Hsimilar.
  unfold deep_scan_company in Hscan. rewrite Hprofile in Hscan.
  destruct (collect company_number company w1) as [bundle w2].
  injection Hscan as Hscored _.
  apply bind_returned in Hscored. destruct Hscored as (scored & Hscored & Heq).
  injection Heq as <-. cbn [fst].
  apply calculate_risk_frame in Hscored. unfold collected in Hscored.
  injection Hscored as _ _ _ _ _ _ Hsim _. exact Hsim.
Qed.

End Scan.

End CollectorProperties.

(** * The theorems on the examples *)

Lemma acme_bundle_scored :
  calculate_risk ascii_lower sequence_ratio_x100 format_0f_exact acme_bundle
  = Returned acme_scored.
Proof. vm_compute. reflexivity. Defined.

(** C2 on the bundle of the healthy registry. *)
Lemma C2_scores_within_0_100_witness :
  0 <= Report.risk_score acme_scored <= 100 /\
  exists c, Report.phoenix_confidence acme_scored = Some c /\ 0 <= c <= 100.
Proof.
  destruct (C2_scores_within_0_100 ascii_lower sequence_ratio_x100 format_0f_exact
              acme_bundle acme_scored acme_bundle_scored)
    as (st & _ & _ & _ & _ & _ & Hrisk & Hconfidence).
  split; [exact Hrisk | exact Hconfidence].
Defined.

(** C3 on the bundle of the healthy registry. *)
Lemma C3_scoring_is_idempotent_witness :
  calculate_risk ascii_lower sequence_ratio_x100 format_0f_exact acme_scored
  = Returned acme_scored.
Proof.
  exact (proj1 (C3_scoring_is_idempotent ascii_lower sequence_ratio_x100
                  format_0f_exact acme_bundle acme_scored acme_bundle_scored)).
Defined.

(** C9 on the bundle of the healthy registry. *)
Lemma C9_scoring_keeps_collected_fields_witness :
  Report.officers acme_scored = Report.officers acme_bundle /\
  Report.similar_companies acme_scored = Report.similar_companies acme_bundle /\
  Report.flags acme_scored = Report.flags acme_bundle.
Proof.
  destruct (C9_scoring_keeps_collected_fields ascii_lower sequence_ratio_x100
              format_0f_exact acme_bundle acme_scored acme_bundle_scored)
    as (_ & Hofficers & _ & _ & _ & _ & Hsimilar & Hflags).
  repeat split; assumption.
Defined.

(** C5 on the bundle [quiet]. *)
Lemma C5_nothing_on_record_witness :
  exists report',
    calculate_risk ascii_lower sequence_ratio_x100 format_0f_exact quiet
    = Returned report' /\
    Report.risk_score report' = 0 /\
    Report.risk_level report' = Some "LOW" /\
    Report.is_phoenix report' = Some "NO" /\
    Report.phoenix_confidence report' = Some 0 /\
    Report.phoenix_indicators report' = [] /\
    Report.phoenix_reasons report' = Some [no_pattern_reason].
Proof.
  apply (C5_nothing_on_record ascii_lower sequence_ratio_x100 format_0f_exact quiet);
    reflexivity.
Defined.

(** C6 on the bundle [three_namesakes]. *)
Lemma C6_three_namesakes_clamped_witness :
  exists st report',
    score_rules ascii_lower sequence_ratio_x100 format_0f_exact three_namesakes
    = Returned st /\
    risk_score st = 25 + 25 + 25 + 30 /\
    kinds (indicators st) =
      [("high_name_similarity", "high"); ("high_name_similarity", "high");
       ("high_name_similarity", "high"); ("name_recycling", "critical")] /\
    calculate_risk ascii_lower sequence_ratio_x100 format_0f_exact three_namesakes
    = Returned report' /\
    Report.risk_score report' = 100 /\
    Report.risk_level report' = Some "CRITICAL" /\
    kinds (Report.phoenix_indicators report') = kinds (indicators st).
Proof.
  apply (C6_three_namesakes_clamped ascii_lower sequence_ratio_x100 format_0f_exact
           three_namesakes
           (dissolved_hit "ACME TRADING LIMITED" "00000001")
           (dissolved_hit "ACME TRADING LTD." "00000006")
           (dissolved_hit "ACME TRADING (UK) LTD" "00000007")
           "ACME TRADING LIMITED" "ACME TRADING LTD." "ACME TRADING (UK) LTD");
    try reflexivity;
    try (apply Qle_bool_imp_le; vm_compute; reflexivity).
  apply Nat.ltb_lt. vm_compute. reflexivity.
Defined.

(** C7 at a similarity of 800/9, of exactly 70 and of exactly 85. *)
Lemma C7_name_similarity_bands_witness :
  (exists st',
     score_similar ascii_lower sequence_ratio_x100 format_0f_exact
       "acme trading ltd" no_locals acme_old = Returned st' /\
     fired 25 "high_name_similarity" "high" no_locals st') /\
  (exists st',
     score_similar ascii_lower sequence_ratio_x100 format_0f_exact
       "abcdefgxyz" no_locals at_70 = Returned st' /\
     fired 15 "name_similarity" "medium" no_locals st') /\
  (exists st',
     score_similar ascii_lower sequence_ratio_x100 format_0f_exact
       "abcdefghijklmnopqrst" no_locals at_85 = Returned st' /\
     fired 25 "high_name_similarity" "high" no_locals st').
Proof.
  split; [| split].
  - destruct (C7_name_similarity_bands ascii_lower sequence_ratio_x100
                format_0f_exact "acme trading ltd" no_locals acme_old
                "ACME TRADING LIMITED" eq_refl eq_refl)
      as (Hhigh & _).
    apply Hhigh. apply Qle_bool_imp_le. vm_compute. reflexivity.
  - destruct (C7_name_similarity_bands ascii_lower sequence_ratio_x100
                format_0f_exact "abcdefgxyz" no_locals at_70
                "ABCDEFGQRS" eq_refl eq_refl)
      as (_ & _ & _ & Hat_70 & _).
    apply Hat_70. apply Qeq_bool_eq. vm_compute. reflexivity.
  - destruct (C7_name_similarity_bands ascii_lower sequence_ratio_x100
                format_0f_exact "abcdefghijklmnopqrst" no_locals at_85
                "ABCDEFGHIJKLMNOPQXYZ" eq_refl eq_refl)
      as (_ & _ & _ & _ & Hat_85).
    apply Hat_85. apply Qeq_bool_eq. vm_compute. reflexivity.
Defined.

(** C4 on a registry that does not know the company and on one of which
    only the profile call succeeds. *)
Lemma C4_profile_error_aborts_other_errors_degrade_witness :
  scripted_scan unknown_company "01234567"
  = (Returned (ScanError "Not found"), scan_start + 250000) /\
  (Report.company degraded_bundle = acme /\
   Report.officers degraded_bundle = [] /\
   Report.filing_history degraded_bundle = [] /\
   Report.psc degraded_bundle = [] /\
   Report.charges degraded_bundle = [] /\
   Report.insolvency degraded_bundle = [] /\
   exists report,
     fst (scripted_scan degraded "01234567") = Returned (Scanned report) /\
     collected report = collected degraded_bundle) /\
  fst (scan_officer Z (scripted_get degraded) clock_now strptime_ymd
         (Report.initial, scan_start) smith)
  = Report.append_officer (blank_entry smith) Report.initial /\
  fst (collect_by_name Z (scripted_get degraded) "01234567" acme
         Report.initial scan_start)
  = Report.initial /\
  fst (collect_by_address Z (scripted_get degraded) "01234567" acme
         Report.initial scan_start)
  = Report.initial.
Proof.
  split; [| split; [| split; [| split]]].
  - apply (proj1 (C4_profile_error_aborts_other_errors_degrade
                    Z (scripted_get unknown_company) clock_now strptime_ymd
                    ascii_lower sequence_ratio_x100 format_0f_exact
                    "01234567" scan_start)
             "Not found" (Some 404) (scan_start + 250000)).
    reflexivity.
  - destruct (proj1 (proj2 (C4_profile_error_aborts_other_errors_degrade
                              Z (scripted_get degraded) clock_now strptime_ymd
                              ascii_lower sequence_ratio_x100 format_0f_exact
                              "01234567" scan_start))
                acme (scan_start + 250000) eq_refl)
      as (_ & _ & Hcompany & Hofficers & Hfiling & Hpsc & Hcharges & Hinsolvency
          & Hscored).
    split; [exact Hcompany |].
    split; [apply Hofficers; reflexivity |].
    split; [apply Hfiling; reflexivity |].
    split; [apply Hpsc; reflexivity |].
    split; [apply Hcharges; reflexivity |].
    split; [apply Hinsolvency; reflexivity |].
    apply Hscored. vm_compute. constructor.
  - apply (proj1 (proj2 (proj2 (C4_profile_error_aborts_other_errors_degrade
                                  Z (scripted_get degraded) clock_now strptime_ymd
                                  ascii_lower sequence_ratio_x100 format_0f_exact
                                  "01234567" scan_start)))).
    reflexivity.
  - apply (proj1 (proj2 (proj2 (proj2
             (C4_profile_error_aborts_other_errors_degrade
                Z (scripted_get degraded) clock_now strptime_ymd
                ascii_lower sequence_ratio_x100 format_0f_exact
                "01234567" scan_start))))).
    reflexivity.
  - apply (proj2 (proj2 (proj2 (proj2
             (C4_profile_error_aborts_other_errors_degrade
                Z (scripted_get degraded) clock_now strptime_ymd
                ascii_lower sequence_ratio_x100 format_0f_exact
                "01234567" scan_start))))).
    reflexivity.
Defined.

Lemma healthy_scan :
  scripted_scan healthy "01234567"
  = (Returned (Scanned acme_scored), scan_start + 2250002).
Proof. vm_compute. reflexivity. Defined.

(** C8 as stated fails on the healthy registry: the two candidates that the
    name search produced carry no found_by key. *)
Lemma C8_name_hits_carry_no_tag :
  scripted_scan healthy "01234567"
  = (Returned (Scanned acme_scored), scan_start + 2250002) /\
  map Hit.found_by (Report.similar_companies acme_scored)
  = [None; None; Some "address"] /\
  ~ (forall candidate,
       In candidate (Report.similar_companies acme_scored) ->
       Hit.found_by candidate = Some "name" \/
       Hit.found_by candidate = Some "address").
Proof.
  split; [exact healthy_scan |].
  split; [reflexivity |].
  intros Hall. specialize (Hall acme_old (or_introl eq_refl)).
  destruct Hall as [H | H]; discriminate H.
Qed.

(** C8, amended, on the healthy registry. *)
Lemma C8_address_hits_tagged_name_hits_as_returned_witness :
  exists added,
    Report.similar_companies acme_scored = ([acme_old; acme_new] ++ added)%list /\
    Forall (tagged_address [acme_itself; acme_old; neighbour]) added.
Proof.
  exact (C8_address_hits_tagged_name_hits_as_returned
           Z (scripted_get healthy) clock_now strptime_ymd
           ascii_lower sequence_ratio_x100 format_0f_exact
           "01234567" scan_start acme (scan_start + 250000)
           acme_scored (scan_start + 2250002)
           eq_refl healthy_scan).
Defined.

(** C10 on the officer of the healthy registry: of the four hits of the
    search one has a date within the 730 days, one an older date, one no date
    and one a date that does not parse. *)
Lemma C10_recent_formations_counted_witness :
  (exists entry,
     Report.officers
       (fst (scan_officer Z (scripted_get healthy) clock_now strptime_ymd
               (Report.initial, scan_start) smith))
     = [entry] /\
     List.length (Officer.linked_companies entry) = 4%nat /\
     Officer.recent_formations entry = 1) /\
  (let result :=
     scan_linked_company Z clock_now strptime_ymd "SMITH, John"
       (blank_entry smith, Report.initial, scan_start) misdated in
   Officer.recent_formations (fst (fst result)) = 0 /\ snd result = scan_start) /\
  (let result :=
     scan_linked_company Z clock_now strptime_ymd "SMITH, John"
       (blank_entry smith, Report.initial, scan_start) undated in
   Officer.recent_formations (fst (fst result)) = 0 /\ snd result = scan_start).
Proof.
  split; [| split].
  - exact (proj1 (C10_recent_formations_counted Z (scripted_get healthy)
                    clock_now strptime_ymd Report.initial scan_start smith)).
  - apply (proj2 (C10_recent_formations_counted Z (scripted_get healthy)
                    clock_now strptime_ymd Report.initial scan_start smith)
             "SMITH, John" (blank_entry smith) Report.initial scan_start misdated).
    reflexivity.
  - apply (proj2 (C10_recent_formations_counted Z (scripted_get healthy)
                    clock_now strptime_ymd Report.initial scan_start smith)
             "SMITH, John" (blank_entry smith) Report.initial scan_start undated).
    reflexivity.
Defined.

(** * Further properties of the scorer *)

Lemma adds_refl st : adds st st.
Proof.
  exists []. rewrite app_nil_r. split; [reflexivity |].
  split; [constructor |]. unfold len. cbn. lia.
Qed.

Lemma adds_trans st1 st2 st3 : adds st1 st2 -> adds st2 st3 -> adds st1 st3.
Proof.
  intros (a1 & H1 & K1 & B1) (a2 & H2 & K2 & B2).
  exists (a1 ++ a2)%list. rewrite H2, H1, app_assoc.
  split; [reflexivity |]. split; [apply Forall_app; split; assumption |].
  unfold len in *. rewrite length_app, Nat2Z.inj_add. lia.
Qed.

Lemma adds_one delta ty sev text st :
  In ty indicator_types -> In sev indicator_severities -> 10 <= delta <= 40 ->
  adds st (indicate (mk_indicator ty sev text) (add_risk delta st)).
Proof.
  intros Hty Hsev Hdelta. exists [mk_indicator ty sev text].
  split; [reflexivity |]. split.
  - constructor; [split; assumption | constructor].
  - unfold len. cbn. lia.
Qed.

Ltac in_literal := cbn; repeat first [left; reflexivity | right].

Ltac known_literal :=
  repeat match goal with
  | |- Forall _ (_ :: _) => apply Forall_cons
  | |- Forall _ [] => apply Forall_nil
  | |- known _ => split
  end;
  try in_literal.

Section ScorerFurther.

Local Set Default Proof Using "Type".

Variable lower : string -> string.
Variable ratio_x100 : string -> string -> Q.
Variable format_0f : Q -> string.

Local Abbreviation score_similar := (score_similar lower ratio_x100 format_0f).
Local Abbreviation score_similars := (score_similars lower ratio_x100 format_0f).
Local Abbreviation score_address := (score_address lower ratio_x100).
Local Abbreviation score_rules := (score_rules lower ratio_x100 format_0f).
Local Abbreviation calculate_risk := (calculate_risk lower ratio_x100 format_0f).
Local Abbreviation recycled_name := (recycled_name lower ratio_x100).
Local Abbreviation untitled_match := (untitled_match lower ratio_x100).

(** *** Each rule appends known indicators worth 10 to 40 points each *)

Lemma adds_company_status status st : adds st (score_company_status status st).
Proof.
  unfold score_company_status. break_if.
  - apply adds_one; [known_literal | known_literal | lia].
  - apply adds_refl.
Qed.

Lemma adds_similar name st similar st' :
  score_similar name st similar = Returned st' -> adds st st'.
Proof.
  unfold score_similar. intros H.
  repeat break_if; destruct (Hit.title similar) as [title |]; cbn in H;
    try discriminate H; injection H as <-; try apply adds_refl.
  - exists [mk_indicator "high_name_similarity" "high"
              ("Very similar name to dissolved company: " ++ title ++ " ("
                 ++ get (Hit.company_number similar) "" ++ ") - "
                 ++ format_0f (ratio_x100 name (lower title)) ++ "% match")].
    split; [reflexivity |]. split.
    + known_literal.
    + unfold len. cbn. lia.
  - exists [mk_indicator "name_similarity" "medium"
              ("Similar name to dissolved company: " ++ title ++ " ("
                 ++ get (Hit.company_number similar) "" ++ ") - "
                 ++ format_0f (ratio_x100 name (lower title)) ++ "% match")].
    split; [reflexivity |]. split.
    + known_literal.
    + unfold len. cbn. lia.
Qed.

Lemma adds_similars name similars : forall st st',
  score_similars name similars st = Returned st' -> adds st st'.
Proof.
  induction similars as [| similar rest IH]; cbn; intros st st' H.
  - injection H as <-. apply adds_refl.
  - apply bind_returned in H. destruct H as (st1 & H1 & H2).
    eapply adds_trans; [eapply adds_similar; exact H1 | apply IH; exact H2].
Qed.

Lemma adds_name_recycling st : adds st (score_name_recycling st).
Proof.
  unfold score_name_recycling. repeat break_if;
    try apply adds_refl; apply adds_one; try known_literal; lia.
Qed.

Lemma pending_start st : pending st 0 st.
Proof.
  exists []. rewrite app_nil_r. split; [reflexivity |].
  split; [constructor |]. unfold len. cbn. lia.
Qed.

Lemma pending_indicate st officer_risk st' delta ty sev text :
  pending st officer_risk st' ->
  In ty indicator_types -> In sev indicator_severities -> 10 <= delta <= 40 ->
  pending st (officer_risk + delta) (indicate (mk_indicator ty sev text) st').
Proof.
  intros (added & Hadded & Hknown & Hrisk & Hscore) Hty Hsev Hdelta.
  exists (added ++ [mk_indicator ty sev text])%list.
  cbn [indicators indicate risk_score]. rewrite Hadded, app_assoc.
  split; [reflexivity |]. split.
  - apply Forall_app. split; [exact Hknown |].
    constructor; [split; assumption | constructor].
  - unfold len in *. rewrite length_app, Nat2Z.inj_add.
    cbn [List.length]. split; [lia | exact Hscore].
Qed.

Lemma pending_serial st officer_risk st' officer :
  pending st officer_risk st' ->
  pending st officer_risk (append_serial_director officer st').
Proof. intros H. exact H. Qed.

Lemma pending_phoenix st officer_risk st' officer :
  pending st officer_risk st' ->
  pending st officer_risk (append_phoenix_director officer st').
Proof. intros H. exact H. Qed.

Lemma pending_finish st officer_risk st' :
  pending st officer_risk st' -> adds st (add_risk officer_risk st').
Proof.
  intros (added & Hadded & Hknown & Hrisk & Hscore).
  exists added. cbn [indicators add_risk risk_score].
  split; [exact Hadded |]. split; [exact Hknown | lia].
Qed.

Lemma adds_officer st officer : adds st (score_officer st officer).
Proof.
  unfold score_officer. cbn zeta.
  repeat break_if; apply pending_finish;
    repeat first
      [ apply pending_start
      | apply pending_serial
      | apply pending_phoenix
      | apply pending_indicate; [| in_literal | in_literal | lia] ].
Qed.

Lemma adds_officers officers : forall st, adds st (score_officers officers st).
Proof.
  unfold score_officers.
  induction officers as [| officer rest IH]; cbn; intros st.
  - apply adds_refl.
  - eapply adds_trans; [apply adds_officer | apply IH].
Qed.

Lemma adds_address company similars st : adds st (score_address company similars st).
Proof.
  unfold score_address.
  repeat break_if;
    try (exists []; cbn; rewrite app_nil_r; split; [reflexivity |];
         split; [constructor | unfold len; cbn; lia]).
  - match goal with
    | |- adds _ (indicate ?ind (add_risk ?d ?st0)) =>
        exists [ind]; cbn; split; [reflexivity |];
        split; [known_literal | unfold len; cbn; lia]
    end.
  - match goal with
    | |- adds _ (indicate ?ind (add_risk ?d ?st0)) =>
        exists [ind]; cbn; split; [reflexivity |];
        split; [known_literal | unfold len; cbn; lia]
    end.
Qed.

Lemma adds_charges charges st : adds st (score_charges charges st).
Proof.
  unfold score_charges. repeat break_if;
    try apply adds_refl; apply adds_one; try known_literal; lia.
Qed.

Lemma adds_insolvency insolvency st : adds st (score_insolvency insolvency st).
Proof.
  unfold score_insolvency. break_if;
    try apply adds_refl; apply adds_one; try known_literal; lia.
Qed.

Lemma adds_rules report st :
  score_rules report = Returned st -> adds (mk_locals 0 [] [] [] [] []) st.
Proof.
  unfold score_rules. intros H.
  apply bind_returned in H. destruct H as (st1 & H1 & H2).
  injection H2 as <-.
  eapply adds_trans; [apply adds_company_status |].
  eapply adds_trans; [eapply adds_similars; exact H1 |].
  eapply adds_trans; [apply adds_name_recycling |].
  eapply adds_trans; [apply adds_officers |].
  eapply adds_trans; [apply adds_address |].
  eapply adds_trans; [apply adds_charges |].
  apply adds_insolvency.
Qed.

(** X1: every indicator has a type and a severity of the fixed vocabulary,
    the score is 0 exactly when there is no indicator, and it lies between 10
    and 40 points per indicator, up to the clamp. *)
Theorem X1_indicators_known_and_priced report report' :
  calculate_risk report = Returned report' ->
  let n := len (Report.phoenix_indicators report') in
  Forall known (Report.phoenix_indicators report') /\
  (Report.risk_score report' = 0 <-> Report.phoenix_indicators report' = []) /\
  Z.min (10 * n) 100 <= Report.risk_score report' <= 40 * n.
Proof.
  intros H. apply calculate_risk_returned in H.
  destruct H as (st & Hrules & ->). cbn -[Z.mul Z.min Z.add Z.sub].
  apply adds_rules in Hrules. destruct Hrules as (added & Hadded & Hknown & Hrisk).
  cbn -[Z.mul Z.min Z.add Z.sub] in Hadded, Hrisk. rewrite Hadded.
  split; [exact Hknown |]. split; [| lia].
  split.
  - intros Hzero. destruct added as [| ind rest]; [reflexivity |].
    unfold len in Hrisk. cbn [List.length] in Hrisk. lia.
  - intros ->. unfold len in Hrisk. cbn [List.length] in Hrisk. lia.
Qed.

(** X2: a suspicious company status puts its indicator first and the score
    at 30 or more; an insolvency record puts its indicator last and the score
    at 40 or more; both together give 70 or more, CRITICAL. *)
Theorem X2_status_and_insolvency_floor report report' :
  calculate_risk report = Returned report' ->
  let status := get (Company.company_status (Report.company report)) "" in
  (in_list status suspicious_statuses = true ->
   30 <= Report.risk_score report' /\
   exists rest,
     Report.phoenix_indicators report' =
       mk_indicator "company_status" "high" ("Company status is: " ++ status)
       :: rest) /\
  (Report.insolvency report <> [] ->
   40 <= Report.risk_score report' /\
   exists before,
     Report.phoenix_indicators report' =
       (before ++ [mk_indicator "insolvency_history" "critical"
                     "Company has insolvency proceedings on record"])%list) /\
  (in_list status suspicious_statuses = true ->
   Report.insolvency report <> [] ->
   70 <= Report.risk_score report' /\ Report.risk_level report' = Some "CRITICAL").
Proof.
  intros H. apply calculate_risk_returned in H.
  destruct H as (st & Hrules & ->). cbn -[Z.mul Z.min Z.add Z.sub].
  unfold score_rules in Hrules.
  apply bind_returned in Hrules. destruct Hrules as (st1 & H1 & H2).
  injection H2 as <-.
  apply adds_similars in H1.
  set (st0 := score_company_status
                (get (Company.company_status (Report.company report)) "")
                (mk_locals 0 [] [] [] [] [])) in *.
  set (st5 := score_charges (Report.charges report)
                (score_address (Report.company report)
                   (Report.similar_companies report)
                   (score_officers (Report.officers report)
                      (score_name_recycling st1)))).
  assert (H05 : adds st0 st5).
  { eapply adds_trans; [exact H1 |].
    eapply adds_trans; [apply adds_name_recycling |].
    eapply adds_trans; [apply adds_officers |].
    eapply adds_trans; [apply adds_address |].
    apply adds_charges. }
  pose proof (adds_insolvency (Report.insolvency report) st5) as H56.
  pose proof (adds_trans _ _ _ H05 H56) as H06.
  assert (Hstatus : in_list (get (Company.company_status (Report.company report)) "")
                      suspicious_statuses = true ->
                    risk_score st0 = 30 /\
                    indicators st0 =
                      [mk_indicator "company_status" "high"
                         ("Company status is: "
                            ++ get (Company.company_status (Report.company report)) "")]).
  { intros Hin. unfold st0, score_company_status. rewrite Hin. split; reflexivity. }
  assert (Hinsolvency : Report.insolvency report <> [] ->
                        score_insolvency (Report.insolvency report) st5 =
                          indicate
                            (mk_indicator "insolvency_history" "critical"
                               "Company has insolvency proceedings on record")
                            (add_risk 40 st5)).
  { intros Hsome. unfold score_insolvency.
    destruct (Report.insolvency report); [contradiction | reflexivity]. }
  assert (Hst5 : risk_score st0 <= risk_score st5).
  { destruct H05 as (added & _ & _ & Hrisk). unfold len in Hrisk. lia. }
  assert (Hst0 : 0 <= risk_score st0).
  { destruct (adds_company_status
                (get (Company.company_status (Report.company report)) "")
                (mk_locals 0 [] [] [] [] [])) as (added & _ & _ & Hrisk).
    fold st0 in Hrisk. cbn [risk_score] in Hrisk. unfold len in Hrisk. lia. }
  split; [| split].
  - intros Hin. destruct (Hstatus Hin) as [Hscore Hinds].
    destruct H06 as (added & Hadded & _ & Hrisk).
    split; [unfold len in Hrisk; lia |].
    exists added. rewrite Hadded, Hinds. reflexivity.
  - intros Hsome. rewrite (Hinsolvency Hsome). cbn -[Z.mul Z.min Z.add Z.sub].
    split; [lia |]. eexists. reflexivity.
  - intros Hin Hsome. destruct (Hstatus Hin) as [Hscore _].
    rewrite (Hinsolvency Hsome). cbn -[Z.mul Z.min Z.add Z.sub].
    assert (Hmin : Z.min (risk_score st5 + 40) 100 >= 70) by lia.
    split; [lia |]. unfold risk_level_of.
    destruct (70 <=? Z.min (risk_score st5 + 40) 100) eqn:E; [reflexivity |].
    apply Z.leb_gt in E. lia.
Qed.

(** *** The reasons of the verdict *)

Lemma reasoned_raise n delta reason v :
  reasoned n v -> 20 <= delta <= 40 ->
  reasoned (n + 1) (raise_confidence delta reason v).
Proof.
  intros [Hlen Hconf] Hdelta. unfold reasoned, len in *.
  cbn [phoenix_reasons phoenix_confidence raise_confidence].
  rewrite length_app, Nat2Z.inj_add. cbn [List.length]. lia.
Qed.

Lemma reasoned_check n v : reasoned n v -> reasoned n (check_verdict v).
Proof. unfold check_verdict. break_if; intros H; exact H. Qed.

Lemma reasoned_skip n v : reasoned n v -> reasoned (n + 1) v.
Proof. intros [Hlen Hconf]. split; [lia | exact Hconf]. Qed.

Ltac reasoned_step :=
  repeat break_if;
  first
    [ apply reasoned_check, reasoned_raise; [assumption | lia]
    | apply reasoned_raise; [assumption | lia]
    | apply reasoned_skip; assumption ].

Lemma phoenix_verdict_reasoned officers st :
  reasoned 6 (phoenix_verdict officers st).
Proof.
  unfold phoenix_verdict.
  assert (H0 : reasoned 0 (mk_verdict false 0 [])).
  { unfold reasoned, len. cbn. lia. }
  set (d := len (phoenix_directors st)).
  set (n := len (name_recycling_dissolved st)).
  assert (H1 : reasoned (0 + 1) (verdict_directors d (mk_verdict false 0 []))).
  { unfold verdict_directors. reasoned_step. }
  set (v1 := verdict_directors d (mk_verdict false 0 [])) in *.
  assert (H2 : reasoned (0 + 1 + 1) (verdict_liquidation officers v1)).
  { unfold verdict_liquidation. reasoned_step. }
  set (v2 := verdict_liquidation officers v1) in *.
  assert (H3 : reasoned (0 + 1 + 1 + 1) (verdict_name_recycling n v2)).
  { unfold verdict_name_recycling. reasoned_step. }
  set (v3 := verdict_name_recycling n v2) in *.
  assert (H4 : reasoned (0 + 1 + 1 + 1 + 1) (verdict_insolvency (indicators st) d v3)).
  { unfold verdict_insolvency. reasoned_step. }
  set (v4 := verdict_insolvency (indicators st) d v3) in *.
  assert (H5 : reasoned (0 + 1 + 1 + 1 + 1 + 1)
                 (verdict_address (len (address_matches st)) n v4)).
  { unfold verdict_address. reasoned_step. }
  set (v5 := verdict_address (len (address_matches st)) n v4) in *.
  assert (H6 : reasoned (0 + 1 + 1 + 1 + 1 + 1 + 1)
                 (verdict_serial (len (serial_directors st)) n v5)).
  { unfold verdict_serial. reasoned_step. }
  exact H6.
Qed.

(** X4: the reasons of a scored report are never empty: at confidence 0 they
    are the single default message, and at a positive confidence there are
    one to six of them, each standing for 20 to 40 points of confidence. *)
Theorem X4_reasons_match_confidence report report' :
  calculate_risk report = Returned report' ->
  exists reasons confidence,
    Report.phoenix_reasons report' = Some reasons /\
    Report.phoenix_confidence report' = Some confidence /\
    reasons <> [] /\
    (confidence = 0 -> reasons = [no_pattern_reason]) /\
    (0 < confidence ->
     1 <= len reasons <= 6 /\
     Z.min (20 * len reasons) 100 <= confidence <= 40 * len reasons).
Proof.
  intros H. apply calculate_risk_returned in H.
  destruct H as (st & _ & ->). cbn -[Z.mul Z.min Z.add Z.sub].
  destruct (phoenix_verdict_reasoned (Report.officers report) st) as [Hlen Hconf].
  set (v := phoenix_verdict (Report.officers report) st) in *.
  do 2 eexists. split; [reflexivity |]. split; [reflexivity |].
  destruct (phoenix_reasons v) as [| reason rest] eqn:E;
    cbn [truthy_list].
  - unfold len in Hconf. cbn [List.length] in Hconf.
    split; [discriminate |]. split; [reflexivity |]. lia.
  - unfold len in *. cbn [List.length] in *.
    split; [discriminate |]. split; [lia |]. lia.
Qed.

(** *** The lists of the rule pass are filters of the bundle *)

Lemma filter_all_false {A : Type} (f : A -> bool) (l : list A) :
  Forall (fun x => f x = false) l -> filter f l = [].
Proof.
  intros Hall. induction Hall as [| x rest Hx _ IH]; cbn.
  - reflexivity.
  - rewrite Hx. exact IH.
Qed.

Lemma score_similar_lists name st similar st' :
  score_similar name st similar = Returned st' ->
  lists st' =
    ((name_recycling_dissolved st
        ++ (if recycled_name name similar then [similar] else []))%list,
     phoenix_directors st, serial_directors st, address_matches st).
Proof.
  unfold score_similar, recycled_name, closed_statuses, lists.
  destruct (in_list (get (Hit.company_status similar) "")
              ["dissolved"; "liquidation"; "insolvency-proceedings"]);
    cbn [andb].
  - destruct (Qgeb (ratio_x100 name (lower (get (Hit.title similar) ""))) 70).
    + destruct (Qgeb (ratio_x100 name (lower (get (Hit.title similar) ""))) 85);
        destruct (Hit.title similar); cbn; intros H;
        try discriminate H; injection H as <-; reflexivity.
    + intros H. injection H as <-. cbn. rewrite app_nil_r. reflexivity.
  - intros H. injection H as <-. cbn. rewrite app_nil_r. reflexivity.
Qed.

Lemma score_similars_lists name similars : forall st st',
  score_similars name similars st = Returned st' ->
  lists st' =
    ((name_recycling_dissolved st ++ filter (recycled_name name) similars)%list,
     phoenix_directors st, serial_directors st, address_matches st).
Proof.
  induction similars as [| similar rest IH]; cbn [filter]; intros st st' H.
  - cbn in H. injection H as <-. unfold lists. rewrite app_nil_r. reflexivity.
  - rewrite score_similars_cons in H.
    apply bind_returned in H. destruct H as (st1 & H1 & H2).
    apply score_similar_lists in H1. apply IH in H2.
    unfold lists in *. injection H1 as Hn Hp Hs Ha.
    rewrite H2, Hn, Hp, Hs, Ha, <- app_assoc.
    destruct (recycled_name name similar); reflexivity.
Qed.

Lemma score_officer_lists st officer :
  lists (score_officer st officer) =
    (name_recycling_dissolved st,
     (phoenix_directors st ++ (if phoenix_pattern officer then [officer] else []))%list,
     (serial_directors st ++ (if serial_pattern officer then [officer] else []))%list,
     address_matches st).
Proof.
  unfold score_officer, phoenix_pattern, serial_pattern, lists. cbn zeta.
  repeat break_if; cbn; rewrite ?app_nil_r; try reflexivity;
    cbn in *; congruence.
Qed.

Lemma score_officers_lists officers : forall st,
  lists (score_officers officers st) =
    (name_recycling_dissolved st,
     (phoenix_directors st ++ filter phoenix_pattern officers)%list,
     (serial_directors st ++ filter serial_pattern officers)%list,
     address_matches st).
Proof.
  unfold score_officers.
  induction officers as [| officer rest IH]; cbn [fold_left filter]; intros st.
  - unfold lists. rewrite !app_nil_r. reflexivity.
  - rewrite IH.
    pose proof (score_officer_lists st officer) as H.
    unfold lists in H. injection H as Hn Hp Hs Ha.
    rewrite Hn, Hp, Hs, Ha, <- !app_assoc.
    destruct (phoenix_pattern officer), (serial_pattern officer); reflexivity.
Qed.

Lemma rules_lists report st :
  score_rules report = Returned st ->
  let name := lower (get (Company.company_name (Report.company report)) "") in
  let address := build_address_string (Report.company report) in
  lists st =
    (filter (recycled_name name) (Report.similar_companies report),
     filter phoenix_pattern (Report.officers report),
     filter serial_pattern (Report.officers report),
     if truthy_str address
     then matching_addresses lower ratio_x100 address (Report.similar_companies report)
     else []).
Proof.
  unfold score_rules. intros H.
  apply bind_returned in H. destruct H as (st1 & H1 & H2).
  injection H2 as <-.
  apply score_similars_lists in H1.
  assert (H0 : lists (score_company_status
                        (get (Company.company_status (Report.company report)) "")
                        (mk_locals 0 [] [] [] [] [])) = ([], [], [], [])).
  { unfold score_company_status. break_if; reflexivity. }
  unfold lists in H0. injection H0 as Hn0 Hp0 Hs0 Ha0.
  rewrite Hn0, Hp0, Hs0, Ha0 in H1. cbn [app] in H1.
  assert (H2 : lists (score_name_recycling st1) = lists st1).
  { unfold score_name_recycling. repeat break_if; reflexivity. }
  pose proof (score_officers_lists (Report.officers report)
                (score_name_recycling st1)) as H3.
  set (st3 := score_officers (Report.officers report) (score_name_recycling st1)) in *.
  cbn zeta.
  assert (H4 : forall st0,
             lists (score_insolvency (Report.insolvency report)
                      (score_charges (Report.charges report) st0)) = lists st0).
  { intros st0. unfold score_insolvency, score_charges.
    repeat break_if; reflexivity. }
  rewrite H4.
  assert (H5 : lists (score_address (Report.company report)
                        (Report.similar_companies report) st3) =
               (name_recycling_dissolved st3, phoenix_directors st3,
                serial_directors st3,
                if truthy_str (build_address_string (Report.company report))
                then matching_addresses lower ratio_x100
                       (build_address_string (Report.company report))
                       (Report.similar_companies report)
                else [])).
  { unfold score_address. repeat break_if; reflexivity. }
  rewrite H5. unfold lists in *.
  injection H3 as Hn3 Hp3 Hs3 _. injection H2 as Hn2 Hp2 Hs2 _.
  injection H1 as Hn1 Hp1 Hs1 _.
  rewrite Hn3, Hp3, Hs3, Hn2, Hp2, Hs2, Hn1, Hp1, Hs1. reflexivity.
Qed.

(** X5: the four lists that drive the aggregate rules and the verdict are
    filters of the bundle: the recycled names are the candidates of a closed
    status at 70 or more, the phoenix and serial directors are the officers
    with that pattern, the address matches are the candidates whose snippet is
    above 85 against a non-empty target address. *)
Theorem X5_lists_are_filters report st :
  score_rules report = Returned st ->
  let name := lower (get (Company.company_name (Report.company report)) "") in
  let address := build_address_string (Report.company report) in
  name_recycling_dissolved st =
    filter (recycled_name name) (Report.similar_companies report) /\
  phoenix_directors st = filter phoenix_pattern (Report.officers report) /\
  serial_directors st = filter serial_pattern (Report.officers report) /\
  address_matches st =
    (if truthy_str address
     then matching_addresses lower ratio_x100 address (Report.similar_companies report)
     else []) /\
  (len (address_matches st) <= len (Report.similar_companies report) /\
   len (name_recycling_dissolved st) <= len (Report.similar_companies report) /\
   len (phoenix_directors st) <= len (Report.officers report)).
Proof.
  intros H. apply rules_lists in H. cbn zeta in H. unfold lists in H.
  injection H as Hn Hp Hs Ha. cbn zeta.
  split; [exact Hn |]. split; [exact Hp |]. split; [exact Hs |].
  split; [exact Ha |].
  rewrite Hn, Hp, Ha. unfold len, matching_addresses.
  repeat split; try break_if; try apply Nat2Z.inj_le; try apply filter_length_le.
  cbn. lia.
Qed.

(** X6: without an officer showing one of the three patterns (a dissolved
    company with a recent formation, two liquidation links, three dissolved
    links) the verdict is NO and the confidence at most 55, whatever the
    names and addresses of the similar companies. *)
Theorem X6_verdict_needs_an_officer_pattern report report' :
  calculate_risk report = Returned report' ->
  Forall
    (fun officer =>
       phoenix_pattern officer = false /\ liquidation_pattern officer = false /\
       serial_pattern officer = false)
    (Report.officers report) ->
  Report.is_phoenix report' = Some "NO" /\
  exists confidence,
    Report.phoenix_confidence report' = Some confidence /\ confidence <= 55.
Proof.
  intros H Hnone. apply calculate_risk_returned in H.
  destruct H as (st & Hrules & ->). cbn -[Z.min].
  apply rules_lists in Hrules. cbn zeta in Hrules. unfold lists in Hrules.
  injection Hrules as _ Hp Hs _.
  pose proof (fun pattern => filter_all_false pattern (Report.officers report))
    as Hfilter.
  assert (Hdirectors : phoenix_directors st = []).
  { rewrite Hp. apply Hfilter. eapply Forall_impl; [| exact Hnone].
    cbn. intros o Ho. apply Ho. }
  assert (Hserial : serial_directors st = []).
  { rewrite Hs. apply Hfilter. eapply Forall_impl; [| exact Hnone].
    cbn. intros o Ho. apply Ho. }
  assert (Hliquidation :
            filter (fun d => 2 <=? Officer.liquidation_links d) (Report.officers report)
            = []).
  { apply (Hfilter liquidation_pattern). eapply Forall_impl; [| exact Hnone].
    cbn. intros o Ho. apply Ho. }
  unfold phoenix_verdict, verdict_directors, verdict_liquidation,
    verdict_insolvency, verdict_serial.
  rewrite Hdirectors, Hserial, Hliquidation.
  cbn [len List.length Z.of_nat Z.leb Z.ltb Z.compare truthy_list andb].
  rewrite andb_false_r. cbn [andb].
  unfold verdict_name_recycling, verdict_address, check_verdict, raise_confidence.
  repeat break_if; cbn in *; try discriminate;
    (split; [reflexivity |]); eexists; (split; [reflexivity |]); lia.
Qed.

(** *** When the scorer raises *)

Lemma score_similar_outcome name st similar :
  if untitled_match name similar
  then score_similar name st similar = Raised (KeyError "title")
  else exists st', score_similar name st similar = Returned st'.
Proof.
  unfold untitled_match, recycled_name, score_similar, closed_statuses.
  destruct (in_list (get (Hit.company_status similar) "")
              ["dissolved"; "liquidation"; "insolvency-proceedings"]);
    cbn [andb]; [| eexists; reflexivity].
  destruct (Hit.title similar) as [title |]; cbn [get getitem bind andb].
  - rewrite andb_false_r. repeat break_if; eexists; reflexivity.
  - rewrite andb_true_r.
    destruct (Qgeb (ratio_x100 name (lower "")) 70).
    + break_if; reflexivity.
    + eexists; reflexivity.
Qed.

Lemma score_similars_raised name similars : forall st e,
  score_similars name similars st = Raised e ->
  e = KeyError "title" /\
  Exists (fun similar => untitled_match name similar = true) similars.
Proof.
  induction similars as [| similar rest IH]; intros st e H.
  - discriminate H.
  - rewrite score_similars_cons in H.
    pose proof (score_similar_outcome name st similar) as Hhead.
    destruct (untitled_match name similar) eqn:E.
    + rewrite Hhead in H. injection H as <-.
      split; [reflexivity | left; exact E].
    + destruct Hhead as (st1 & Hst1). rewrite Hst1 in H. cbn [bind] in H.
      destruct (IH st1 e H) as [He Hrest].
      split; [exact He | right; exact Hrest].
Qed.

Lemma score_similars_raises name similars : forall st,
  Exists (fun similar => untitled_match name similar = true) similars ->
  score_similars name similars st = Raised (KeyError "title").
Proof.
  induction similars as [| similar rest IH]; intros st Hsome.
  - inversion Hsome.
  - rewrite score_similars_cons.
    pose proof (score_similar_outcome name st similar) as Hhead.
    destruct (untitled_match name similar) eqn:E.
    + rewrite Hhead. reflexivity.
    + destruct Hhead as (st1 & ->). cbn [bind]. apply IH.
      inversion Hsome as [? ? Hhere | ? ? Hlater]; subst;
        [congruence | exact Hlater].
Qed.

(** X7: the scorer raises exactly when some similar company of a closed
    status has no key title while the empty title is at 70 or more against
    the company name; the exception is then KeyError('title'), and nothing is
    written into the report. *)
Theorem X7_raises_only_for_a_missing_title report :
  let name := lower (get (Company.company_name (Report.company report)) "") in
  let missing :=
    Exists (fun similar => untitled_match name similar = true)
      (Report.similar_companies report) in
  (missing -> calculate_risk report = Raised (KeyError "title")) /\
  (forall e, calculate_risk report = Raised e -> e = KeyError "title" /\ missing) /\
  (~ missing -> exists report', calculate_risk report = Returned report').
Proof.
  cbn zeta.
  assert (Hraised : forall e, calculate_risk report = Raised e ->
             e = KeyError "title" /\
             Exists
               (fun similar =>
                  untitled_match
                    (lower (get (Company.company_name (Report.company report)) ""))
                    similar = true)
               (Report.similar_companies report)).
  { intros e H. unfold calculate_risk, score_rules in H.
    match type of H with
    | bind (bind ?m _) _ = _ => destruct m as [st1 | e1] eqn:E
    end.
    - discriminate H.
    - cbn [bind] in H. injection H as <-.
      eapply score_similars_raised. exact E. }
  split; [| split].
  - intros Hmissing. unfold calculate_risk, score_rules.
    rewrite (score_similars_raises _ _ _ Hmissing). reflexivity.
  - exact Hraised.
  - intros Hnone. destruct (calculate_risk report) as [report' | e] eqn:E.
    + exists report'. reflexivity.
    + exfalso. apply Hnone. exact (proj2 (Hraised e eq_refl)).
Qed.

(** X8: the level of a scored report and the colour the scan page gives its
    score follow the same bands: CRITICAL and red from 70, HIGH from 50,
    MEDIUM from 30, LOW and green below; the verdict colour is red exactly for
    the verdict YES. *)
Theorem X8_level_and_colour_agree report report' :
  calculate_risk report = Returned report' ->
  let score := Report.risk_score report' in
  exists level verdict,
    Report.risk_level report' = Some level /\
    Report.is_phoenix report' = Some verdict /\
    (70 <= score <= 100 /\ level = "CRITICAL" /\ risk_color score = "#d63638" \/
     50 <= score < 70 /\ level = "HIGH" /\ risk_color score = "#dba617" \/
     30 <= score < 50 /\ level = "MEDIUM" /\ risk_color score = "#f0c33c" \/
     0 <= score < 30 /\ level = "LOW" /\ risk_color score = "#00a32a") /\
    (verdict = "YES" /\ phoenix_bg verdict = "#dc3545" \/
     verdict = "NO" /\ phoenix_bg verdict = "#28a745").
Proof.
  intros H. apply calculate_risk_returned in H.
  destruct H as (st & Hrules & ->). cbn -[Z.min].
  pose proof (score_rules_nonneg _ _ _ _ _ Hrules) as Hnonneg.
  do 2 eexists. split; [reflexivity |]. split; [reflexivity |].
  split.
  - unfold risk_level_of, risk_color.
    destruct (70 <=? Z.min (risk_score st) 100) eqn:E70.
    { apply Z.leb_le in E70. left. repeat split; try reflexivity; lia. }
    apply Z.leb_gt in E70.
    destruct (50 <=? Z.min (risk_score st) 100) eqn:E50.
    { apply Z.leb_le in E50. right. left. repeat split; try reflexivity; lia. }
    apply Z.leb_gt in E50.
    destruct (30 <=? Z.min (risk_score st) 100) eqn:E30.
    { apply Z.leb_le in E30. right. right. left.
      repeat split; try reflexivity; lia. }
    apply Z.leb_gt in E30. right. right. right.
    repeat split; try reflexivity; lia.
  - destruct (is_phoenix (phoenix_verdict (Report.officers report) st));
      [left | right]; split; reflexivity.
Qed.

(** The only way to a confidence of exactly 60 with the verdict unset: 40 for
    two or more phoenix directors and 20 for exactly two recycled names, with
    no later rule firing. *)
Lemma verdict_no_at_60 officers st :
  is_phoenix (phoenix_verdict officers st) = false ->
  phoenix_confidence (phoenix_verdict officers st) = 60 ->
  2 <= len (phoenix_directors st) /\
  filter liquidation_pattern officers = [] /\
  len (name_recycling_dissolved st) = 2 /\
  serial_directors st = [].
Proof.
  intros Hno Hconf.
  unfold phoenix_verdict, verdict_directors, verdict_liquidation,
    verdict_name_recycling, verdict_insolvency, verdict_address, verdict_serial
    in Hno, Hconf.
  change (filter (fun d => 2 <=? Officer.liquidation_links d) officers)
    with (filter liquidation_pattern officers) in Hno, Hconf.
  destruct (Z.leb_spec 2 (len (phoenix_directors st))) as [E2 | E2];
    destruct (Z.leb_spec 1 (len (phoenix_directors st))) as [E1 | E1];
    destruct (Z.ltb_spec 0 (len (phoenix_directors st))) as [E0 | E0];
    try (exfalso; lia);
    destruct (Z.leb_spec 3 (len (name_recycling_dissolved st))) as [R3 | R3];
    destruct (Z.leb_spec 2 (len (name_recycling_dissolved st))) as [R2 | R2];
    try (exfalso; lia);
    destruct (filter liquidation_pattern officers) as [| d ds] eqn:Eliq;
    cbn [truthy_list] in Hno, Hconf;
    destruct (existsb (fun ind => String.eqb (type ind) "insolvency_history")
                (indicators st));
    destruct (3 <=? len (address_matches st));
    destruct (1 <=? len (serial_directors st)) eqn:S1;
    cbv -[len str String.append app] in Hno, Hconf;
    try discriminate Hno; try discriminate Hconf.
  repeat split; try lia.
  destruct (serial_directors st); [reflexivity |].
  exfalso. apply Z.leb_gt in S1. unfold len in S1. cbn [List.length] in S1. lia.
Qed.

(** X3: the verdict against the threshold of 60.  A verdict YES has a
    confidence of 60 or more and a confidence above 60 has the verdict YES;
    a confidence of exactly 60 with the verdict NO arises only from two or
    more phoenix directors with exactly two recycled names and no officer
    with a liquidation or serial pattern. *)
Theorem X3_verdict_follows_the_threshold report report' :
  calculate_risk report = Returned report' ->
  let name := lower (get (Company.company_name (Report.company report)) "") in
  let officers := Report.officers report in
  exists confidence,
    Report.phoenix_confidence report' = Some confidence /\
    (Report.is_phoenix report' = Some "YES" -> 60 <= confidence) /\
    (60 < confidence -> Report.is_phoenix report' = Some "YES") /\
    (Report.is_phoenix report' = Some "NO" -> confidence = 60 ->
     2 <= len (filter phoenix_pattern officers) /\
     filter liquidation_pattern officers = [] /\
     filter serial_pattern officers = [] /\
     len (filter (recycled_name name) (Report.similar_companies report)) = 2).
Proof.
  intros H. apply calculate_risk_returned in H.
  destruct H as (st & Hrules & ->). cbn -[Z.min].
  pose proof (rules_lists _ _ Hrules) as Hlists. cbn zeta in Hlists.
  unfold lists in Hlists. injection Hlists as Hn Hp Hs _.
  destruct (phoenix_verdict_settled (Report.officers report) st) as [Hyes Hno].
  pose proof (verdict_no_at_60 (Report.officers report) st) as Hmissed.
  eexists. split; [reflexivity |].
  destruct (is_phoenix (phoenix_verdict (Report.officers report) st)).
  - split; [intros _; specialize (Hyes eq_refl); lia |].
    split; [reflexivity |]. discriminate.
  - split; [discriminate |].
    split; [intros Habove; specialize (Hno eq_refl); lia |].
    intros _ Hconf.
    destruct (Hmissed eq_refl ltac:(lia)) as (Hd & Hl & Hr & Hser).
    rewrite <- Hp, <- Hs, <- Hn. repeat split; assumption.
Qed.

End ScorerFurther.

(** * Properties of [build_address_string] *)

Lemma length_append (s1 s2 : string) :
  String.length (s1 ++ s2) = (String.length s1 + String.length s2)%nat.
Proof.
  induction s1 as [| c s1 IH]; cbn; [reflexivity | rewrite IH; reflexivity].
Qed.

Lemma join_cons_length sep part rest :
  String.length (join sep (part :: rest)) =
    (String.length part
     + match rest with
       | [] => 0
       | _ :: _ => String.length sep + String.length (join sep rest)
       end)%nat.
Proof.
  destruct rest as [| next rest]; cbn [join].
  - lia.
  - rewrite !length_append. reflexivity.
Qed.

Lemma join_length sep parts :
  String.length (join sep parts) =
    (total_length parts + String.length sep * (List.length parts - 1))%nat.
Proof.
  induction parts as [| part rest IH].
  - cbn. lia.
  - rewrite join_cons_length. destruct rest as [| next rest].
    + cbn. lia.
    + rewrite IH. cbn [total_length fold_right List.length]. lia.
Qed.

Lemma build_address_string_parts company addr :
  Company.registered_office_address company = Some addr ->
  build_address_string company = join " " (address_parts addr).
Proof.
  intros Haddr. unfold build_address_string, address_parts. rewrite Haddr.
  cbn [flat_map map filter get app].
  destruct (Address.address_line_1 addr) as [l1 |],
           (Address.address_line_2 addr) as [l2 |],
           (Address.locality addr) as [lo |],
           (Address.postal_code addr) as [pc |];
    cbn [get]; change (truthy_str "") with false;
    repeat match goal with
    | |- context [truthy_str ?x] => destruct (truthy_str x)
    end; reflexivity.
Qed.

Lemma truthy_str_length s : truthy_str s = true -> (1 <= String.length s)%nat.
Proof.
  destruct s; cbn; [discriminate | lia].
Qed.

(** X9: the address string is the non-empty components in the order line 1,
    line 2, locality, postal code with one space between neighbours: its
    length is the total length of the components plus one per gap, and it is
    empty exactly when the company has no registered address or none of the
    four components is set. *)
Theorem X9_address_string_shape company :
  (Company.registered_office_address company = None ->
   build_address_string company = "") /\
  (forall addr,
     Company.registered_office_address company = Some addr ->
     let parts := address_parts addr in
     build_address_string company = join " " parts /\
     String.length (build_address_string company) =
       (total_length parts + (List.length parts - 1))%nat /\
     (build_address_string company = "" <-> parts = []) /\
     (List.length parts <= 4)%nat /\
     Forall (fun part => part <> "") parts).
Proof.
  split.
  - intros Hnone. unfold build_address_string. rewrite Hnone. reflexivity.
  - intros addr Haddr. cbn zeta.
    rewrite (build_address_string_parts company addr Haddr).
    assert (Htruthy : Forall (fun part => truthy_str part = true) (address_parts addr)).
    { unfold address_parts. apply Forall_forall. intros part Hin.
      apply filter_In in Hin. apply Hin. }
    split; [reflexivity |]. split.
    { rewrite join_length. cbn [String.length]. lia. }
    split.
    { split.
      - intros Hempty. destruct (address_parts addr) as [| part rest];
          [reflexivity |].
        exfalso. inversion Htruthy as [| ? ? Hpart _]; subst.
        apply truthy_str_length in Hpart.
        assert (Hlen : String.length (join " " (part :: rest)) = 0%nat)
          by (rewrite Hempty; reflexivity).
        rewrite join_cons_length in Hlen. lia.
      - intros ->. reflexivity. }
    split.
    { unfold address_parts.
      etransitivity; [apply filter_length_le |]. cbn. lia. }
    eapply Forall_impl; [| exact Htruthy].
    intros part Hpart ->. discriminate Hpart.
Qed.

(** * Further properties of the collector *)

Lemma present_numbers_app l1 l2 :
  present_numbers (l1 ++ l2) = (present_numbers l1 ++ present_numbers l2)%list.
Proof. unfold present_numbers. apply flat_map_app. Qed.

Lemma not_present number hits :
  existsb
    (fun sc =>
       match Hit.company_number sc with
       | Some n => String.eqb n number
       | None => false
       end)
    hits = false ->
  ~ In number (present_numbers hits).
Proof.
  induction hits as [| hit rest IH]; cbn; intros H.
  - tauto.
  - apply orb_false_iff in H. destruct H as [Hhit Hrest].
    intros Hin. apply in_app_or in Hin. destruct Hin as [Hin | Hin].
    + destruct (Hit.company_number hit) as [n |]; cbn in Hin; [| tauto].
      destruct Hin as [-> | []]. rewrite String.eqb_refl in Hhit. discriminate.
    + exact (IH Hrest Hin).
Qed.

Lemma in_list_dissolved status :
  String.eqb status "dissolved" = true -> in_list status suspicious_statuses = true.
Proof. intros H. apply String.eqb_eq in H. subst. reflexivity. Qed.

Lemma in_list_liquidation status :
  in_list status ["liquidation"; "insolvency-proceedings"] = true ->
  in_list status suspicious_statuses = true.
Proof.
  unfold in_list. cbn. intros H.
  destruct (String.eqb status "liquidation") eqn:E1.
  - apply String.eqb_eq in E1. subst. reflexivity.
  - destruct (String.eqb status "insolvency-proceedings") eqn:E2.
    + apply String.eqb_eq in E2. subst. reflexivity.
    + discriminate H.
Qed.

Section CollectorFurther.

Variable World : Type.
Variable requests_get :
  forall k : resource, string -> World -> http_outcome (body_of k) * World.
Variable now : World -> Z * World.
Variable strptime : string -> string -> option Z.

Local Abbreviation api_request := (api_request World requests_get).
Local Abbreviation get_company := (get_company World requests_get).
Local Abbreviation get_officers := (get_officers World requests_get).
Local Abbreviation search_companies := (search_companies World requests_get).
Local Abbreviation count_recent_formation := (count_recent_formation World now strptime).
Local Abbreviation scan_linked_company := (scan_linked_company World now strptime).
Local Abbreviation scan_officer := (scan_officer World requests_get now strptime).
Local Abbreviation collect_by_name := (collect_by_name World requests_get).
Local Abbreviation collect_by_address := (collect_by_address World requests_get).
Local Abbreviation collect_records := (collect_records World requests_get now strptime).
Local Abbreviation collect := (collect World requests_get now strptime).

(** *** One officer *)

Lemma count_recent_formation_cases date entry w :
  fst (count_recent_formation date entry w) = entry \/
  fst (count_recent_formation date entry w) = Officer.incr_recent entry.
Proof.
  unfold count_recent_formation.
  destruct (truthy_str date); [| left; reflexivity].
  destruct (strptime date "%Y-%m-%d") as [creation_date |]; [| left; reflexivity].
  destruct (now w) as [today w'].
  destruct (today - timedelta_days 730 <? creation_date);
    [right | left]; reflexivity.
Qed.

(** What one hit does to the officer entry and to the flags. *)
Lemma scan_linked_company_entry name entry report w hit :
  let result := scan_linked_company name (entry, report, w) hit in
  let entry' := fst (fst result) in
  let one (b : bool) := if b then 1 else 0 in
  (Officer.name entry', Officer.role entry', Officer.appointed_on entry',
   Officer.resigned_on entry') =
  (Officer.name entry, Officer.role entry, Officer.appointed_on entry,
   Officer.resigned_on entry) /\
  Officer.linked_companies entry' =
    (Officer.linked_companies entry ++ [linked_of hit])%list /\
  Officer.dissolved_links entry' =
    Officer.dissolved_links entry + one (has_status ["dissolved"] hit) /\
  Officer.liquidation_links entry' =
    Officer.liquidation_links entry
    + one (has_status ["liquidation"; "insolvency-proceedings"] hit) /\
  Report.flags (snd (fst result)) =
    (Report.flags report
       ++ (if has_status suspicious_statuses hit then [flag_of name hit] else []))%list /\
  Officer.recent_formations entry <= Officer.recent_formations entry'
    <= Officer.recent_formations entry + 1.
Proof.
  unfold scan_linked_company, has_status, flag_of, linked_of. cbn zeta.
  set (date := get (Hit.date_of_creation hit) "").
  set (status := get (Hit.company_status hit) "").
  pose proof (in_list_dissolved status) as Hdissolved.
  pose proof (in_list_liquidation status) as Hliquidation.
  assert (Hone : in_list status ["dissolved"] = String.eqb status "dissolved").
  { unfold in_list. cbn. apply orb_false_r. }
  rewrite Hone.
  assert (Hstep : forall entry0 (report0 : Report.t),
             let result :=
               (let '(entry1, w1) := count_recent_formation date entry0 w in
                (entry1, report0, w1)) in
             (fst (fst result) = entry0 \/
              fst (fst result) = Officer.incr_recent entry0) /\
             snd (fst result) = report0).
  { intros entry0 report0. cbn zeta.
    pose proof (count_recent_formation_cases date entry0 w) as Hcases.
    destruct (count_recent_formation date entry0 w) as [entry1 w1].
    cbn [fst snd] in *. split; [exact Hcases | reflexivity]. }
  destruct (in_list status suspicious_statuses) eqn:Esuspicious.
  - destruct (String.eqb status "dissolved") eqn:Ed;
      destruct (in_list status ["liquidation"; "insolvency-proceedings"]) eqn:El;
      match goal with
      | |- context [count_recent_formation date ?e w] =>
          pose proof (Hstep e (Report.append_flag
                                 ("Director " ++ name ++ " linked to "
                                    ++ get (Hit.title hit) "" ++ " (" ++ status ++ ")")
                                 report)) as H;
          cbn zeta in H; destruct H as [[H1 | H1] H2]; rewrite H1, H2
      end;
      cbn; rewrite ?app_nil_r; repeat split; try reflexivity; lia.
  - destruct (String.eqb status "dissolved") eqn:Ed;
      [discriminate (Hdissolved eq_refl) |].
    destruct (in_list status ["liquidation"; "insolvency-proceedings"]) eqn:El;
      [discriminate (Hliquidation eq_refl) |].
    match goal with
    | |- context [count_recent_formation date ?e w] =>
        pose proof (Hstep e report) as H;
        cbn zeta in H; destruct H as [[H1 | H1] H2]; rewrite H1, H2
    end;
      cbn; rewrite ?app_nil_r; repeat split; try reflexivity; lia.
Qed.

Lemma len_filter_cons {A : Type} (f : A -> bool) (x : A) (rest : list A) :
  len (filter f (x :: rest)) = (if f x then 1 else 0) + len (filter f rest).
Proof.
  unfold len. cbn [filter]. destruct (f x); cbn [List.length]; lia.
Qed.

Lemma scan_linked_companies_entry name hits : forall entry report w,
  let result := fold_left (scan_linked_company name) hits (entry, report, w) in
  let entry' := fst (fst result) in
  (Officer.name entry', Officer.role entry', Officer.appointed_on entry',
   Officer.resigned_on entry') =
  (Officer.name entry, Officer.role entry, Officer.appointed_on entry,
   Officer.resigned_on entry) /\
  Officer.linked_companies entry' =
    (Officer.linked_companies entry ++ map linked_of hits)%list /\
  Officer.dissolved_links entry' =
    Officer.dissolved_links entry + len (filter (has_status ["dissolved"]) hits) /\
  Officer.liquidation_links entry' =
    Officer.liquidation_links entry
    + len (filter (has_status ["liquidation"; "insolvency-proceedings"]) hits) /\
  Report.flags (snd (fst result)) =
    (Report.flags report
       ++ map (flag_of name) (filter (has_status suspicious_statuses) hits))%list /\
  Officer.recent_formations entry <= Officer.recent_formations entry'
    <= Officer.recent_formations entry + len hits.
Proof.
  induction hits as [| hit rest IH]; intros entry report w; cbn zeta.
  - cbn [fold_left fst snd map filter]. rewrite !app_nil_r.
    unfold len. cbn [List.length Z.of_nat]. repeat split; try reflexivity; lia.
  - cbn [fold_left].
    pose proof (scan_linked_company_entry name entry report w hit) as Hhit.
    cbn zeta in Hhit.
    destruct (scan_linked_company name (entry, report, w) hit)
      as [[entry1 report1] w1].
    cbn [fst snd] in Hhit.
    destruct Hhit as (Hprofile & Hlinked & Hdissolved & Hliquidation & Hflags & Hrecent).
    specialize (IH entry1 report1 w1). cbn zeta in IH.
    destruct IH as (IHprofile & IHlinked & IHdissolved & IHliquidation & IHflags
                    & IHrecent).
    rewrite IHprofile, IHlinked, IHdissolved, IHliquidation, IHflags.
    rewrite Hprofile, Hlinked, Hdissolved, Hliquidation, Hflags.
    rewrite !len_filter_cons, <- !app_assoc.
    split; [reflexivity |]. split; [reflexivity |].
    split; [lia |]. split; [lia |]. split.
    + cbn [filter]. destruct (has_status suspicious_statuses hit); reflexivity.
    + unfold len in *. cbn [List.length]. lia.
Qed.

Lemma status_count hit :
  (if has_status ["dissolved"] hit then 1 else 0)
  + (if has_status ["liquidation"; "insolvency-proceedings"] hit then 1 else 0)
  <= (if has_status suspicious_statuses hit then 1 else 0) <= 1.
Proof.
  unfold has_status, in_list, suspicious_statuses. cbn [existsb].
  set (status := get (Hit.company_status hit) "").
  destruct (String.eqb_spec status "dissolved") as [-> | _]; [cbn; lia |].
  destruct (String.eqb_spec status "liquidation") as [-> | _]; [cbn; lia |].
  destruct (String.eqb_spec status "insolvency-proceedings") as [-> | _];
    [cbn; lia |].
  cbn [orb].
  destruct (String.eqb status "receivership" || (String.eqb status "administration" || false));
    lia.
Qed.

Lemma status_counts hits :
  len (filter (has_status ["dissolved"]) hits)
  + len (filter (has_status ["liquidation"; "insolvency-proceedings"]) hits)
  <= len (filter (has_status suspicious_statuses) hits) <= len hits.
Proof.
  induction hits as [| hit rest IH].
  - unfold len. cbn. lia.
  - rewrite !len_filter_cons. pose proof (status_count hit).
    unfold len in *. cbn [List.length]. lia.
Qed.

(** X12: the entry of an officer carries the officer's name (or "(unknown)"),
    role and dates, one linked company per hit of the name search in order,
    dissolved_links and liquidation_links that count the hits of those
    statuses, and a recent_formations between 0 and the number of hits; one
    flag is recorded per hit of a suspicious status, including receivership
    and administration, which no counter counts. *)
Theorem X12_officer_entry_counts report w officer :
  let officer_name := get (RawOfficer.name officer) "(unknown)" in
  let search := search_companies officer_name w in
  let hits := items_or_empty (fst search) in
  let result := scan_officer (report, w) officer in
  exists entry,
    Report.officers (fst result) = (Report.officers report ++ [entry])%list /\
    Officer.name entry = officer_name /\
    Officer.role entry = get (RawOfficer.officer_role officer) "" /\
    Officer.appointed_on entry = get (RawOfficer.appointed_on officer) "" /\
    Officer.resigned_on entry = get (RawOfficer.resigned_on officer) "" /\
    Officer.linked_companies entry = map linked_of hits /\
    Officer.dissolved_links entry = len (filter (has_status ["dissolved"]) hits) /\
    Officer.liquidation_links entry =
      len (filter (has_status ["liquidation"; "insolvency-proceedings"]) hits) /\
    0 <= Officer.recent_formations entry <= len hits /\
    Report.flags (fst result) =
      (Report.flags report
         ++ map (flag_of officer_name)
              (filter (has_status suspicious_statuses) hits))%list /\
    Officer.dissolved_links entry + Officer.liquidation_links entry
      <= len (filter (has_status suspicious_statuses) hits) <= len hits.
Proof.
  cbn zeta.
  rewrite (scan_officer_unfold World requests_get now strptime report w officer).
  cbn zeta.
  set (officer_name := get (RawOfficer.name officer) "(unknown)").
  set (hits := items_or_empty (fst (search_companies officer_name w))).
  pose proof (scan_linked_companies_entry officer_name hits (blank_entry officer)
                report (snd (search_companies officer_name w))) as Hentry.
  pose proof (scan_linked_companies_linked World now strptime officer_name hits
                (blank_entry officer) report (snd (search_companies officer_name w)))
    as Hkeeps.
  cbn zeta in Hentry, Hkeeps.
  destruct (fold_left (scan_linked_company officer_name) hits
              (blank_entry officer, report, snd (search_companies officer_name w)))
    as [[entry report1] w1].
  cbn [fst snd] in *.
  destruct Hentry as (Hprofile & Hlinked & Hdissolved & Hliquidation & Hflags & Hrecent).
  destruct Hkeeps as [Hofficers _].
  injection Hprofile as Hname Hrole Happointed Hresigned.
  exists entry. cbn [Report.officers Report.append_officer Report.flags].
  rewrite Hofficers, Hname, Hrole, Happointed, Hresigned, Hlinked, Hdissolved,
    Hliquidation, Hflags.
  cbn [blank_entry Officer.name Officer.role Officer.appointed_on
         Officer.resigned_on Officer.linked_companies Officer.dissolved_links
         Officer.liquidation_links Officer.recent_formations app] in *.
  repeat (split; [first [reflexivity | lia] |]).
  apply status_counts.
Qed.

(** *** The officers of the bundle *)

Lemma scan_officer_profile report w officer :
  map profile_of (Report.officers (fst (scan_officer (report, w) officer))) =
    (map profile_of (Report.officers report) ++ [listed_profile officer])%list.
Proof.
  rewrite (scan_officer_unfold World requests_get now strptime report w officer).
  cbn zeta.
  set (officer_name := get (RawOfficer.name officer) "(unknown)").
  set (hits := items_or_empty (fst (search_companies officer_name w))).
  pose proof (scan_linked_companies_entry officer_name hits (blank_entry officer)
                report (snd (search_companies officer_name w))) as Hentry.
  pose proof (scan_linked_companies_linked World now strptime officer_name hits
                (blank_entry officer) report (snd (search_companies officer_name w)))
    as Hkeeps.
  cbn zeta in Hentry, Hkeeps.
  destruct (fold_left (scan_linked_company officer_name) hits
              (blank_entry officer, report, snd (search_companies officer_name w)))
    as [[entry report1] w1].
  cbn [fst snd] in *.
  destruct Hentry as (Hprofile & _). destruct Hkeeps as [Hofficers _].
  cbn [Report.officers Report.append_officer].
  rewrite Hofficers, map_app. cbn [map]. unfold profile_of at 2.
  rewrite Hprofile. reflexivity.
Qed.

Lemma scan_officers_profile officers : forall report w,
  map profile_of (Report.officers (fst (fold_left scan_officer officers (report, w)))) =
    (map profile_of (Report.officers report) ++ map listed_profile officers)%list.
Proof.
  induction officers as [| officer rest IH]; intros report w.
  - cbn. rewrite app_nil_r. reflexivity.
  - cbn [fold_left].
    pose proof (scan_officer_profile report w officer) as Hhead.
    destruct (scan_officer (report, w) officer) as [report1 w1].
    cbn [fst] in Hhead. rewrite IH, Hhead, <- app_assoc. reflexivity.
Qed.

(** X11: the bundle has one officer entry per officer of the listing, in the
    order of the listing, with the listed name (or "(unknown)"), role and
    dates; a failed listing gives no entry. *)
Theorem X11_officers_follow_the_listing company_number company w :
  let listing := items_or_empty (fst (get_officers company_number w)) in
  let bundle := fst (collect company_number company w) in
  map profile_of (Report.officers bundle) = map listed_profile listing /\
  List.length (Report.officers bundle) = List.length listing.
Proof.
  cbn zeta.
  destruct (collect_bundle World requests_get now strptime company_number company w)
    as (_ & Hofficers & _).
  rewrite Hofficers.
  assert (Hprofiles :
            map profile_of
              (Report.officers (fst (collect_records company_number company w))) =
            map listed_profile (items_or_empty (fst (get_officers company_number w)))).
  { unfold collect_records.
    destruct (get_officers company_number w) as [officers_data w1]. cbn [fst snd].
    destruct (get_filing_history World requests_get company_number w1)
      as [filing_data w2].
    destruct (get_psc World requests_get company_number w2) as [psc_data w3].
    destruct (get_charges World requests_get company_number w3) as [charges_data w4].
    destruct (get_insolvency World requests_get company_number w4)
      as [insolvency_data w5].
    rewrite scan_officers_profile.
    destruct insolvency_data; reflexivity. }
  split; [exact Hprofiles |].
  rewrite <- (length_map profile_of), Hprofiles, length_map. reflexivity.
Qed.

(** *** The candidates of the bundle *)

Lemma add_by_address_target company_number report hit :
  Forall (fun c => not_the_target company_number c = true)
    (Report.similar_companies report) ->
  Forall (fun c => not_the_target company_number c = true)
    (Report.similar_companies (add_by_address company_number report hit)).
Proof.
  intros Hall. unfold add_by_address.
  destruct (negb (String.eqb (get (Hit.company_number hit) "") company_number))
    eqn:Etarget; [| exact Hall].
  break_if; [| exact Hall].
  cbn [Report.similar_companies Report.append_similar].
  apply Forall_app. split; [exact Hall |].
  constructor; [| constructor]. exact Etarget.
Qed.

Lemma add_by_address_nodup company_number report hit :
  NoDup (present_numbers (Report.similar_companies report)) ->
  NoDup (present_numbers
           (Report.similar_companies (add_by_address company_number report hit))).
Proof.
  intros Hnodup. unfold add_by_address.
  break_if; [| exact Hnodup].
  destruct (existsb _ (Report.similar_companies report)) eqn:Eexists;
    cbn [negb]; [exact Hnodup |].
  cbn [Report.similar_companies Report.append_similar].
  rewrite present_numbers_app.
  apply not_present in Eexists.
  unfold present_numbers at 2. cbn [flat_map Hit.set_found_by Hit.company_number].
  destruct (Hit.company_number hit) as [number |]; cbn [get app] in *.
  - apply NoDup_app.
    + exact Hnodup.
    + constructor; [intros [] | constructor].
    + intros x Hx [<- | []]. exact (Eexists Hx).
  - rewrite app_nil_r. exact Hnodup.
Qed.

Lemma add_all_by_address_keeps company_number hits : forall report,
  (Forall (fun c => not_the_target company_number c = true)
     (Report.similar_companies report) ->
   Forall (fun c => not_the_target company_number c = true)
     (Report.similar_companies
        (fold_left (add_by_address company_number) hits report))) /\
  (NoDup (present_numbers (Report.similar_companies report)) ->
   NoDup (present_numbers
            (Report.similar_companies
               (fold_left (add_by_address company_number) hits report)))).
Proof.
  induction hits as [| hit rest IH]; intros report; cbn [fold_left].
  - split; intros H; exact H.
  - destruct (IH (add_by_address company_number report hit)) as [IH1 IH2].
    split; intros H.
    + apply IH1, add_by_address_target, H.
    + apply IH2, add_by_address_nodup, H.
Qed.

Lemma collect_by_address_keeps company_number company report w :
  let result := fst (collect_by_address company_number company report w) in
  (Forall (fun c => not_the_target company_number c = true)
     (Report.similar_companies report) ->
   Forall (fun c => not_the_target company_number c = true)
     (Report.similar_companies result)) /\
  (NoDup (present_numbers (Report.similar_companies report)) ->
   NoDup (present_numbers (Report.similar_companies result))).
Proof.
  cbn zeta. unfold collect_by_address.
  destruct (truthy_str (build_address_string company));
    [| split; intros H; exact H].
  destruct (search_companies (build_address_string company) w)
    as [address_search w1].
  destruct address_search as [error status | [[hits |]]]; cbn [fst];
    try (split; intros H; exact H).
  apply add_all_by_address_keeps.
Qed.

(** X10: the scanned company is never among its own similar companies,
    whichever search returned it, and the address search never brings in a
    company number that a candidate already carries: if the candidates of the
    name search have distinct numbers, so have all the candidates.  No search
    is made, and the bundle is left as it is, for an empty company name or an
    empty address string. *)
Theorem X10_candidates_exclude_target_and_duplicates company_number company w :
  let records := collect_records company_number company w in
  let by_name := collect_by_name company_number company (fst records) (snd records) in
  let bundle := fst (collect company_number company w) in
  Forall (fun c => get (Hit.company_number c) "" <> company_number)
    (Report.similar_companies bundle) /\
  (NoDup (present_numbers (Report.similar_companies (fst by_name))) ->
   NoDup (present_numbers (Report.similar_companies bundle))) /\
  (forall report w0,
     get (Company.company_name company) "" = "" ->
     collect_by_name company_number company report w0 = (report, w0)) /\
  (forall report w0,
     build_address_string company = "" ->
     collect_by_address company_number company report w0 = (report, w0)).
Proof.
  cbn zeta. split; [| split; [| split]].
  - unfold collect.
    destruct (collect_records_fetched World requests_get now strptime
                company_number company w) as (_ & Hnone & _).
    destruct (collect_records company_number company w) as [report1 w1].
    cbn [fst snd] in *.
    pose proof (collect_by_name_similar World requests_get company_number company
                  report1 w1) as Hname.
    cbn zeta in Hname.
    destruct (collect_by_name company_number company report1 w1) as [report2 w2].
    cbn [fst snd] in *.
    destruct (collect_by_address_keeps company_number company report2 w2)
      as [Htarget _].
    eapply Forall_impl; [| apply Htarget].
    + intros c Hc Heq. unfold not_the_target in Hc. rewrite Heq in Hc.
      rewrite String.eqb_refl in Hc. discriminate Hc.
    + rewrite Hname, Hnone. cbn [Report.similar_companies Report.set_similar_companies app].
      apply Forall_forall. intros c Hc. apply filter_In in Hc. apply Hc.
  - unfold collect.
    destruct (collect_records company_number company w) as [report1 w1].
    cbn [fst snd].
    destruct (collect_by_name company_number company report1 w1) as [report2 w2].
    cbn [fst snd].
    apply (collect_by_address_keeps company_number company report2 w2).
  - intros report w0 Hempty. unfold collect_by_name. rewrite Hempty. reflexivity.
  - intros report w0 Hempty. unfold collect_by_address. rewrite Hempty. reflexivity.
Qed.

(** *** [api_request] *)

Lemma substring_length n m s : (String.length (substring n m s) <= m)%nat.
Proof.
  revert n m. induction s as [| c s IH]; intros n m.
  - destruct n, m; cbn; lia.
  - destruct n as [| n].
    + destruct m as [| m]; cbn [substring String.length]; [lia |].
      specialize (IH 0%nat m). lia.
    + cbn [substring]. apply IH.
Qed.

(** X13: [api_request] makes one request and never raises: it returns the
    JSON body exactly for a response of status 200, and an error dict
    otherwise, which carries status_code 404 and the message "Not found"
    exactly for a response of status 404, the message of the exception for a
    failed request, and at most 500 characters of the response text after
    "HTTP <status>: " for any other status. *)
Theorem X13_api_request_outcomes k endpoint w :
  let response := requests_get k (PHOENIX_BASE_URL ++ endpoint) w in
  let result := api_request k endpoint w in
  snd result = snd response /\
  (forall body,
     fst result = ApiOk body <-> exists text, fst response = Response 200 text body) /\
  (forall error status,
     fst result = ApiError error status ->
     match fst response with
     | RequestException message => error = message /\ status = None
     | Response status_code text _ =>
         status_code <> 200 /\
         (status_code = 404 -> error = "Not found" /\ status = Some 404) /\
         (status_code <> 404 ->
          status = None /\
          error = "HTTP " ++ str status_code ++ ": " ++ substring 0 500 text /\
          (String.length error <= 7 + String.length (str status_code) + 500)%nat)
     end).
Proof.
  cbn zeta. unfold api_request.
  destruct (requests_get k (PHOENIX_BASE_URL ++ endpoint) w)
    as [[message | status_code text body] w'].
  - cbn [fst snd]. split; [reflexivity |]. split.
    + intros body. split; [discriminate | intros (text & H); discriminate H].
    + intros error status H. injection H as <- <-. split; reflexivity.
  - destruct (status_code =? 404) eqn:E404.
    + apply Z.eqb_eq in E404. subst. cbn [fst snd].
      split; [reflexivity |]. split.
      * intros body0. split; [discriminate | intros (text0 & H); discriminate H].
      * intros error status H. injection H as <- <-.
        split; [discriminate |]. split; [intros _; split; reflexivity |].
        intros Hne. contradiction Hne. reflexivity.
    + apply Z.eqb_neq in E404.
      destruct (status_code =? 200) eqn:E200; cbn [negb fst snd].
      * apply Z.eqb_eq in E200. subst.
        split; [reflexivity |]. split.
        { intros body0. split.
          - intros H. injection H as <-. exists text. reflexivity.
          - intros (text0 & H). injection H as _ <-. reflexivity. }
        intros error status H. discriminate H.
      * apply Z.eqb_neq in E200.
        split; [reflexivity |]. split.
        { intros body0. split; [discriminate |].
          intros (text0 & H). injection H as H200 _ _. contradiction. }
        intros error status H. injection H as <- <-.
        split; [exact E200 |]. split; [intros H404; contradiction |].
        intros _. split; [reflexivity |]. split; [reflexivity |].
        cbn [String.length]. rewrite length_append. cbn [String.length].
        pose proof (substring_length 0 500 text). lia.
Qed.

End CollectorFurther.

(** * Properties of the CSV viewer *)





Lemma pad_row_repeat missing : forall row,
  pad_row missing row = (row ++ repeat "" missing)%list.
Proof.
  induction missing as [| missing IH]; intros row; cbn [pad_row repeat].
  - rewrite app_nil_r. reflexivity.
  - rewrite IH, <- app_assoc. reflexivity.
Qed.


Lemma normalize_row_keeps max_cols row :
  firstn (Nat.min max_cols (List.length row)) (normalize_row max_cols row) =
    firstn max_cols row.
Proof.
  unfold normalize_row. rewrite pad_row_repeat, firstn_firstn.
  replace (Nat.min (Nat.min max_cols (List.length row)) max_cols)
    with (Nat.min max_cols (List.length row)) by lia.
  rewrite firstn_app.
  replace (Nat.min max_cols (List.length row) - List.length row)%nat with 0%nat
    by lia.
  cbn [firstn]. rewrite app_nil_r.
  destruct (Nat.le_ge_cases max_cols (List.length row)) as [Hle | Hge].
  - rewrite Nat.min_l by exact Hle. reflexivity.
  - rewrite Nat.min_r by exact Hge.
    rewrite firstn_all. symmetry. apply firstn_all2. exact Hge.
Qed.

Section CsvViewerProperties.

Variable read_lines : string -> option (list string).
Variable csv_rows : list string -> list (list string).

Local Abbreviation get_rows := (get_rows read_lines csv_rows).
Local Abbreviation get_headers := (get_headers read_lines csv_rows).
Local Abbreviation count_rows := (count_rows read_lines).




End CsvViewerProperties.

Section PageProperties.

Variable read_lines : string -> option (list string).
Variable csv_rows : list string -> list (list string).
Variable int : string -> string + Z.
Variable division_by_zero : string.

Local Abbreviation get_rows := (get_rows read_lines csv_rows).
Local Abbreviation get_headers := (get_headers read_lines csv_rows).
Local Abbreviation count_rows := (count_rows read_lines).
Local Abbreviation get_embedded_csv_data :=
  (get_embedded_csv_data read_lines csv_rows int division_by_zero).










End PageProperties.

(** * The further theorems on the examples *)

Lemma three_namesakes_returned :
  calculate_risk ascii_lower sequence_ratio_x100 format_0f_exact three_namesakes
  = Returned three_namesakes_scored.
Proof. vm_compute. reflexivity. Defined.

Lemma insolvent_returned :
  calculate_risk ascii_lower sequence_ratio_x100 format_0f_exact insolvent
  = Returned insolvent_scored.
Proof. vm_compute. reflexivity. Defined.

Lemma two_directors_three_namesakes_returned :
  calculate_risk ascii_lower sequence_ratio_x100 format_0f_exact
    two_directors_three_namesakes
  = Returned two_directors_three_namesakes_scored.
Proof. vm_compute. reflexivity. Defined.

Lemma two_directors_two_namesakes_returned :
  calculate_risk ascii_lower sequence_ratio_x100 format_0f_exact
    two_directors_two_namesakes
  = Returned two_directors_two_namesakes_scored.
Proof. vm_compute. reflexivity. Defined.

Lemma acme_rules_returned :
  score_rules ascii_lower sequence_ratio_x100 format_0f_exact acme_bundle
  = Returned acme_rules.
Proof. vm_compute. reflexivity. Defined.

(** X1 on the bundle of the healthy registry: four indicators, 80 points. *)
Lemma X1_indicators_known_and_priced_witness :
  Forall known (Report.phoenix_indicators acme_scored) /\
  (Report.risk_score acme_scored = 0 <-> Report.phoenix_indicators acme_scored = []) /\
  Z.min (10 * 4) 100 <= Report.risk_score acme_scored <= 40 * 4.
Proof.
  exact (X1_indicators_known_and_priced ascii_lower sequence_ratio_x100
           format_0f_exact acme_bundle acme_scored acme_bundle_scored).
Defined.

(** X2 on a company in liquidation with an insolvency record. *)
Lemma X2_status_and_insolvency_floor_witness :
  70 <= Report.risk_score insolvent_scored /\
  Report.risk_level insolvent_scored = Some "CRITICAL".
Proof.
  apply (proj2 (proj2 (X2_status_and_insolvency_floor ascii_lower
                         sequence_ratio_x100 format_0f_exact insolvent
                         insolvent_scored insolvent_returned))).
  - reflexivity.
  - discriminate.
Defined.

(** X3 on two directors and two namesakes: a confidence of 60 with the
    verdict NO, and the pattern it comes from. *)
Lemma X3_verdict_follows_the_threshold_witness :
  2 <= len (filter phoenix_pattern (Report.officers two_directors_two_namesakes)) /\
  filter liquidation_pattern (Report.officers two_directors_two_namesakes) = [] /\
  filter serial_pattern (Report.officers two_directors_two_namesakes) = [].
Proof.
  destruct (X3_verdict_follows_the_threshold ascii_lower sequence_ratio_x100
              format_0f_exact two_directors_two_namesakes
              two_directors_two_namesakes_scored
              two_directors_two_namesakes_returned)
    as (confidence & Hconf & _ & _ & Hmissed).
  injection Hconf as <-.
  destruct (Hmissed eq_refl eq_refl) as (Hd & Hl & Hs & _).
  split; [exact Hd |]. split; [exact Hl | exact Hs].
Defined.

(** X4 on the bundle of the healthy registry. *)
Lemma X4_reasons_match_confidence_witness :
  exists reasons confidence,
    Report.phoenix_reasons acme_scored = Some reasons /\
    Report.phoenix_confidence acme_scored = Some confidence /\
    reasons <> [] /\
    (confidence = 0 -> reasons = [no_pattern_reason]) /\
    (0 < confidence ->
     1 <= len reasons <= 6 /\
     Z.min (20 * len reasons) 100 <= confidence <= 40 * len reasons).
Proof.
  exact (X4_reasons_match_confidence ascii_lower sequence_ratio_x100
           format_0f_exact acme_bundle acme_scored acme_bundle_scored).
Defined.

(** X5 on the bundle of the healthy registry. *)
Lemma X5_lists_are_filters_witness :
  phoenix_directors acme_rules = filter phoenix_pattern (Report.officers acme_bundle) /\
  serial_directors acme_rules = filter serial_pattern (Report.officers acme_bundle) /\
  List.length (name_recycling_dissolved acme_rules) = 1%nat.
Proof.
  destruct (X5_lists_are_filters ascii_lower sequence_ratio_x100 format_0f_exact
              acme_bundle acme_rules acme_rules_returned)
    as (Hnames & Hphoenix & Hserial & _).
  split; [exact Hphoenix |]. split; [exact Hserial |].
  rewrite Hnames. vm_compute. reflexivity.
Defined.

(** X6 on three namesakes without any officer. *)
Lemma X6_verdict_needs_an_officer_pattern_witness :
  Report.is_phoenix three_namesakes_scored = Some "NO" /\
  exists confidence,
    Report.phoenix_confidence three_namesakes_scored = Some confidence /\
    confidence <= 55.
Proof.
  apply (X6_verdict_needs_an_officer_pattern ascii_lower sequence_ratio_x100
           format_0f_exact three_namesakes three_namesakes_scored
           three_namesakes_returned).
  constructor.
Defined.

(** X7 on a profile without a name and a dissolved candidate without a
    title. *)
Lemma X7_raises_only_for_a_missing_title_witness :
  calculate_risk ascii_lower sequence_ratio_x100 format_0f_exact unnamed
  = Raised (KeyError "title").
Proof.
  apply (proj1 (X7_raises_only_for_a_missing_title ascii_lower sequence_ratio_x100
                  format_0f_exact unnamed)).
  constructor. vm_compute. reflexivity.
Defined.

(** X8 on the bundle of the healthy registry. *)
Lemma X8_level_and_colour_agree_witness :
  Report.risk_level acme_scored = Some "CRITICAL" /\
  risk_color (Report.risk_score acme_scored) = "#d63638" /\
  phoenix_bg "NO" = "#28a745".
Proof.
  destruct (X8_level_and_colour_agree ascii_lower sequence_ratio_x100 format_0f_exact
              acme_bundle acme_scored acme_bundle_scored)
    as (level & verdict & Hlevel & _ & Hbands & _).
  rewrite Hlevel.
  destruct Hbands as [(_ & -> & Hcolour) | [(Hscore & _) | [(Hscore & _) | (Hscore & _)]]];
    [split; [reflexivity | split; [exact Hcolour | reflexivity]] | | |];
    exfalso; vm_compute in Hscore; destruct Hscore as [H1 H2];
    first [apply H1; reflexivity | discriminate H2].
Defined.

(** X9 on the address of the example company. *)
Lemma X9_address_string_shape_witness :
  build_address_string acme = "1 High Street Leeds LS1 1AA" /\
  String.length (build_address_string acme) = 27%nat /\
  build_address_string Company.empty = "".
Proof.
  destruct (proj2 (X9_address_string_shape acme)
              (Address.mk (Some "1 High Street") None (Some "Leeds") (Some "LS1 1AA"))
              eq_refl)
    as (Hjoin & Hlength & _).
  split; [exact Hjoin |]. split; [exact Hlength |].
  apply (proj1 (X9_address_string_shape Company.empty)). reflexivity.
Defined.

(** X10 on the scan of the healthy registry. *)
Lemma X10_candidates_exclude_target_and_duplicates_witness :
  NoDup (present_numbers (Report.similar_companies acme_bundle)) /\
  Forall (fun c => get (Hit.company_number c) "" <> "01234567")
    (Report.similar_companies acme_bundle).
Proof.
  destruct (X10_candidates_exclude_target_and_duplicates Z (scripted_get healthy)
              clock_now strptime_ymd "01234567" acme (scan_start + 250000))
    as (Hnot & Hnodup & _).
  split; [| exact Hnot].
  apply Hnodup. vm_compute.
  repeat (apply NoDup_cons; [cbn; intuition discriminate |]). apply NoDup_nil.
Defined.

(** X13 on the charges of the degraded registry: a 502 with a short body. *)
Lemma X13_api_request_outcomes_witness :
  fst (api_request Z (scripted_get degraded) Charges "/company/01234567/charges"
         scan_start)
  = ApiError "HTTP 502: Bad Gateway" None /\
  (String.length "HTTP 502: Bad Gateway" <= 7 + String.length (str 502) + 500)%nat.
Proof.
  destruct (X13_api_request_outcomes Z (scripted_get degraded) Charges
              "/company/01234567/charges" scan_start)
    as (_ & _ & Herror).
  split; [reflexivity |].
  specialize (Herror "HTTP 502: Bad Gateway" None eq_refl).
  destruct Herror as (_ & _ & Hother).
  destruct Hother as (_ & _ & Hlength); [discriminate | exact Hlength].
Defined.



(** A page without rows: the file of [notes_csv] has two lines after the
    first and one record after the header, so that page 2 at one row a page is
    a valid page, of the range 2 to 2, and holds no row. *)
Lemma page_without_rows :
  quoted_csv_rows ["name,note"; "ACME," ++ String "034"%char "first";
                   "second" ++ String "034"%char ""]
  = [["name"; "note"]; ["ACME"; "first" ++ String "010"%char "second"]] /\
  fst (count_rows notes_csv notes_reader) = 2 /\
  fst (get_embedded_csv_data notes_csv quoted_csv_rows int_digits
         "integer division or modulo by zero" (Some notes_reader)
         (Some "2") (Some "1"))
  = Page ["name"; "note"] [] 2 2 2 2 2.
Proof.
  split; [vm_compute; reflexivity |].
  split; vm_compute; reflexivity.
Qed.
